(** * AI_Finance: the chat, gateway, anomaly, calculator and statement-import
    code of the service, embedded as Rocq functions, with the properties the
    specification states about them.

    Conventions of the embedding.
    - A JavaScript [number] is an IEEE 754 double ([F64.double]) wherever a
      property depends on how the arithmetic rounds: in the two calculators
      ([Advice64]), in the anomaly check ([Demo64]) and in the statement
      import ([Statement]).  The chat dialog, and the properties of the
      calculators and of the agent that are about which value goes where,
      carry amounts as exact rationals ([Q]).
    - [undefined] and [null] are [None]; JavaScript truthiness is written out
      ([JS.truthy_num], [JS.truthy_str], [Json.truthy]).
    - A rejected promise or a thrown exception is the [Throw] case of
      [outcome]; a [try]/[catch] is a [match] on it.
    - The host's regular-expression matcher, the JSON parser, the inference
      providers and the database are collaborators: they are Section variables
      of the function that calls them. *)

From Stdlib Require Import ZArith QArith Qround Qabs Lqa List String Ascii Bool Lia.
From Stdlib Require Import Floats.SpecFloat.
From stdpp Require Import gmap strings pretty.
Import ListNotations.

Local Open Scope string_scope.
Local Open Scope list_scope.
Local Set Warnings "-register-all".

(* ===================================================================== *)
(** ** JavaScript values used by the code *)
(* ===================================================================== *)

Module JS.

Definition Qlt_bool (a b : Q) : bool := negb (Qle_bool b a).

(** [Math.max(a, b)] *)
Definition max (a b : Q) : Q := if Qle_bool a b then b else a.

(** A value that is a number, or [null]/[undefined]/[NaN] ([None]). *)
Definition truthy_num (x : option Q) : bool :=
  match x with
  | Some q => negb (Qeq_bool q 0)
  | None => false
  end.

Definition truthy_str (x : option string) : bool :=
  match x with
  | Some "" => false
  | Some _ => true
  | None => false
  end.

(** [a || b] *)
Definition or_num (a b : option Q) : option Q :=
  if truthy_num a then a else b.

Definition or_str (a b : option string) : option string :=
  if truthy_str a then a else b.

(** *** Strings *)

Definition lower (c : ascii) : ascii :=
  let n := nat_of_ascii c in
  if (65 <=? n)%nat && (n <=? 90)%nat then ascii_of_nat (n + 32) else c.

Definition upper (c : ascii) : ascii :=
  let n := nat_of_ascii c in
  if (97 <=? n)%nat && (n <=? 122)%nat then ascii_of_nat (n - 32) else c.

Fixpoint map_chars (f : ascii -> ascii) (s : string) : string :=
  match s with
  | EmptyString => EmptyString
  | String c s' => String (f c) (map_chars f s')
  end.

Definition toLowerCase : string -> string := map_chars lower.
Definition toUpperCase : string -> string := map_chars upper.

(** [s.startsWith(p)] *)
Fixpoint startsWith (p s : string) : bool :=
  match p, s with
  | EmptyString, _ => true
  | String a p', String b s' => Ascii.eqb a b && startsWith p' s'
  | String _ _, EmptyString => false
  end.

(** [s.includes(sub)] *)
Fixpoint includes (s sub : string) : bool :=
  startsWith sub s ||
  match s with
  | EmptyString => false
  | String _ s' => includes s' sub
  end.

Definition is_space (c : ascii) : bool :=
  let n := nat_of_ascii c in
  (n =? 32)%nat || ((9 <=? n)%nat && (n <=? 13)%nat).

Definition is_digit (c : ascii) : bool :=
  let n := nat_of_ascii c in (48 <=? n)%nat && (n <=? 57)%nat.

Fixpoint trimStart (s : string) : string :=
  match s with
  | String c s' => if is_space c then trimStart s' else s
  | EmptyString => EmptyString
  end.

(** Drops the white space at the end: a character is kept when something
    that is not white space follows it or it is not white space itself. *)
Fixpoint trimEnd (s : string) : string :=
  match s with
  | EmptyString => EmptyString
  | String c s' =>
      match trimEnd s' with
      | EmptyString => if is_space c then EmptyString else String c EmptyString
      | rest => String c rest
      end
  end.

Definition trim (s : string) : string := trimEnd (trimStart s).

(** [s.slice(n)] *)
Fixpoint skip (n : nat) (s : string) : string :=
  match n, s with
  | O, _ => s
  | S n', String _ s' => skip n' s'
  | S _, EmptyString => EmptyString
  end.

Fixpoint filter_chars (keep : ascii -> bool) (s : string) : string :=
  match s with
  | EmptyString => EmptyString
  | String c s' =>
      if keep c then String c (filter_chars keep s') else filter_chars keep s'
  end.

(** The digits at the head of [s], as a number, and how many there are. *)
Fixpoint digits (acc : Z) (count : nat) (s : string) : Z * nat * string :=
  match s with
  | String c s' =>
      if is_digit c
      then digits (acc * 10 + Z.of_nat (nat_of_ascii c - 48)) (S count) s'
      else (acc, count, s)
  | EmptyString => (acc, count, s)
  end.

(** [parseInt(s)] on decimal text: leading white space, an optional sign,
    then digits; [None] is [NaN]. *)
Definition parseInt (s : string) : option Z :=
  let s := trimStart s in
  let '(neg, body) :=
    match s with
    | String "-" r => (true, r)
    | String "+" r => (false, r)
    | _ => (false, s)
    end in
  match digits 0 0 body with
  | (_, O, _) => None
  | (n, _, _) => Some (if neg then (- n)%Z else n)
  end.

(** [parseFloat(s)] on decimal text without an exponent: an optional sign,
    digits, an optional fraction; [None] is [NaN]. *)
Definition parseFloat (s : string) : option Q :=
  let s := trimStart s in
  let '(neg, body) :=
    match s with
    | String "-" r => (true, r)
    | String "+" r => (false, r)
    | _ => (false, s)
    end in
  let '(ip, ni, rest) := digits 0 0 body in
  let '(fp, nf) :=
    match rest with
    | String "." r => let '(f, k, _) := digits 0 0 r in (f, k)
    | _ => (0%Z, O)
    end in
  match ni, nf with
  | O, O => None
  | _, _ =>
      let v := (inject_Z ip + inject_Z fp / inject_Z (10 ^ Z.of_nat nf))%Q in
      Some (if neg then (- v)%Q else v)
  end.


(** The text holds ASCII characters only; on these [toLowerCase] and
    [toUpperCase] are the maps above. *)
Fixpoint ascii_only (s : string) : bool :=
  match s with
  | EmptyString => true
  | String c s' => (nat_of_ascii c <? 128)%nat && ascii_only s'
  end.

End JS.

(* ===================================================================== *)
(** ** JavaScript numbers: IEEE 754 doubles *)
(* ===================================================================== *)

Module F64.

(** A JavaScript [number]: a binary64 value, with the operations of the
    standard (round to nearest, ties to even). *)
Definition double : Type := spec_float.

Definition prec : Z := 53.
Definition emax : Z := 1024.

Definition NaN : double := S754_nan.
Definition zero : double := S754_zero false.

Definition add : double -> double -> double := SFadd prec emax.
Definition sub : double -> double -> double := SFsub prec emax.
Definition mul : double -> double -> double := SFmul prec emax.
Definition div : double -> double -> double := SFdiv prec emax.

(** [Math.abs(x)] *)
Definition abs : double -> double := SFabs.

(** [a < b], [a <= b], [a === b]; [a > b] is [ltb b a]. *)
Definition ltb : double -> double -> bool := SFltb.
Definition leb : double -> double -> bool := SFleb.
Definition eqb : double -> double -> bool := SFeqb.

(** [isNaN(x)] *)
Definition isNaN (x : double) : bool :=
  match x with
  | S754_nan => true
  | _ => false
  end.

(** A number is falsy when it is [0], [-0] or [NaN]. *)
Definition truthy (x : double) : bool :=
  match x with
  | S754_zero _ | S754_nan => false
  | _ => true
  end.

(** The double nearest to the integer [z]. *)
Definition ofZ (z : Z) : double := binary_normalize prec emax z 0 false.

(** The double nearest to the rational [q]: the quotient is taken with
    three bits more than the format holds and a sticky bit for the
    remainder, and is rounded once. *)
Definition ofQ (q : Q) : double :=
  match Qnum q with
  | Z0 => zero
  | n =>
      let a := Z.abs n in
      let d := Zpos (Qden q) in
      let k := Z.max 0 (56 + Z.log2 d - Z.log2 a) in
      let scaled := Z.shiftl a k in
      let quotient := (scaled / d)%Z in
      let sticky := if (scaled mod d =? 0)%Z then 0%Z else 1%Z in
      let m := (2 * quotient + sticky)%Z in
      binary_normalize prec emax (if (n <? 0)%Z then (- m)%Z else m)
        (- k - 1) false
  end.

(** The literals [0.7] and [0.5] of the code. *)
Definition seven_tenths : double := S754_finite false 6305039478318694 (-53).
Definition half : double := S754_finite false 4503599627370496 (-53).

(** [parseFloat(s)] on decimal text without an exponent: the double nearest
    to the number written; [-0] for a zero written with a minus sign. *)
Definition parseFloat (s : string) : double :=
  match JS.parseFloat s with
  | Some q =>
      if Qeq_bool q 0 then S754_zero (JS.startsWith "-" (JS.trimStart s))
      else ofQ q
  | None => NaN
  end.

(** [parseInt(s)] on decimal text. *)
Definition parseInt (s : string) : double :=
  match JS.parseInt s with
  | Some n =>
      if (n =? 0)%Z then S754_zero (JS.startsWith "-" (JS.trimStart s))
      else ofZ n
  | None => NaN
  end.

(** [Math.max(a, b)] *)
Definition max (a b : double) : double :=
  if isNaN a || isNaN b then NaN
  else if ltb a b then b
  else if ltb b a then a
  else match a, b with
       | S754_zero true, S754_zero false => b
       | _, _ => a
       end.

(** [Math.ceil(x)]: a value with a fraction (a negative exponent) goes up to
    the next integer; a negative value above [-1] gives [-0]. *)
Definition ceil (x : double) : double :=
  match x with
  | S754_finite s m e =>
      if (0 <=? e)%Z then x
      else
        let whole := Z.shiftr (Zpos m) (- e) in
        let exact := (Z.shiftl whole (- e) =? Zpos m)%Z in
        if s then binary_normalize prec emax (- whole) 0 true
        else binary_normalize prec emax (if exact then whole else whole + 1) 0
               false
  | _ => x
  end.

(** A number, or [null]/[undefined] ([None]), in a condition and in
    [a || b]. *)
Definition truthy_num (x : option double) : bool :=
  match x with
  | Some v => truthy v
  | None => false
  end.

Definition or_num (a b : option double) : option double :=
  if truthy_num a then a else b.

(** [l.reduce((sum, x) => sum + x, 0)] *)
Definition sum (l : list double) : double := fold_left add l zero.

End F64.

(** A promise that resolves with a value or rejects; also a call that returns
    or throws. *)
Inductive outcome (A : Type) : Type :=
| Return (a : A)
| Throw (error : string).
Arguments Return {A} a.
Arguments Throw {A} error.

#[global] Instance outcome_ret : MRet outcome := fun A a => Return a.

#[global] Instance outcome_bind : MBind outcome :=
  fun A B f m =>
    match m with
    | Return a => f a
    | Throw error => Throw error
    end.

(** A pattern that does not match the text at hand. *)
Definition no_match : string -> option string := fun _ => None.


(* ===================================================================== *)
(** ** JSON documents and the values read from them *)
(* ===================================================================== *)

Module Json.

Inductive value : Type :=
| Null
| Bool (b : bool)
| Num (q : Q)
| Str (s : string)
| Arr (items : list value)
| Obj (fields : list (string * value)).

(** The own property [key] of an object; [None] is [undefined]. *)
Fixpoint field (fields : list (string * value)) (key : string) : option value :=
  match fields with
  | [] => None
  | (k, v) :: rest => if String.eqb k key then Some v else field rest key
  end.

(** [v.key] for one of the keys the service reads:
    reading a property of [undefined] or [null] throws, an object gives its
    field, any other value gives [undefined]. *)
Definition get (v : option value) (key : string) : outcome (option value) :=
  match v with
  | None =>
      Throw ("TypeError: Cannot read properties of undefined (reading '"
             +:+ key +:+ "')")
  | Some Null =>
      Throw ("TypeError: Cannot read properties of null (reading '"
             +:+ key +:+ "')")
  | Some (Obj fields) => Return (field fields key)
  | Some _ => Return None
  end.
Arguments get : simpl never.

Definition truthy (v : option value) : bool :=
  match v with
  | None => false
  | Some Null => false
  | Some (Bool b) => b
  | Some (Num q) => negb (Qeq_bool q 0)
  | Some (Str s) => negb (String.eqb s "")
  | Some (Arr _) => true
  | Some (Obj _) => true
  end.

(** [v === text] *)
Definition equals (v : option value) (text : string) : bool :=
  match v with
  | Some (Str s) => String.eqb s text
  | _ => false
  end.

(** [Array.isArray(v)] *)
Definition isArray (v : option value) : bool :=
  match v with
  | Some (Arr _) => true
  | _ => false
  end.

(** [a || b] *)
Definition orElse (a b : option value) : option value :=
  if truthy a then a else b.

(** *** A reader for JSON text

    [parse] stands for [JSON.parse] in the worked examples: it reads [null],
    [true], [false], decimal numbers without an exponent, strings with the
    one-letter escapes, arrays and objects; [None] is a [SyntaxError].  When
    a key is repeated the last one is the one [field] finds. *)

Definition quote : ascii := "034"%char.
Definition backslash : ascii := "092"%char.

(** The text of a string literal after its opening quote. *)
Fixpoint parse_string (s : string) : option (string * string) :=
  match s with
  | EmptyString => None
  | String c rest =>
      if Ascii.eqb c quote then Some (EmptyString, rest)
      else if Ascii.eqb c backslash then
        match rest with
        | String e rest' =>
            let decoded :=
              if Ascii.eqb e "n"%char then Some "010"%char
              else if Ascii.eqb e "t"%char then Some "009"%char
              else if Ascii.eqb e "r"%char then Some "013"%char
              else if Ascii.eqb e "b"%char then Some "008"%char
              else if Ascii.eqb e "f"%char then Some "012"%char
              else if Ascii.eqb e quote || Ascii.eqb e backslash
                      || Ascii.eqb e "/"%char then Some e
              else None in
            match decoded, parse_string rest' with
            | Some d, Some (text, after) => Some (String d text, after)
            | _, _ => None
            end
        | EmptyString => None
        end
      else
        match parse_string rest with
        | Some (text, after) => Some (String c text, after)
        | None => None
        end
  end.

Definition parse_number (s : string) : option (Q * string) :=
  let '(neg, body) :=
    match s with
    | String "-" r => (true, r)
    | _ => (false, s)
    end in
  match JS.digits 0 0 body with
  | (_, O, _) => None
  | (ip, _, rest) =>
      let sign (v : Q) := if neg then (- v)%Q else v in
      match rest with
      | String "." r =>
          match JS.digits 0 0 r with
          | (_, O, _) => None
          | (fp, nf, rest') =>
              Some (sign (inject_Z ip
                          + inject_Z fp / inject_Z (10 ^ Z.of_nat nf))%Q,
                    rest')
          end
      | _ => Some (sign (inject_Z ip), rest)
      end
  end.

Definition after_keyword (keyword : string) (v : value) (s : string)
  : option (value * string) :=
  if JS.startsWith keyword s
  then Some (v, JS.skip (String.length keyword) s)
  else None.

(** [fields[key] = v]: an existing key keeps its place. *)
Fixpoint set_field (fields : list (string * value)) (key : string) (v : value)
  : list (string * value) :=
  match fields with
  | [] => [(key, v)]
  | (k, old) :: rest =>
      if String.eqb k key then (k, v) :: rest
      else (k, old) :: set_field rest key v
  end.

Definition object_of (members : list (string * value)) : value :=
  Obj (fold_left (fun fields m => set_field fields (fst m) (snd m)) members []).

Fixpoint parse_value (fuel : nat) (s : string) : option (value * string) :=
  match fuel with
  | O => None
  | S fuel =>
      match JS.trimStart s with
      | EmptyString => None
      | String c rest as text =>
          if Ascii.eqb c quote then
            match parse_string rest with
            | Some (t, after) => Some (Str t, after)
            | None => None
            end
          else if Ascii.eqb c "["%char then
            match JS.trimStart rest with
            | String "]" after => Some (Arr [], after)
            | _ =>
                match parse_elements fuel rest with
                | Some (items, after) => Some (Arr items, after)
                | None => None
                end
            end
          else if Ascii.eqb c "{"%char then
            match JS.trimStart rest with
            | String "}" after => Some (Obj [], after)
            | _ =>
                match parse_members fuel rest with
                | Some (members, after) => Some (object_of members, after)
                | None => None
                end
            end
          else if Ascii.eqb c "n"%char then after_keyword "ull" Null rest
          else if Ascii.eqb c "t"%char then after_keyword "rue" (Bool true) rest
          else if Ascii.eqb c "f"%char then after_keyword "alse" (Bool false) rest
          else
            match parse_number text with
            | Some (q, after) => Some (Num q, after)
            | None => None
            end
      end
  end
with parse_elements (fuel : nat) (s : string) : option (list value * string) :=
  match fuel with
  | O => None
  | S fuel =>
      match parse_value fuel s with
      | Some (v, after) =>
          match JS.trimStart after with
          | String "," rest =>
              match parse_elements fuel rest with
              | Some (vs, after') => Some (v :: vs, after')
              | None => None
              end
          | String "]" rest => Some ([v], rest)
          | _ => None
          end
      | None => None
      end
  end
with parse_members (fuel : nat) (s : string)
  : option (list (string * value) * string) :=
  match fuel with
  | O => None
  | S fuel =>
      match JS.trimStart s with
      | String c rest =>
          if Ascii.eqb c quote then
            match parse_string rest with
            | Some (key, after) =>
                match JS.trimStart after with
                | String ":" rest' =>
                    match parse_value fuel rest' with
                    | Some (v, after') =>
                        match JS.trimStart after' with
                        | String "," rest'' =>
                            match parse_members fuel rest'' with
                            | Some (ms, after'') =>
                                Some ((key, v) :: ms, after'')
                            | None => None
                            end
                        | String "}" rest'' => Some ([(key, v)], rest'')
                        | _ => None
                        end
                    | None => None
                    end
                | _ => None
                end
            | None => None
            end
          else None
      | EmptyString => None
      end
  end.

Definition parse (text : string) : option value :=
  match parse_value (2 * String.length text + 2) text with
  | Some (v, rest) =>
      match JS.trimStart rest with
      | EmptyString => Some v
      | String _ _ => None
      end
  | None => None
  end.

(** [s] between double quotes *)
Definition quoted (s : string) : string :=
  String quote (s +:+ String quote EmptyString).

End Json.

(* ===================================================================== *)
(** ** Model router and inference gateway: [getOptimalModel],
       [callAIWithBestModel] *)
(* ===================================================================== *)

Module Gateway.

Inductive client : Type := githubAI | groq.

Record modelConfig : Type := {
  model : string;
  client_ : client;
  type_ : string
}.

Definition models : list (string * modelConfig) :=
  [ ("expense-extraction",
     {| model := "openai/gpt-4o"; client_ := githubAI; type_ := "github" |});
    ("conversation",
     {| model := "openai/gpt-4o-mini"; client_ := githubAI; type_ := "github" |});
    ("spending-analysis",
     {| model := "deepseek/deepseek-v3-0324"; client_ := githubAI;
        type_ := "github" |});
    ("receipt-ocr",
     {| model := "openai/gpt-4o"; client_ := githubAI; type_ := "github" |});
    ("voice-to-text",
     {| model := "openai/whisper-1"; client_ := githubAI; type_ := "github" |});
    ("backup",
     {| model := "llama-3.3-70b-versatile"; client_ := groq; type_ := "groq" |}) ].

Definition lookup (task : string) : option modelConfig :=
  match List.find (fun entry => String.eqb (fst entry) task) models with
  | Some entry => Some (snd entry)
  | None => None
  end.

(** The properties every object literal inherits from [Object.prototype]:
    [models[task]] finds them when [task] is one of these names. *)
Definition prototypeMembers : list string :=
  ["constructor"; "__proto__"; "hasOwnProperty"; "isPrototypeOf";
   "propertyIsEnumerable"; "toLocaleString"; "toString"; "valueOf";
   "__defineGetter__"; "__defineSetter__"; "__lookupGetter__";
   "__lookupSetter__"].

(** What [getOptimalModel] returns: a configuration of the table, or the
    member of the prototype the task names (a function, or the prototype
    itself: truthy, and without [model], [client] and [type]). *)
Inductive selection : Type :=
| Configured (config : modelConfig)
| Inherited (member : string).

Definition conversation : modelConfig :=
  {| model := "openai/gpt-4o-mini"; client_ := githubAI; type_ := "github" |}.

(** [models[task] || models["conversation"]] *)
Definition getOptimalModel (task : string) : selection :=
  match lookup task with
  | Some config => Configured config
  | None =>
      if existsb (String.eqb task) prototypeMembers then Inherited task
      else Configured conversation
  end.

Record message : Type := {
  role : string;
  content : string
}.

(** The argument of [client.chat.completions.create], with the client it is
    sent to. *)
Record request : Type := {
  to : client;
  request_model : string;
  messages : list message;
  tools : option (list string);
  tool_choice : option string
}.

Record choice : Type := {
  message_content : option string
}.

(** The object a request resolves with: its [choices] and
    [usage?.total_tokens]. *)
Record response : Type := {
  choices : list choice;
  total_tokens : option Z
}.

(** [tools ? "auto" : undefined] (an array is truthy, also when empty) *)
Definition toolChoice (tools : option (list string)) : option string :=
  match tools with
  | Some _ => Some "auto"
  | None => None
  end.

Section Provider.

(** The providers: what the [n]-th request of the run resolves with or
    rejects with ([n] counts the requests issued before it). *)
Variable create : nat -> request -> outcome response.

(** The [catch] block of [callAIWithBestModel]: one request to the
    configuration of the task "backup". *)
Definition callFallback (msgs : list message) (tls : option (list string))
    (issued : list request) : outcome response * list request :=
  match getOptimalModel "backup" with
  | Configured fallback =>
      let second :=
        {| to := client_ fallback; request_model := model fallback;
           messages := msgs; tools := tls; tool_choice := toolChoice tls |} in
      match create (List.length issued) second with
      | Return fallbackResponse => (Return fallbackResponse, issued ++ [second])
      | Throw fallbackError => (Throw fallbackError, issued ++ [second])
      end
  | Inherited _ =>
      (Throw "TypeError: Cannot read properties of undefined (reading 'chat')",
       issued)
  end.

(** [callAIWithBestModel(task, messages, tools)], threading the list of the
    requests issued so far.  For an inherited member [config.client] is
    [undefined]: reading [chat] of it throws inside the [try] block, before
    any request is made. *)
Definition callAIWithBestModel (task : string) (msgs : list message)
    (tls : option (list string)) (issued : list request)
  : outcome response * list request :=
  match getOptimalModel task with
  | Configured config =>
      let primary :=
        if String.eqb (type_ config) "github" then
          {| to := client_ config; request_model := model config;
             messages := msgs; tools := tls; tool_choice := toolChoice tls |}
        else
          {| to := client_ config; request_model := model config;
             messages := msgs; tools := tls; tool_choice := toolChoice tls |} in
      match create (List.length issued) primary with
      | Return response => (Return response, issued ++ [primary])
      | Throw error => callFallback msgs tls (issued ++ [primary])
      end
  | Inherited _ => callFallback msgs tls issued
  end.

End Provider.

(** The configuration the table gives for a task, and the request the
    gateway sends first for a task that selects a configuration; the request
    it sends to the fallback provider. *)
Definition configOf (task : string) : modelConfig :=
  match lookup task with
  | Some config => config
  | None => conversation
  end.

Definition primaryRequest (task : string) (msgs : list message)
    (tls : option (list string)) : request :=
  {| to := client_ (configOf task);
     request_model := model (configOf task);
     messages := msgs; tools := tls; tool_choice := toolChoice tls |}.

Definition fallbackRequest (msgs : list message) (tls : option (list string))
  : request :=
  {| to := groq; request_model := "llama-3.3-70b-versatile";
     messages := msgs; tools := tls; tool_choice := toolChoice tls |}.

(** Both providers are down: the gateway issues the request to GitHub Models,
    then the same messages to Groq, and fails once. *)
Definition providers_down (n : nat) (r : request) : outcome response :=
  match to r with
  | githubAI => Throw "401 Unauthorized"
  | groq => Throw "429 Too Many Requests"
  end.

(** A response that resolves without the shape the callers read: it has no
    choices. *)
Definition shapeless : response := {| choices := []; total_tokens := None |}.

End Gateway.

(* ===================================================================== *)
(** ** Intent classifier: [extractFinancialData] and
       [extractExpenseFromMessage] *)
(* ===================================================================== *)

Module Classifier.

(** What [extractFinancialData] resolves with.  [type] is declared as one of
    seven strings, but it holds whatever [result.type] was. *)
Record extraction : Type := {
  type : option Json.value;
  hasData : bool;
  data : option Json.value;
  isMultiple : option Json.value
}.

(** [{ type: "none", hasData: false }] *)
Definition none : extraction :=
  {| type := Some (Json.Str "none"); hasData := false; data := None;
     isMultiple := None |}.

Inductive question : Type :=
| AskAmount
| AskDescription
| AskCategory (amount : option Json.value).

(** What [extractExpenseFromMessage] resolves with. *)
Record expenseExtraction : Type := {
  hasExpense : bool;
  expenseData : option Json.value;
  missingFields : option (list string);
  clarificationQuestion : option question
}.

(** [{ hasExpense: false }] *)
Definition noExpense : expenseExtraction :=
  {| hasExpense := false; expenseData := None; missingFields := None;
     clarificationQuestion := None |}.

(** [s.replace(/TAG\s*/g, "")] for a literal TAG: every occurrence goes,
    with the white space after it. *)
Fixpoint removeTag (fuel : nat) (tag s : string) : string :=
  match fuel with
  | O => s
  | S fuel =>
      if JS.startsWith tag s
      then removeTag fuel tag (JS.trimStart (JS.skip (String.length tag) s))
      else match s with
           | EmptyString => EmptyString
           | String c rest => String c (removeTag fuel tag rest)
           end
  end.

Definition removeAll (tag s : string) : string :=
  removeTag (S (String.length s)) tag s.

(** "Clean up markdown code blocks if present" *)
Definition cleanContent (content : string) : string :=
  JS.trim (removeAll "```" (removeAll "```json" content)).

(** [response.choices[0].message.content || "{}"] *)
Definition readContent (response : Gateway.response) : outcome string :=
  match Gateway.choices response with
  | [] =>
      Throw "TypeError: Cannot read properties of undefined (reading 'message')"
  | first :: _ =>
      match JS.or_str (Gateway.message_content first) (Some "{}") with
      | Some content => Return content
      | None => Return "{}"
      end
  end.

(** [list.includes(x)] *)
Definition member (x : string) (l : list string) : bool :=
  existsb (String.eqb x) l.

Section Validation.

(** The number a string, an array or an object converts to in a comparison;
    [None] is [NaN]. *)
Variable ToNumber : Json.value -> option Q.

(** [v <= 0] *)
Definition le_zero (v : option Json.value) : bool :=
  match v with
  | None => false
  | Some Json.Null => true
  | Some (Json.Bool b) => negb b
  | Some (Json.Num q) => Qle_bool q 0
  | Some other =>
      match ToNumber other with
      | Some n => Qle_bool n 0
      | None => false
      end
  end.

(** [extractExpenseFromMessage] from "Check for missing required fields" to
    the clarification question, on the four fields it reads. *)
Definition validateExpense (amount name description category : option Json.value)
  : list string * option question :=
  let missingFields := [] in
  let missingFields :=
    if negb (Json.truthy amount) || le_zero amount
    then missingFields ++ ["amount"] else missingFields in
  let missingFields :=
    if negb (Json.truthy name) && negb (Json.truthy description)
    then missingFields ++ ["description"] else missingFields in
  let missingFields :=
    if negb (Json.truthy category)
    then missingFields ++ ["category"] else missingFields in
  let clarificationQuestion :=
    if (0 <? List.length missingFields)%nat then
      if member "amount" missingFields then Some AskAmount
      else if member "description" missingFields then Some AskDescription
      else if member "category" missingFields then Some (AskCategory amount)
      else None
    else None in
  (missingFields, clarificationQuestion).

End Validation.

Section Extraction.

Variable create : nat -> Gateway.request -> outcome Gateway.response.

(** [JSON.parse]; [None] is a [SyntaxError]. *)
Variable JSON_parse : string -> option Json.value.

Variable ToNumber : Json.value -> option Q.

(** The two prompt templates, filled in. *)
Variable extractionPrompt : string -> option string -> string.
Variable expensePrompt : string -> string.

Definition parseContent (content : string) : outcome Json.value :=
  match JSON_parse (cleanContent content) with
  | Some result => Return result
  | None => Throw "SyntaxError: Unexpected token in JSON"
  end.

(** The [try] block of [extractFinancialData], given the response. *)
Definition classify (response : Gateway.response) : outcome extraction :=
  content ← readContent response;
  result ← parseContent content;
  type ← Json.get (Some result) "type";
  if negb (Json.truthy type) || Json.equals type "none" then Return none
  else
    data ← Json.get (Some result) "data";
    isMultiple ← Json.get (Some result) "isMultiple";
    Return {| type := type;
              hasData := true;
              data := data;
              isMultiple := Json.orElse isMultiple (Some (Json.Bool false)) |}.

Definition extractFinancialData_try (message : string)
    (conversationContext : option string) (issued : list Gateway.request)
  : outcome extraction * list Gateway.request :=
  let '(response, issued) :=
    Gateway.callAIWithBestModel create "expense-extraction"
      [ {| Gateway.role := "user";
           Gateway.content := extractionPrompt message conversationContext |} ]
      None issued in
  (response ≫= classify, issued).

(** [extractFinancialData(message, conversationContext)]: the [catch]
    answers every exception with the [none] variant. *)
Definition extractFinancialData (message : string)
    (conversationContext : option string) (issued : list Gateway.request)
  : extraction * list Gateway.request :=
  match extractFinancialData_try message conversationContext issued with
  | (Return result, issued) => (result, issued)
  | (Throw _, issued) => (none, issued)
  end.

(** The [try] block of [extractExpenseFromMessage], given the response. *)
Definition readExpense (response : Gateway.response)
  : outcome expenseExtraction :=
  content ← readContent response;
  result ← parseContent content;
  hasExpense ← Json.get (Some result) "hasExpense";
  if negb (Json.truthy hasExpense) then Return noExpense
  else
    expenseData ← Json.get (Some result) "expenseData";
    amount ← Json.get expenseData "amount";
    name ← Json.get expenseData "name";
    description ← Json.get expenseData "description";
    category ← Json.get expenseData "category";
    let '(missingFields, clarificationQuestion) :=
      validateExpense ToNumber amount name description category in
    Return {| hasExpense := true;
              expenseData := expenseData;
              missingFields :=
                if (0 <? List.length missingFields)%nat
                then Some missingFields else None;
              clarificationQuestion := clarificationQuestion |}.

Definition extractExpenseFromMessage_try (message : string)
    (issued : list Gateway.request)
  : outcome expenseExtraction * list Gateway.request :=
  let '(response, issued) :=
    Gateway.callAIWithBestModel create "expense-extraction"
      [ {| Gateway.role := "user"; Gateway.content := expensePrompt message |} ]
      None issued in
  (response ≫= readExpense, issued).

Definition extractExpenseFromMessage (message : string)
    (issued : list Gateway.request)
  : expenseExtraction * list Gateway.request :=
  match extractExpenseFromMessage_try message issued with
  | (Return result, issued) => (result, issued)
  | (Throw _, issued) => (noExpense, issued)
  end.

End Extraction.

(** *** The shape the prompt of [extractFinancialData] asks for *)

Definition intents : list string :=
  ["expense"; "income"; "budget"; "goal"; "analytics"; "advice"; "none"].

(** An object whose [type] is one of the seven intent names and, unless the
    intent is "none", whose [data] is an object or an array. *)
Definition expected_shape (result : Json.value) : bool :=
  match result with
  | Json.Obj fields =>
      match Json.field fields "type" with
      | Some (Json.Str t) =>
          member t intents
          && (String.eqb t "none"
              || match Json.field fields "data" with
                 | Some (Json.Obj _) | Some (Json.Arr _) => true
                 | _ => false
                 end)
      | _ => false
      end
  | _ => false
  end.

(** The fields in the order the specification checks them, and the question
    that belongs to each. *)
Definition required_fields : list string := ["amount"; "description"; "category"].

Definition question_for (field : string) (amount : option Json.value)
  : option question :=
  if String.eqb field "amount" then Some AskAmount
  else if String.eqb field "description" then Some AskDescription
  else if String.eqb field "category" then Some (AskCategory amount)
  else None.

(** A provider that answers every request with the same text. *)
Definition answers (content : string)
  : nat -> Gateway.request -> outcome Gateway.response :=
  fun _ _ =>
    Return {| Gateway.choices := [ {| Gateway.message_content := Some content |} ];
              Gateway.total_tokens := Some 42%Z |}.

(** Strings and objects in a comparison with a number: not needed by the
    examples, which compare numbers. *)
Definition not_a_number : Json.value -> option Q := fun _ => None.

(** Provider answers used in the worked examples. *)

(** [{"type":"expense"}], in a markdown code fence: an answer cut short,
    without its [data]. *)
Definition incomplete_answer : string :=
  "```json" +:+ String "010"%char
    ("{" +:+ Json.quoted "type" +:+ ":" +:+ Json.quoted "expense" +:+ "}")
  +:+ String "010"%char "```".

(** [{"type":"banana","data":{}}]: an intent the prompt does not list. *)
Definition banana_answer : string :=
  "{" +:+ Json.quoted "type" +:+ ":" +:+ Json.quoted "banana" +:+ ","
  +:+ Json.quoted "data" +:+ ":{}}".

Definition prose_answer : string :=
  "Sure! The user spent 150 on coffee.".

(** [{"hasExpense": true, "expenseData": {"name": "coffee", "amount": null}}] *)
Definition coffee_answer : string :=
  "{" +:+ Json.quoted "hasExpense" +:+ ": true, " +:+ Json.quoted "expenseData"
  +:+ ": {" +:+ Json.quoted "name" +:+ ": " +:+ Json.quoted "coffee" +:+ ", "
  +:+ Json.quoted "amount" +:+ ": null}}".

Definition prompt2 : string -> option string -> string := fun message _ => message.
Definition prompt1 : string -> string := fun message => message.

(** [body] as the providers usually send it: in a markdown code fence. *)
Definition fenced (body : string) : string :=
  "```json" +:+ String "010"%char (body +:+ String "010"%char "```").

End Classifier.

(* ===================================================================== *)
(** ** Chat: [processChatMessage], the conversation states and the expense
       handlers *)
(* ===================================================================== *)

Module Chat.

(** [pendingExpense] of a conversation state. *)
Record PendingExpense : Type := {
  name : option string;
  amount : option Q;
  category : option string;
  description : option string;
  merchant : option string;
  location : option string
}.

Record ConversationState : Type := {
  userId : string;
  pendingExpense : option PendingExpense;
  missingFields : option (list string);
  lastContext : option string
}.

(** [{ userId }] *)
Definition fresh (user : string) : ConversationState :=
  {| userId := user; pendingExpense := None; missingFields := None;
     lastContext := None |}.

(** A row of the table [expenses], with the name of its category. *)
Record Expense : Type := {
  owner : string;
  categoryName : string;
  expenseName : option Json.value;
  expenseAmount : Q;
  expenseDescription : option Json.value;
  expenseMerchant : option Json.value;
  expenseLocation : option Json.value
}.

(** A row of the table [expense_categories]: a default category belongs to
    no user. *)
Record Category : Type := {
  user_id : option string;
  category_name : string;
  is_default : bool
}.

(** What the reply to a batch lists for an expense that was saved, and for
    one that was not. *)
Record savedSummary : Type := {
  savedName : option Json.value;
  savedAmount : option Json.value;
  savedCategory : option Json.value
}.

Record failedSummary : Type := {
  failedName : option Json.value;
  failedError : string
}.

Inductive action : Type :=
| expense_saved | income_saved | budget_saved | goal_saved
| analytics | pending | advice | greeting.

(** The texts [processChatMessage] and the expense handlers answer with. *)
Inductive responseText : Type :=
| ExpenseSaved (name amount category : option Json.value)
| FailedToSaveExpense (error : string)
| ExpensesSaved (successful : list savedSummary) (failed : list failedSummary)
| PerfectSaved (expense : Expense)
| CouldNotSave (error : string)
| Ask (field : string) (pendingAmount : option Q)
| NoAmountFound
| ChooseACategory
| ProvideWhatIAsked
| GreetingText
| DidNotUnderstand
| NotSureWhatYouWant
| SorryError
| OtherText (text : string).

Record reply : Type := {
  response : responseText;
  action_ : option action;
  saved : list Expense
}.

(** A row of [chat_messages]. *)
Record ChatMessage : Type := {
  chatUser : string;
  message : string;
  chatResponse : responseText;
  intent : option string
}.

(** Everything a chat turn reads or changes: the requests sent to the
    providers, the map [conversationStates], and the tables of the
    database with the number of queries run so far. *)
Record World : Type := {
  issued : list Gateway.request;
  conversationStates : gmap string ConversationState;
  categories : list Category;
  expenses : list Expense;
  chat_messages : list ChatMessage;
  queries : nat
}.

(** A computation that reads and changes the world and returns or throws. *)
Definition M (A : Type) : Type := World -> outcome A * World.

#[global] Instance M_ret : MRet M := fun A a w => (Return a, w).

#[global] Instance M_bind : MBind M :=
  fun A B f m w =>
    match m w with
    | (Return a, w') => f a w'
    | (Throw error, w') => (Throw error, w')
    end.

(** [try { m } catch (error) { handler }] *)
Definition catch {A : Type} (m : M A) (handler : string -> M A) : M A :=
  fun w =>
    match m w with
    | (Return a, w') => (Return a, w')
    | (Throw error, w') => handler error w'
    end.

Definition lift {A : Type} (o : outcome A) : M A := fun w => (o, w).

(** A computation keeps the conversation states when it leaves the map
    [conversationStates] as it found it. *)
Definition keeps {A : Type} (m : M A) : Prop :=
  forall w, conversationStates (snd (m w)) = conversationStates w.

(** A string method called on [v]: a value that is not a string has none. *)
Definition asString (v : option Json.value) : outcome string :=
  match v with
  | Some (Json.Str s) => Return s
  | _ => Throw "TypeError: toLowerCase is not a function"
  end.

Definition anyOf (text : string) (keywords : list string) : bool :=
  existsb (fun keyword => JS.includes text keyword) keywords.

Definition categorizeExpenseAuto (description : string) : string :=
  let desc := JS.toLowerCase description in
  if anyOf desc ["food"; "restaurant"; "coffee"; "lunch"; "dinner";
                 "groceries"; "snacks"; "pizza"; "burger"] then "food"
  else if anyOf desc ["uber"; "taxi"; "bus"; "train"; "petrol"; "fuel";
                      "auto"; "metro"] then "transport"
  else if anyOf desc ["movie"; "game"; "entertainment"; "netflix"; "spotify";
                      "concert"] then "entertainment"
  else if anyOf desc ["shopping"; "clothes"; "amazon"; "flipkart"; "shoes";
                      "shirt"] then "shopping"
  else if anyOf desc ["electricity"; "water"; "internet"; "phone"; "rent";
                      "bill"] then "bills"
  else if anyOf desc ["doctor"; "medicine"; "hospital"; "pharmacy"; "clinic"]
  then "healthcare"
  else "other".

Definition greetings : list string :=
  ["hi"; "hello"; "hey"; "good morning"; "good afternoon"; "good evening";
   "greetings"; "what's up"; "sup"; "howdy"].

(** [{ ...pendingExpense, amount }] as the object handed to
    [saveExpenseToDatabase]. *)
Definition objectOf (p : PendingExpense) : Json.value :=
  let text (key : string) (v : option string) :=
    match v with
    | Some s => [(key, Json.Str s)]
    | None => []
    end in
  Json.Obj
    (text "name" (name p)
     ++ match amount p with
        | Some q => [("amount", Json.Num q)]
        | None => []
        end
     ++ text "category" (category p)
     ++ text "description" (description p)
     ++ text "merchant" (merchant p)
     ++ text "location" (location p)).

(** [missingFields.filter((f) => f !== field)] *)
Definition without (field : string) (fields : list string) : list string :=
  List.filter (fun f => negb (String.eqb f field)) fields.

(** What [handleExpenseCompletion] resolves with. *)
Record completion : Type := {
  completed : bool;
  completionResponse : responseText;
  state_ : ConversationState;
  expense_ : option Expense
}.

Definition withQueries (w : World) (n : nat) : World :=
  {| issued := issued w; conversationStates := conversationStates w;
     categories := categories w; expenses := expenses w;
     chat_messages := chat_messages w; queries := n |}.

Definition withStates (w : World) (states : gmap string ConversationState)
  : World :=
  {| issued := issued w; conversationStates := states;
     categories := categories w; expenses := expenses w;
     chat_messages := chat_messages w; queries := queries w |}.

Definition withPending (state : ConversationState) (p : PendingExpense)
  : ConversationState :=
  {| userId := userId state; pendingExpense := Some p;
     missingFields := missingFields state; lastContext := lastContext state |}.

Section Service.

Variable create : nat -> Gateway.request -> outcome Gateway.response.
Variable JSON_parse : string -> option Json.value.
Variable extractionPrompt : string -> option string -> string.

(** The error, if any, that the database raises on its [n]-th query. *)
Variable dbFault : nat -> option string.

(** The text a response is stored and shown as. *)
Variable render : responseText -> string.

(** The first number in a reply ([/(\d+(?:\.\d{1,2})?)/]) and the first
    category name in it, as [String.prototype.match] finds them. *)
Variable matchNumber : string -> option string.
Variable matchCategory : string -> option string.

(** The handlers of the other intents (income, budget, goal, analytics,
    advice): intent, user, payload, message and conversation context. *)
Variable handleOther :
  string -> string -> option Json.value -> string -> string -> M reply.

(** One query: it fails when the database says so, and runs otherwise. *)
Definition query {A : Type} (run : World -> outcome A * World) : M A :=
  fun w =>
    match dbFault (queries w) with
    | Some error => (Throw error, withQueries w (S (queries w)))
    | None =>
        let '(a, w') := run w in (a, withQueries w' (S (queries w)))
    end.

(** [WHERE is_default = TRUE OR user_id = $1] *)
Definition visible (user : string) (c : Category) : bool :=
  is_default c
  || match user_id c with
     | Some u => String.eqb u user
     | None => false
     end.

(** [expenseModel.getCategories(userId)]: the names of the default
    categories and of the user's own, the default ones first. *)
Definition getCategories (user : string) : M (list string) :=
  query (fun w =>
    let rows := List.filter (visible user) (categories w) in
    (Return
       (List.map category_name
          (List.filter is_default rows
           ++ List.filter (fun c => negb (is_default c)) rows)),
     w)).

(** [expenseModel.createCategory(userId, { name, color, icon })]: the new
    row is the user's, and not a default. *)
Definition createCategory (user categoryName : string) : M string :=
  query (fun w =>
    (Return categoryName,
     {| issued := issued w; conversationStates := conversationStates w;
        categories :=
          categories w
          ++ [ {| user_id := Some user; category_name := categoryName;
                  is_default := false |} ];
        expenses := expenses w; chat_messages := chat_messages w;
        queries := queries w |})).

(** [expenseModel.create]: the column [amount] is [DECIMAL NOT NULL]; the
    insert of a row without an amount is refused. *)
Definition createExpense (row : outcome Expense) : M Expense :=
  query (fun w =>
    match row with
    | Return e =>
        (Return e,
         {| issued := issued w; conversationStates := conversationStates w;
            categories := categories w; expenses := expenses w ++ [e];
            chat_messages := chat_messages w; queries := queries w |})
    | Throw error => (Throw error, w)
    end).

Definition saveChatMessage (user text : string) (response : responseText)
    (intent : option string) : M unit :=
  query (fun w =>
    (Return tt,
     {| issued := issued w; conversationStates := conversationStates w;
        categories := categories w; expenses := expenses w;
        chat_messages :=
          chat_messages w
          ++ [ {| chatUser := user; message := text;
                  chatResponse := response; intent := intent |} ];
        queries := queries w |})).

(** The last [limit] messages of the user, newest first. *)
Definition getChatHistory (user : string) (limit : nat) : M (list ChatMessage) :=
  query (fun w =>
    (Return
       (List.firstn limit
          (List.rev
             (List.filter (fun m => String.eqb (chatUser m) user)
                (chat_messages w)))),
     w)).

Fixpoint join (separator : string) (parts : list string) : string :=
  match parts with
  | [] => ""
  | [part] => part
  | part :: rest => part +:+ separator +:+ join separator rest
  end.

Definition newline : string := String "010"%char EmptyString.

Definition getConversationContext (user : string) (messageCount : nat)
  : M string :=
  catch
    (messages ← getChatHistory user messageCount;
     mret (join (newline +:+ newline)
             (List.map
                (fun msg => "User: " +:+ message msg +:+ newline
                            +:+ "Assistant: " +:+ render (chatResponse msg))
                (List.rev messages))))
    (fun _ => mret "").

(** The row [saveExpenseToDatabase] inserts, for an amount that is a number
    or is missing ([undefined] or [null], which the column refuses).  What
    the database makes of an amount of another type (a text, a boolean, a
    list) is not part of the service: such a row is taken as refused, and
    the properties of the saved rows are stated for amounts that are numbers
    or are missing. *)
Definition expenseRow (user stored categoryName : string)
    (name description amount merchant location : option Json.value)
  : outcome Expense :=
  match amount with
  | Some (Json.Num q) =>
      Return
        {| owner := user;
           categoryName := stored;
           expenseName :=
             Json.orElse (Json.orElse name description)
               (Some (Json.Str (categoryName +:+ " expense")));
           expenseAmount := q;
           expenseDescription := Json.orElse description name;
           expenseMerchant := merchant;
           expenseLocation := location |}
  | None | Some Json.Null =>
      Throw "null value in column amount violates not-null constraint"
  | Some _ => Throw "invalid input syntax for type numeric"
  end.

(** The [try] block of [saveExpenseToDatabase].  The category of the
    payload is used as a string ([categoryName.toLowerCase()], in the
    callback of [find]) only after the categories have been read.  A
    category that is not a string fails there; when the user can see no
    category at all nothing is compared and such a category would reach the
    database as it is, which the model takes as a failure too: the
    properties of the saved rows are stated for categories that are strings
    or are missing. *)
Definition saveExpense_try (user : string) (expenseData : option Json.value)
  : M Expense :=
  category ← lift (Json.get expenseData "category");
  description ← lift (Json.get expenseData "description");
  name ← lift (Json.get expenseData "name");
  categoryValue ←
    lift (if Json.truthy category then Return category
          else
            text ← asString
                     (Json.orElse (Json.orElse description name)
                        (Some (Json.Str "")));
            Return (Some (Json.Str (categorizeExpenseAuto text))));
  known ← getCategories user;
  categoryName ← lift (asString categoryValue);
  stored ←
    match List.find
            (fun c => String.eqb (JS.toLowerCase c)
                                 (JS.toLowerCase categoryName)) known with
    | Some c => mret c
    | None => createCategory user categoryName
    end;
  amount ← lift (Json.get expenseData "amount");
  merchant ← lift (Json.get expenseData "merchant");
  location ← lift (Json.get expenseData "location");
  createExpense
    (expenseRow user stored categoryName name description amount merchant
       location).

(** [saveExpenseToDatabase(userId, expenseData)]: [Return] is
    [{ success: true, expense }], [Throw e] is [{ success: false, error: e }];
    the function itself never throws. *)
Definition saveExpenseToDatabase (user : string)
    (expenseData : option Json.value) : M (outcome Expense) :=
  fun w =>
    match saveExpense_try user expenseData w with
    | (Return expense, w') => (Return (Return expense), w')
    | (Throw error, w') => (Return (Throw error), w')
    end.

Definition handleExpenseCreation (user : string) (data : option Json.value)
    (state : ConversationState) : M reply :=
  saveResult ← saveExpenseToDatabase user data;
  match saveResult with
  | Return expense =>
      name ← lift (Json.get data "name");
      amount ← lift (Json.get data "amount");
      category ← lift (Json.get data "category");
      mret {| response :=
                ExpenseSaved (Json.orElse name (Some (Json.Str "Expense")))
                  amount (Json.orElse category (Some (Json.Str "other")));
              action_ := Some expense_saved;
              saved := [expense] |}
  | Throw error =>
      mret {| response := FailedToSaveExpense error; action_ := None;
              saved := [] |}
  end.

(** [expenseData.name || `Expense ${i + 1}`] *)
Definition nameOr (name : option Json.value) (i : nat) : option Json.value :=
  Json.orElse name (Some (Json.Str ("Expense " +:+ pretty (S i)))).

(** The body of the loop of [handleMultipleExpenseCreation] after the save:
    the entry for the lists [successfulExpenses] and [failedExpenses].  The
    fields are read from the element of the batch; when the element is
    [null] the read throws, in the [try] block and again in its [catch]
    block, which reads [expenseData.name] too: the exception leaves the
    loop. *)
Definition summarize (expenseData : Json.value) (i : nat)
    (saveResult : outcome Expense) : outcome (savedSummary + failedSummary) :=
  match saveResult with
  | Return _ =>
      name ← Json.get (Some expenseData) "name";
      amount ← Json.get (Some expenseData) "amount";
      category ← Json.get (Some expenseData) "category";
      Return (inl {| savedName := nameOr name i;
                      savedAmount := amount;
                      savedCategory :=
                        Json.orElse category (Some (Json.Str "other")) |})
  | Throw error =>
      name ← Json.get (Some expenseData) "name";
      Return (inr {| failedName := nameOr name i; failedError := error |})
  end.

(** The loop of [handleMultipleExpenseCreation], from index [i] on. *)
Fixpoint saveAll (user : string) (i : nat) (expensesData : list Json.value)
  : M (list savedSummary * list failedSummary) :=
  match expensesData with
  | [] => mret ([], [])
  | expenseData :: rest =>
      saveResult ← saveExpenseToDatabase user (Some expenseData);
      entry ← lift (summarize expenseData i saveResult);
      others ← saveAll user (S i) rest;
      match entry with
      | inl success => mret (success :: fst others, snd others)
      | inr failure => mret (fst others, failure :: snd others)
      end
  end.

(** [handleMultipleExpenseCreation(userId, expensesData, state)]: the two
    lists are the [data] of the reply, which carries no row of the table. *)
Definition handleMultipleExpenseCreation (user : string)
    (expensesData : list Json.value) (state : ConversationState) : M reply :=
  results ← saveAll user 0 expensesData;
  mret {| response := ExpensesSaved (fst results) (snd results);
          action_ := Some expense_saved;
          saved := [] |}.

(** "All fields complete - save expense": the completed reply when the save
    succeeds, [otherwise] when it fails. *)
Definition complete (state : ConversationState) (p : PendingExpense)
    (otherwise : string -> M completion) : M completion :=
  saveResult ← saveExpenseToDatabase (userId state) (Some (objectOf p));
  match saveResult with
  | Return expense =>
      mret {| completed := true;
              completionResponse := PerfectSaved expense;
              state_ := fresh (userId state);
              expense_ := Some expense |}
  | Throw error => otherwise error
  end.

Definition answer (text : responseText) (state : ConversationState)
  : M completion :=
  mret {| completed := false; completionResponse := text; state_ := state;
          expense_ := None |}.

(** "Still missing other fields": the next question, with the shortened
    list stored in the state. *)
Definition askNext (state : ConversationState) (p : PendingExpense)
    (newMissingFields : list string) : M completion :=
  answer (Ask (hd "" newMissingFields) (amount p))
    {| userId := userId state; pendingExpense := Some p;
       missingFields := Some newMissingFields;
       lastContext := lastContext state |}.

(** The third [if] of [handleExpenseCompletion] and the final [return]. *)
Definition categoryStep (state : ConversationState) (p : PendingExpense)
    (missing : list string) (text : string) : M completion :=
  if Classifier.member "category" missing then
    match matchCategory (JS.toLowerCase text) with
    | Some found =>
        let p :=
          {| name := name p; amount := amount p; category := Some found;
             description := description p; merchant := merchant p;
             location := location p |} in
        if JS.truthy_num (amount p)
        then complete state p
               (fun _ => answer ProvideWhatIAsked (withPending state p))
        else answer ProvideWhatIAsked (withPending state p)
    | None => answer ChooseACategory (withPending state p)
    end
  else answer ProvideWhatIAsked (withPending state p).

(** The second [if], falling through to the third. *)
Definition descriptionStep (state : ConversationState) (p : PendingExpense)
    (missing : list string) (text : string) : M completion :=
  if Classifier.member "description" missing && negb (JS.truthy_str (name p))
  then
    let p :=
      {| name := Some (JS.trim text); amount := amount p;
         category := category p; description := Some (JS.trim text);
         merchant := merchant p; location := location p |} in
    let newMissingFields := without "description" missing in
    match newMissingFields with
    | [] =>
        if JS.truthy_num (amount p)
        then complete state p (fun _ => categoryStep state p missing text)
        else categoryStep state p missing text
    | _ => askNext state p newMissingFields
    end
  else categoryStep state p missing text.

(** [handleExpenseCompletion(state, message)], for a state that holds the
    pending expense [p] and the list [missing]. *)
Definition handleExpenseCompletion (state : ConversationState)
    (p : PendingExpense) (missing : list string) (text : string)
  : M completion :=
  if Classifier.member "amount" missing then
    match matchNumber text with
    | Some found =>
        let p :=
          {| name := name p; amount := JS.parseFloat found;
             category := category p; description := description p;
             merchant := merchant p; location := location p |} in
        let newMissingFields := without "amount" missing in
        match newMissingFields with
        | [] =>
            if JS.truthy_num (amount p)
            then complete state p
                   (fun error =>
                      answer (CouldNotSave error) (fresh (userId state)))
            else descriptionStep state p missing text
        | _ => askNext state p newMissingFields
        end
    | None => answer NoAmountFound state
    end
  else descriptionStep state p missing text.

(** The [switch] of [processChatMessage] over the intent. *)
Definition route (user text context : string)
    (extractionResult : Classifier.extraction) (state : ConversationState)
  : M (reply * string) :=
  if negb (Classifier.hasData extractionResult) then
    mret ({| response := DidNotUnderstand; action_ := None; saved := [] |},
          "unknown")
  else if Json.equals (Classifier.type extractionResult) "expense" then
    r ← (if Json.truthy (Classifier.isMultiple extractionResult)
            && Json.isArray (Classifier.data extractionResult)
         then
           match Classifier.data extractionResult with
           | Some (Json.Arr expensesData) =>
               handleMultipleExpenseCreation user expensesData state
           | other => handleExpenseCreation user other state
           end
         else handleExpenseCreation user (Classifier.data extractionResult)
                state);
    mret (r, "expense")
  else if existsb (Json.equals (Classifier.type extractionResult))
            ["income"; "budget"; "goal"; "analytics"; "advice"] then
    match Classifier.type extractionResult with
    | Some (Json.Str intent) =>
        r ← handleOther intent user (Classifier.data extractionResult)
              text context;
        mret (r, intent)
    | _ =>
        mret ({| response := NotSureWhatYouWant; action_ := None;
                 saved := [] |}, "unknown")
    end
  else
    mret ({| response := NotSureWhatYouWant; action_ := None; saved := [] |},
          "unknown").

(** The [try] block of [processChatMessage]. *)
Definition processChatMessage_try (user text : string) : M reply :=
  conversationContext ← getConversationContext user 5;
  states ← (fun w => (Return (conversationStates w), w));
  let state :=
    match states !! user with
    | Some stored => stored
    | None => fresh user
    end in
  match pendingExpense state, missingFields state with
  | Some p, Some missing =>
      completionResult ← handleExpenseCompletion state p missing text;
      _ ← (fun w =>
             (Return tt,
              withStates w
                (<[user := state_ completionResult]> (conversationStates w))));
      if completed completionResult then
        _ ← saveChatMessage user text (completionResponse completionResult)
              (Some "expense_completion");
        mret {| response := completionResponse completionResult;
                action_ := Some expense_saved;
                saved := match expense_ completionResult with
                         | Some e => [e]
                         | None => []
                         end |}
      else
        _ ← saveChatMessage user text (completionResponse completionResult)
              (Some "expense_pending");
        mret {| response := completionResponse completionResult;
                action_ := Some pending; saved := [] |}
  | _, _ =>
      let trimmedMessage := JS.toLowerCase (JS.trim text) in
      if Classifier.member trimmedMessage greetings then
        _ ← saveChatMessage user text GreetingText None;
        mret {| response := GreetingText; action_ := Some greeting;
                saved := [] |}
      else
        extractionResult ←
          (fun w =>
             let '(r, sent) :=
               Classifier.extractFinancialData create JSON_parse
                 extractionPrompt text
                 (if JS.truthy_str (Some conversationContext)
                  then Some conversationContext else None)
                 (issued w) in
             (Return r,
              {| issued := sent; conversationStates := conversationStates w;
                 categories := categories w; expenses := expenses w;
                 chat_messages := chat_messages w; queries := queries w |}));
        routed ← route user text conversationContext extractionResult state;
        _ ← saveChatMessage user text (response (fst routed))
              (Some (snd routed));
        mret (fst routed)
  end.

(** [processChatMessage(userId, message)]: the [catch] stores the apology
    when it can and returns it; nothing is thrown to the caller. *)
Definition processChatMessage (user text : string) (w : World)
  : reply * World :=
  match processChatMessage_try user text w with
  | (Return r, w') => (r, w')
  | (Throw error, w') =>
      let sorry :=
        {| response := SorryError; action_ := None; saved := [] |} in
      match saveChatMessage user text SorryError (Some "error") w' with
      | (_, w'') => (sorry, w'')
      end
  end.

(** [clearConversationState(userId)] *)
Definition clearConversationState (user : string) (w : World) : World :=
  withStates w (delete user (conversationStates w)).

(** [getConversationState(userId)] *)
Definition getConversationState (user : string) (w : World)
  : option ConversationState :=
  conversationStates w !! user.

End Service.

(** A conversation: the turns of several users, one after the other. *)
Definition converse (turn : string -> string -> World -> reply * World)
    (turns : list (string * string)) (w : World) : World :=
  fold_left (fun w t => snd (turn (fst t) (snd t) w)) turns w.

(** The world before the first message: nothing sent, no conversation
    state, empty tables. *)
Definition initial : World :=
  {| issued := []; conversationStates := ∅; categories := []; expenses := [];
     chat_messages := []; queries := 0 |}.

(** A response is a clarifying question when it asks for a field. *)
Definition is_question (r : responseText) : bool :=
  match r with
  | Ask _ _ | NoAmountFound | ChooseACategory => true
  | _ => false
  end.

(** The user has a Pending Operation. *)
Definition has_pending (w : World) (user : string) : bool :=
  match conversationStates w !! user with
  | Some state =>
      match pendingExpense state, missingFields state with
      | Some _, Some _ => true
      | _, _ => false
      end
  | None => false
  end.

(** The tables as a new installation has them: the default category "Food"
    and nothing else. *)
Definition seeded : World :=
  {| issued := []; conversationStates := ∅;
     categories :=
       [ {| user_id := None; category_name := "Food"; is_default := true |} ];
     expenses := []; chat_messages := []; queries := 0 |}.

(** Two payloads of a batch: a coffee for 150, and a tea without amount. *)
Definition coffee_payload : Json.value :=
  Json.Obj [("name", Json.Str "coffee"); ("amount", Json.Num (150 # 1));
            ("category", Json.Str "food")].

Definition tea_payload : Json.value :=
  Json.Obj [("name", Json.Str "tea"); ("category", Json.Str "food")].

(** A database that never fails, and handlers of the other intents that are
    not reached by the examples. *)
Definition healthy : nat -> option string := fun _ => None.

Definition plain : responseText -> string := fun _ => "".

Definition unused : string -> string -> option Json.value -> string -> string
                    -> M reply :=
  fun _ _ _ _ _ w =>
    (Return {| response := OtherText ""; action_ := None; saved := [] |}, w).

(** The classifier's answer to "I spent 150 on coffee" when it leaves the
    category out:
    [{"type":"expense","hasData":true,"data":{"name":"coffee","amount":150},
      "isMultiple":false}] *)
Definition no_category_answer : string :=
  "{" +:+ Json.quoted "type" +:+ ":" +:+ Json.quoted "expense" +:+ ","
  +:+ Json.quoted "hasData" +:+ ":true," +:+ Json.quoted "data" +:+ ":{"
  +:+ Json.quoted "name" +:+ ":" +:+ Json.quoted "coffee" +:+ ","
  +:+ Json.quoted "amount" +:+ ":150}," +:+ Json.quoted "isMultiple"
  +:+ ":false}".

(** The same utterance with the amount left out:
    [{"type":"expense","hasData":true,
      "data":{"name":"coffee","category":"food"},"isMultiple":false}] *)
Definition no_amount_answer : string :=
  "{" +:+ Json.quoted "type" +:+ ":" +:+ Json.quoted "expense" +:+ ","
  +:+ Json.quoted "hasData" +:+ ":true," +:+ Json.quoted "data" +:+ ":{"
  +:+ Json.quoted "name" +:+ ":" +:+ Json.quoted "coffee" +:+ ","
  +:+ Json.quoted "category" +:+ ":" +:+ Json.quoted "food" +:+ "},"
  +:+ Json.quoted "isMultiple" +:+ ":false}".

(** A payload as the prompt of the classifier describes it: its amount is a
    number or is missing, and its category is a string or is missing (or
    falsy). *)
Definition typed (expenseData : option Json.value) : bool :=
  match expenseData with
  | Some (Json.Obj fields) =>
      match Json.field fields "amount" with
      | None | Some Json.Null | Some (Json.Num _) => true
      | _ => false
      end
      && match Json.field fields "category" with
         | Some (Json.Str _) => true
         | category => negb (Json.truthy category)
         end
  | _ => true
  end.

(** What a save may do to the tables: the other parts of the world stay, at
    most one category is added, for the user, and the table of expenses gains
    the saved row or nothing. *)
Definition saveEffect (user : string) (expenseData : option Json.value)
    (w : World) (result : outcome Expense) (w' : World) : Prop :=
  conversationStates w' = conversationStates w
  /\ issued w' = issued w
  /\ chat_messages w' = chat_messages w
  /\ (categories w' = categories w
      \/ exists created,
           categories w'
           = categories w
             ++ [ {| user_id := Some user; category_name := created;
                     is_default := false |} ])
  /\ match result with
     | Return e =>
         expenses w' = expenses w ++ [e]
         /\ owner e = user
         /\ (exists c,
               In c (categories w')
               /\ category_name c = categoryName e
               /\ visible user c = true)
         /\ Json.get expenseData "amount"
            = Return (Some (Json.Num (expenseAmount e)))
     | Throw _ => expenses w' = expenses w
     end.

(** A step of the completion dialog settles for the user when it returns,
    leaves the conversation states to its caller, sends nothing to a
    provider, and either completes (one expense committed, the state to
    store cleared) or commits nothing. *)
Definition settles (user : string) (m : M completion) : Prop :=
  forall w,
    exists r w',
      m w = (Return r, w')
      /\ conversationStates w' = conversationStates w
      /\ issued w' = issued w
      /\ if completed r
         then exists e,
                expense_ r = Some e
                /\ completionResponse r = PerfectSaved e
                /\ expenses w' = expenses w ++ [e]
                /\ owner e = user
                /\ state_ r = fresh user
         else expense_ r = None /\ expenses w' = expenses w.


(** A pending expense as the dialog holds it, a state that awaits the fields
    [missing] for it, and a matcher that finds [s]. *)
Definition coffee : PendingExpense :=
  {| name := Some "coffee"; amount := Some (150 # 1); category := None;
     description := None; merchant := None; location := None |}.

Definition awaiting (user : string) (p : PendingExpense)
    (missing : list string) : ConversationState :=
  {| userId := user; pendingExpense := Some p; missingFields := Some missing;
     lastContext := None |}.

Definition finds (s : string) : string -> option string := fun _ => Some s.

End Chat.

(* ===================================================================== *)
(** ** Financial calculators: [handleSavingsTimeline] and the helpers that
       read the amount and the item from the question, with exact amounts *)
(* ===================================================================== *)

Module Advice.

(** [data] of [getFinancialAnalytics(userId, "dashboard")]. *)
Record snapshot : Type := {
  balance : Q;
  totalIncome : Q;
  totalExpenses : Q
}.

(** The fields of the intent payload that the two handlers read. *)
Record payload : Type := {
  amount : option Q;
  item : option string
}.

Inductive affordabilityStatus : Type :=
| NOT_AFFORDABLE
| RISKY_PURCHASE
| EXPENSIVE_FOR_YOUR_INCOME
| AFFORDABLE.

Inductive riskLevel : Type := HighRisk | MediumRisk | LowRisk.

(** [s.replace(/,/g, "")] *)
Definition removeCommas (s : string) : string :=
  JS.filter_chars (fun c => negb (Ascii.eqb c ","%char)) s.

(** [s.replace(/pat/i, "")]: the first occurrence of [pat], in either case,
    is removed ([pat] is given in lower case). *)
Fixpoint removeFirst_i (pat s : string) : string :=
  if JS.startsWith pat (JS.toLowerCase s) then JS.skip (String.length pat) s
  else match s with
       | EmptyString => EmptyString
       | String c s' => String c (removeFirst_i pat s')
       end.

Definition times (x : option Z) (k : Z) : option Q :=
  match x with
  | Some n => Some (inject_Z (n * k))
  | None => None
  end.

Definition commonItems : list string :=
  ["iphone"; "phone"; "car"; "laptop"; "bike"; "house"; "flat"].

(** [item.charAt(0).toUpperCase() + item.slice(1)] *)
Definition capitalize (s : string) : string :=
  match s with
  | String c s' => String (JS.upper c) s'
  | EmptyString => EmptyString
  end.

Inductive timeline : Type :=
| CannotSaveCurrently (deficit : Q)
| AffordNow (remaining : Q)
| TimelineOptions (shortfall monthlySurplus : Q)
                  (monthsForItemOnly monthsAt70Percent monthsAt50Percent
                   monthsWithEmergencyFund : Z).

Inductive savingsRecommendation : Type :=
| NoRecommendation
| GoodNews (monthsAt70Percent : Z)
| AchievableGoal (monthlyTransfer : Q) (monthsAt70Percent : Z)
| LongTermGoal.

Record timelineData : Type := {
  targetAmount : Q;
  shortfall : Q;
  monthlySurplus : Q;
  timelineMonths : option Z;
  feasible : bool
}.

Inductive timelineReply : Type :=
| SavingsTimeline (itemName : option string) (t : timeline)
                  (r : savingsRecommendation) (d : timelineData)
| NeedTargetAmount
| TimelineCalculatorGuide
| TimelineFailed.

(** [handleSavingsTimeline] from [const targetAmount = purchaseAmount] to the
    [return] of the computed reply. *)
Definition savingsPlan (s : snapshot) (purchaseAmount : Q)
    (itemName : option string) : timelineReply :=
  let monthlySurplus := (totalIncome s - totalExpenses s)%Q in
  let targetAmount := purchaseAmount in
  let shortfall := (targetAmount - balance s)%Q in
  let emergencyFund := (totalExpenses s * 6)%Q in
  let requiredTotal := (targetAmount + emergencyFund)%Q in
  let totalShortfall := (requiredTotal - balance s)%Q in
  let '(t, r) :=
    if Qle_bool monthlySurplus 0 then
      (CannotSaveCurrently (Qabs monthlySurplus), NoRecommendation)
    else
      let monthsForItemOnly := Qceiling (shortfall / monthlySurplus) in
      let monthsWithEmergencyFund :=
        Qceiling (totalShortfall / monthlySurplus) in
      let monthsAt50Percent := Qceiling (shortfall / (monthlySurplus * 0.5)) in
      let monthsAt70Percent := Qceiling (shortfall / (monthlySurplus * 0.7)) in
      let t :=
        if Qle_bool shortfall 0 then AffordNow (balance s - targetAmount)%Q
        else TimelineOptions shortfall monthlySurplus monthsForItemOnly
               monthsAt70Percent monthsAt50Percent monthsWithEmergencyFund in
      let r :=
        if (monthsAt70Percent <=? 6)%Z then GoodNews monthsAt70Percent
        else if (monthsAt70Percent <=? 12)%Z
        then AchievableGoal (monthlySurplus * 0.7)%Q monthsAt70Percent
        else LongTermGoal in
      (t, r) in
  SavingsTimeline itemName t r
    {| targetAmount := targetAmount;
       shortfall := JS.max 0 shortfall;
       monthlySurplus := monthlySurplus;
       timelineMonths :=
         if JS.Qlt_bool 0 monthlySurplus
         then Some (Qceiling (shortfall / (monthlySurplus * 0.7)))
         else None;
       feasible := JS.Qlt_bool 0 monthlySurplus |}.

Section Handlers.

(** What [String.prototype.match] finds, by call site: the first capture
    group, or [None] when the pattern does not match.
    - [matchAmount]: the pattern of [extractAmountFromQuery];
    - [matchItem]: the pattern of [extractItemFromQuery];
    - [matchRupees]: the rupee-amount pattern applied to the conversation
      context in [handleSavingsTimeline]. *)
Variable matchAmount : string -> option string.
Variable matchItem : string -> option string.
Variable matchRupees : string -> option string.

Definition extractAmountFromQuery (query : string) : option Q :=
  match matchAmount query with
  | Some capture =>
      let amount := removeCommas capture in
      if JS.includes (JS.toLowerCase amount) "k" then
        times (JS.parseInt (removeFirst_i "k" amount)) 1000
      else if JS.includes (JS.toLowerCase amount) "lakh" then
        times (JS.parseInt (removeFirst_i "lakh" amount)) 100000
      else if JS.includes (JS.toLowerCase amount) "crore" then
        times (JS.parseInt (removeFirst_i "crore" amount)) 10000000
      else times (JS.parseInt amount) 1
  | None => None
  end.

Definition extractItemFromQuery (query : string) : option string :=
  match matchItem query with
  | Some capture => Some (JS.trim capture)
  | None =>
      match List.find (fun item => JS.includes (JS.toLowerCase query) item)
                      commonItems with
      | Some item => Some (capitalize item)
      | None => None
      end
  end.

(** [userQuery || ""] *)
Definition orEmpty (userQuery : option string) : string :=
  match JS.or_str userQuery (Some "") with
  | Some q => q
  | None => ""
  end.

(** The target amount and item name of [handleSavingsTimeline], as they stand
    just before the guard [if (!purchaseAmount)]. *)
Definition purchaseTarget (data : payload) (userQuery : option string)
    (conversationContext : option string) : option Q * option string :=
  let purchaseAmount :=
    JS.or_num (amount data) (extractAmountFromQuery (orEmpty userQuery)) in
  let itemName :=
    JS.or_str (item data) (extractItemFromQuery (orEmpty userQuery)) in
  let purchaseAmount :=
    if negb (JS.truthy_num purchaseAmount)
       && JS.truthy_str conversationContext
    then
      match matchRupees (orEmpty conversationContext) with
      | Some capture => times (JS.parseInt (removeCommas capture)) 1
      | None => purchaseAmount
      end
    else purchaseAmount in
  if negb (JS.truthy_num purchaseAmount)
  then (Some 50000%Q, JS.or_str itemName (Some "iPhone"))
  else (purchaseAmount, itemName).

Definition handleSavingsTimeline (analytics : option snapshot)
    (data : option payload) (userQuery : option string)
    (conversationContext : option string) : timelineReply :=
  match analytics with
  | Some s =>
      match data with
      | None => TimelineFailed
      | Some data =>
          let '(purchaseAmount, itemName) :=
            purchaseTarget data userQuery conversationContext in
          if negb (JS.truthy_num purchaseAmount) then NeedTargetAmount
          else
            match purchaseAmount with
            | Some p => savingsPlan s p itemName
            | None => NeedTargetAmount
            end
      end
  | None => TimelineCalculatorGuide
  end.

End Handlers.

Definition timeline_of (r : timelineReply) : option timeline :=
  match r with
  | SavingsTimeline _ t _ _ => Some t
  | _ => None
  end.

Definition data_of (r : timelineReply) : option timelineData :=
  match r with
  | SavingsTimeline _ _ _ d => Some d
  | _ => None
  end.

Definition itemName_of (r : timelineReply) : option string :=
  match r with
  | SavingsTimeline i _ _ _ => i
  | _ => None
  end.


End Advice.

(* ===================================================================== *)
(** ** Financial calculators: [handleAffordabilityCheck] and
       [handleSavingsTimeline] with the arithmetic of doubles *)
(* ===================================================================== *)

Module Advice64.

(** [data] of [getFinancialAnalytics(userId, "dashboard")]. *)
Record snapshot : Type := {
  balance : F64.double;
  totalIncome : F64.double;
  totalExpenses : F64.double
}.

(** The fields of the intent payload that the two handlers read: [amount],
    when it is a number, and [item]. *)
Record payload : Type := {
  amount : option F64.double;
  item : option string
}.

(** The five recommendation texts, with the figure each one prints. *)
Inductive recommendation : Type :=
| NegativeBalance
| NeedAdditional (additional : F64.double)
| BelowEmergencyBuffer (left : F64.double)
| HighShareOfIncome (incomePercentage : F64.double)
| CanAfford (remaining : F64.double).

Record verdict : Type := {
  affordabilityStatus_ : Advice.affordabilityStatus;
  riskLevel_ : Advice.riskLevel;
  recommendation_ : recommendation;
  incomePercentage_ : F64.double;
  safeSpendingLimit_ : F64.double;
  emergencyFund_ : F64.double;
  remainingBalance_ : F64.double
}.

(** The verdict part of [handleAffordabilityCheck]: from "Calculate
    affordability metrics" to the end of the [if]/[else if] chain. *)
Definition affordability (s : snapshot) (purchaseAmount : F64.double)
  : verdict :=
  let monthlyIncome := totalIncome s in
  let emergencyFund := F64.mul (totalExpenses s) (F64.ofZ 6) in
  let recommendedReserve := F64.mul (totalExpenses s) (F64.ofZ 3) in
  let safeSpendingLimit :=
    F64.max F64.zero (F64.sub (balance s) recommendedReserve) in
  let incomePercentage :=
    F64.mul (F64.div purchaseAmount monthlyIncome) (F64.ofZ 100) in
  let '(st, risk, rec) :=
    if F64.leb (balance s) F64.zero then
      (Advice.NOT_AFFORDABLE, Advice.HighRisk, NegativeBalance)
    else if F64.ltb (balance s) purchaseAmount then
      (Advice.NOT_AFFORDABLE, Advice.HighRisk,
       NeedAdditional (F64.sub purchaseAmount (balance s)))
    else if F64.ltb safeSpendingLimit purchaseAmount then
      (Advice.RISKY_PURCHASE, Advice.MediumRisk,
       BelowEmergencyBuffer (F64.sub (balance s) purchaseAmount))
    else if F64.ltb (F64.ofZ 50) incomePercentage then
      (Advice.EXPENSIVE_FOR_YOUR_INCOME, Advice.MediumRisk,
       HighShareOfIncome incomePercentage)
    else
      (Advice.AFFORDABLE, Advice.LowRisk,
       CanAfford (F64.sub (balance s) purchaseAmount)) in
  {| affordabilityStatus_ := st;
     riskLevel_ := risk;
     recommendation_ := rec;
     incomePercentage_ := incomePercentage;
     safeSpendingLimit_ := safeSpendingLimit;
     emergencyFund_ := emergencyFund;
     remainingBalance_ := F64.sub (balance s) purchaseAmount |}.

Inductive affordabilityReply : Type :=
| AffordabilityAnalysis (itemName : option string)
                        (purchaseAmount : F64.double) (v : verdict)
| NeedAmount
| GeneralAffordabilityGuide
| AffordabilityFailed.

Inductive timeline : Type :=
| CannotSaveCurrently (deficit : F64.double)
| AffordNow (remaining : F64.double)
| TimelineOptions (shortfall monthlySurplus : F64.double)
                  (monthsForItemOnly monthsAt70Percent monthsAt50Percent
                   monthsWithEmergencyFund : F64.double).

Inductive savingsRecommendation : Type :=
| NoRecommendation
| GoodNews (monthsAt70Percent : F64.double)
| AchievableGoal (monthlyTransfer : F64.double)
                 (monthsAt70Percent : F64.double)
| LongTermGoal.

Record timelineData : Type := {
  targetAmount : F64.double;
  shortfall : F64.double;
  monthlySurplus : F64.double;
  timelineMonths : option F64.double;
  feasible : bool
}.

Inductive timelineReply : Type :=
| SavingsTimeline (itemName : option string) (t : timeline)
                  (r : savingsRecommendation) (d : timelineData)
| NeedTargetAmount
| TimelineCalculatorGuide
| TimelineFailed.

(** [handleSavingsTimeline] from [const targetAmount = purchaseAmount] to the
    [return] of the computed reply. *)
Definition savingsPlan (s : snapshot) (purchaseAmount : F64.double)
    (itemName : option string) : timelineReply :=
  let monthlySurplus := F64.sub (totalIncome s) (totalExpenses s) in
  let targetAmount := purchaseAmount in
  let shortfall := F64.sub targetAmount (balance s) in
  let emergencyFund := F64.mul (totalExpenses s) (F64.ofZ 6) in
  let requiredTotal := F64.add targetAmount emergencyFund in
  let totalShortfall := F64.sub requiredTotal (balance s) in
  let '(t, r) :=
    if F64.leb monthlySurplus F64.zero then
      (CannotSaveCurrently (F64.abs monthlySurplus), NoRecommendation)
    else
      let monthsForItemOnly := F64.ceil (F64.div shortfall monthlySurplus) in
      let monthsWithEmergencyFund :=
        F64.ceil (F64.div totalShortfall monthlySurplus) in
      let monthsAt50Percent :=
        F64.ceil (F64.div shortfall (F64.mul monthlySurplus F64.half)) in
      let monthsAt70Percent :=
        F64.ceil (F64.div shortfall (F64.mul monthlySurplus F64.seven_tenths)) in
      let t :=
        if F64.leb shortfall F64.zero
        then AffordNow (F64.sub (balance s) targetAmount)
        else TimelineOptions shortfall monthlySurplus monthsForItemOnly
               monthsAt70Percent monthsAt50Percent monthsWithEmergencyFund in
      let r :=
        if F64.leb monthsAt70Percent (F64.ofZ 6)
        then GoodNews monthsAt70Percent
        else if F64.leb monthsAt70Percent (F64.ofZ 12)
        then AchievableGoal (F64.mul monthlySurplus F64.seven_tenths)
               monthsAt70Percent
        else LongTermGoal in
      (t, r) in
  SavingsTimeline itemName t r
    {| targetAmount := targetAmount;
       shortfall := F64.max F64.zero shortfall;
       monthlySurplus := monthlySurplus;
       timelineMonths :=
         if F64.ltb F64.zero monthlySurplus
         then Some (F64.ceil
                      (F64.div shortfall
                         (F64.mul monthlySurplus F64.seven_tenths)))
         else None;
       feasible := F64.ltb F64.zero monthlySurplus |}.

Section Handlers.

(** What [String.prototype.match] finds, by call site, as in [Advice]. *)
Variable matchAmount : string -> option string.
Variable matchItem : string -> option string.
Variable matchRupees : string -> option string.

Definition extractAmountFromQuery (query : string) : option F64.double :=
  match matchAmount query with
  | Some capture =>
      let amount := Advice.removeCommas capture in
      if JS.includes (JS.toLowerCase amount) "k" then
        Some (F64.mul (F64.parseInt (Advice.removeFirst_i "k" amount))
                (F64.ofZ 1000))
      else if JS.includes (JS.toLowerCase amount) "lakh" then
        Some (F64.mul (F64.parseInt (Advice.removeFirst_i "lakh" amount))
                (F64.ofZ 100000))
      else if JS.includes (JS.toLowerCase amount) "crore" then
        Some (F64.mul (F64.parseInt (Advice.removeFirst_i "crore" amount))
                (F64.ofZ 10000000))
      else Some (F64.parseInt amount)
  | None => None
  end.

(** [analytics] is [Some] when [analyticsResult.success && analyticsResult.data];
    [data] is [None] when the payload is [null] or [undefined], and reading a
    field of it throws. *)
Definition handleAffordabilityCheck (analytics : option snapshot)
    (data : option payload) (userQuery : option string) : affordabilityReply :=
  match analytics with
  | Some s =>
      match data with
      | None => AffordabilityFailed
      | Some data =>
          let purchaseAmount :=
            F64.or_num (amount data)
              (extractAmountFromQuery (Advice.orEmpty userQuery)) in
          let itemName :=
            JS.or_str (item data)
              (Advice.extractItemFromQuery matchItem
                 (Advice.orEmpty userQuery)) in
          if negb (F64.truthy_num purchaseAmount) then NeedAmount
          else
            match purchaseAmount with
            | Some p => AffordabilityAnalysis itemName p (affordability s p)
            | None => NeedAmount
            end
      end
  | None => GeneralAffordabilityGuide
  end.

(** The target amount and item name of [handleSavingsTimeline], as they stand
    just before the guard [if (!purchaseAmount)]. *)
Definition purchaseTarget (data : payload) (userQuery : option string)
    (conversationContext : option string)
  : option F64.double * option string :=
  let purchaseAmount :=
    F64.or_num (amount data)
      (extractAmountFromQuery (Advice.orEmpty userQuery)) in
  let itemName :=
    JS.or_str (item data)
      (Advice.extractItemFromQuery matchItem (Advice.orEmpty userQuery)) in
  let purchaseAmount :=
    if negb (F64.truthy_num purchaseAmount)
       && JS.truthy_str conversationContext
    then
      match matchRupees (Advice.orEmpty conversationContext) with
      | Some capture => Some (F64.parseInt (Advice.removeCommas capture))
      | None => purchaseAmount
      end
    else purchaseAmount in
  if negb (F64.truthy_num purchaseAmount)
  then (Some (F64.ofZ 50000), JS.or_str itemName (Some "iPhone"))
  else (purchaseAmount, itemName).

Definition handleSavingsTimeline (analytics : option snapshot)
    (data : option payload) (userQuery : option string)
    (conversationContext : option string) : timelineReply :=
  match analytics with
  | Some s =>
      match data with
      | None => TimelineFailed
      | Some data =>
          let '(purchaseAmount, itemName) :=
            purchaseTarget data userQuery conversationContext in
          if negb (F64.truthy_num purchaseAmount) then NeedTargetAmount
          else
            match purchaseAmount with
            | Some p => savingsPlan s p itemName
            | None => NeedTargetAmount
            end
      end
  | None => TimelineCalculatorGuide
  end.

End Handlers.

Definition timeline_of (r : timelineReply) : option timeline :=
  match r with
  | SavingsTimeline _ t _ _ => Some t
  | _ => None
  end.

Definition data_of (r : timelineReply) : option timelineData :=
  match r with
  | SavingsTimeline _ _ _ d => Some d
  | _ => None
  end.

(** [Math.ceil(shortfall / contribution)] *)
Definition months (shortfall contribution : F64.double) : F64.double :=
  F64.ceil (F64.div shortfall contribution).

(** A payload that gives the amount and nothing else. *)
Definition priced (purchaseAmount : F64.double) : payload :=
  {| amount := Some purchaseAmount; item := None |}.

End Advice64.

(* ===================================================================== *)
(** ** The in-memory assistant (README, index.ts): [addSmartExpense] and
       [detectAnomalies] over the array [expenseDB] *)
(* ===================================================================== *)

Module Demo.

(** A [Date], seen through [getHours()]: the local hour, or an invalid date,
    whose hour is [NaN]. *)
Inductive Date : Type :=
| DateAt (hours : Z)
| InvalidDate.

Definition getHours (d : Date) : option Z :=
  match d with
  | DateAt h => Some h
  | InvalidDate => None
  end.

(** An element of [expenseDB]; [category] and [date] are optional there. *)
Record expense : Type := {
  name : string;
  amount : Q;
  category : option string;
  date : option Date
}.

(** [receiptData], as [scanReceiptOCR] hands it over. *)
Record receipt : Type := {
  merchant : string;
  firstItem : option string;
  total : Q;
  receiptCategory : option string;
  receiptDate : option string
}.

Inductive alert : Type :=
| UNUSUAL (amount : Q) (category : option string)
| LATE_NIGHT (hour : Z).

(** [a === b] on optional strings *)
Definition same_category (a b : option string) : bool :=
  match a, b with
  | Some x, Some y => String.eqb x y
  | None, None => true
  | _, _ => false
  end.

(** [l.reduce((sum, e) => sum + e.amount, 0)] *)
Definition sumAmounts (l : list expense) : Q :=
  fold_left (fun sum e => (sum + amount e)%Q) l 0%Q.

(** [detectAnomalies(expense)], reading the array [expenseDB].  Reading
    [getHours] of a missing date throws. *)
Definition detectAnomalies (expenseDB : list expense) (e : expense)
  : outcome (list alert) :=
  let categoryExpenses :=
    List.filter (fun x => same_category (category x) (category e)) expenseDB in
  let alerts :=
    if (0 <? List.length categoryExpenses)%nat then
      let avgAmount :=
        (sumAmounts categoryExpenses
         / inject_Z (Z.of_nat (List.length categoryExpenses)))%Q in
      if JS.Qlt_bool (avgAmount * 2)%Q (amount e)
      then [UNUSUAL (amount e) (category e)]
      else []
    else [] in
  match date e with
  | None => Throw "TypeError: Cannot read properties of undefined (reading 'getHours')"
  | Some d =>
      match getHours d with
      | Some hour =>
          if (hour <? 6)%Z || (hour >? 23)%Z
          then Return (alerts ++ [LATE_NIGHT hour])
          else Return alerts
      | None => Return alerts
      end
  end.

Section Clock.

(** [new Date(text)] and [Date.now()]. *)
Variable newDate : string -> Date.
Variable now : Date.

(** [addSmartExpense(receiptData)]: the new array, the expense and the alerts
    that were logged. *)
Definition addSmartExpense (expenseDB : list expense) (receiptData : receipt)
  : list expense * outcome (expense * list alert) :=
  let e :=
    {| name := merchant receiptData +:+ " - " +:+
               match JS.or_str (firstItem receiptData) (Some "Purchase") with
               | Some i => i
               | None => "Purchase"
               end;
       amount := total receiptData;
       category := receiptCategory receiptData;
       date := Some (if JS.truthy_str (receiptDate receiptData)
                     then match receiptDate receiptData with
                          | Some text => newDate text
                          | None => now
                          end
                     else now) |} in
  let expenseDB := expenseDB ++ [e] in
  match detectAnomalies expenseDB e with
  | Return alerts => (expenseDB, Return (e, alerts))
  | Throw err => (expenseDB, Throw err)
  end.

End Clock.

(** *** The amount check as the specification words it *)

(** The mean of the prior expenses of the category, the new one left out;
    [None] when there is no prior expense in the category. *)
Definition spec_prior_mean (prior : list expense) (e : expense) : option Q :=
  let same :=
    List.filter (fun x => same_category (category x) (category e)) prior in
  match same with
  | [] => None
  | _ => Some (sumAmounts same / inject_Z (Z.of_nat (List.length same)))%Q
  end.

Definition spec_unusual (prior : list expense) (e : expense) : bool :=
  match spec_prior_mean prior e with
  | Some m => JS.Qlt_bool (2 * m)%Q (amount e)
  | None => false
  end.

Definition is_unusual (a : alert) : bool :=
  match a with
  | UNUSUAL _ _ => true
  | LATE_NIGHT _ => false
  end.

Definition is_late_night (a : alert) : bool :=
  match a with
  | LATE_NIGHT _ => true
  | UNUSUAL _ _ => false
  end.


(** *** The tools of the agent and the voice commands *)

(** An element of [incomeDB]. *)
Record income : Type := {
  incomeName : string;
  incomeAmount : Q
}.

(** An optional argument of a tool call. *)
Inductive optional : Type :=
| undefined
| null
| text (s : string).

(** [categorizeExpenseAuto] of the agent, with its own keyword lists. *)
Definition categorizeExpenseAuto (description : string) : string :=
  let desc := JS.toLowerCase description in
  if Chat.anyOf desc ["food"; "restaurant"; "coffee"; "lunch"; "dinner"]
  then "food"
  else if Chat.anyOf desc ["uber"; "taxi"; "bus"; "train"; "petrol"; "fuel"]
  then "transport"
  else if Chat.anyOf desc ["movie"; "game"; "entertainment"; "netflix"]
  then "entertainment"
  else if Chat.anyOf desc ["shopping"; "clothes"; "amazon"; "flipkart"]
  then "shopping"
  else if Chat.anyOf desc ["electricity"; "water"; "internet"; "phone"; "rent"]
  then "bills"
  else if Chat.anyOf desc ["doctor"; "medicine"; "hospital"; "pharmacy"]
  then "healthcare"
  else "other".

(** [getTotalExpenses({ from, to })]: the number it prints before [INR]. *)
Definition getTotalExpenses (expenseDB : list expense) (from to : string) : Q :=
  sumAmounts expenseDB.

(** [addExpense({ name, amount, category = "other" })] at the time [now]: the
    new array and the alerts that the response lists. *)
Definition addExpense (expenseDB : list expense) (now : Date) (name : string)
    (amount : Q) (category : optional)
  : list expense * outcome (list alert) :=
  let category :=
    match category with
    | undefined => text "other"
    | given => given
    end in
  let e :=
    {| name := name;
       amount := amount;
       category :=
         Some match category with
              | text "" | null | undefined => categorizeExpenseAuto name
              | text given => given
              end;
       date := Some now |} in
  let expenseDB := expenseDB ++ [e] in
  (expenseDB, detectAnomalies expenseDB e).

(** [addIncome({ name, amount })] *)
Definition addIncome (incomeDB : list income) (name : string) (amount : Q)
  : list income :=
  incomeDB ++ [ {| incomeName := name; incomeAmount := amount |} ].

(** [getMoneyBalance()]: the balance it prints. *)
Definition getMoneyBalance (incomeDB : list income) (expenseDB : list expense)
  : Q :=
  let totalIncome :=
    fold_left (fun acc item => (acc + incomeAmount item)%Q) incomeDB 0%Q in
  let totalExpense :=
    fold_left (fun acc item => (acc + amount item)%Q) expenseDB 0%Q in
  (totalIncome - totalExpense)%Q.

Inductive command : Type :=
| add_expense (name : string) (amount : option Z) (category : string)
| check_balance
| analyze_spending
| chat (message : string).

(** The digits at the head of [s]. *)
Fixpoint takeDigits (s : string) : string :=
  match s with
  | String c s' => if JS.is_digit c then String c (takeDigits s') else ""
  | EmptyString => ""
  end.

(** [s.match(/(\d+)/)]: the first run of digits. *)
Fixpoint matchDigits (s : string) : option string :=
  match s with
  | String c s' =>
      if JS.is_digit c then Some (String c (takeDigits s'))
      else matchDigits s'
  | EmptyString => None
  end.

(** [parseVoiceCommand(transcript)] *)
Definition parseVoiceCommand (transcript : string) : command :=
  let text := JS.toLowerCase transcript in
  if Chat.anyOf text ["add expense"; "spent"; "bought"] then
    let amount :=
      match matchDigits text with
      | Some found => JS.parseInt found
      | None => None
      end in
    let category := "other" in
    let category :=
      if Chat.anyOf text ["food"; "coffee"; "restaurant"] then "food"
      else category in
    let category :=
      if Chat.anyOf text ["uber"; "taxi"; "transport"] then "transport"
      else category in
    let category :=
      if Chat.anyOf text ["shopping"; "bought"] then "shopping"
      else category in
    add_expense transcript amount category
  else if Chat.anyOf text ["balance"; "money left"; "how much"] then
    check_balance
  else if Chat.anyOf text ["analyze"; "spending pattern"; "insights"] then
    analyze_spending
  else chat transcript.

Inductive voiceReply : Type :=
| AddedExpense (amount : Z) (category : string) (alerts : list alert)
| AmountNotUnderstood
| CurrentBalance (balance : Q)
| Said (text : string)
| VoiceFailed.

Section Voice.

(** The content of the first choice of the provider's answer to a task and
    a prompt, or the error of the call. *)
Variable ask : string -> string -> outcome (option string).

(** The prompt [analyzeSpendingWithAI] builds from the expenses. *)
Variable analysisPrompt : list expense -> string.

Definition analyzeSpendingWithAI (expenseDB : list expense) : string :=
  match expenseDB with
  | [] => "No spending data available for analysis."
  | _ =>
      match ask "spending-analysis" (analysisPrompt expenseDB) with
      | Return content =>
          match JS.or_str content (Some "Analysis unavailable") with
          | Some said => said
          | None => "Analysis unavailable"
          end
      | Throw _ => "Unable to analyze spending at the moment. Try again later."
      end
  end.

(** [handleVoiceCommand(command)] at the time [now]: the new [expenseDB] and
    the reply. *)
Definition handleVoiceCommand (incomeDB : list income)
    (expenseDB : list expense) (now : Date) (spoken : string)
  : list expense * voiceReply :=
  match parseVoiceCommand spoken with
  | add_expense name amount category =>
      match amount with
      | Some n =>
          if (n =? 0)%Z then (expenseDB, AmountNotUnderstood)
          else
            match addExpense expenseDB now name (inject_Z n) (text category)
            with
            | (expenseDB, Return alerts) =>
                (expenseDB, AddedExpense n category alerts)
            | (expenseDB, Throw _) => (expenseDB, VoiceFailed)
            end
      | None => (expenseDB, AmountNotUnderstood)
      end
  | check_balance =>
      (expenseDB, CurrentBalance (getMoneyBalance incomeDB expenseDB))
  | analyze_spending => (expenseDB, Said (analyzeSpendingWithAI expenseDB))
  | chat _ =>
      match ask "quick-response" spoken with
      | Return content =>
          (expenseDB,
           Said match JS.or_str content (Some "I didn't understand that.") with
                | Some said => said
                | None => "I didn't understand that."
                end)
      | Throw _ => (expenseDB, VoiceFailed)
      end
  end.

End Voice.

End Demo.

(* ===================================================================== *)
(** ** The agent's anomaly check and balance with the arithmetic of
       doubles *)
(* ===================================================================== *)

Module Demo64.

(** An element of [expenseDB]. *)
Record expense : Type := {
  name : string;
  amount : F64.double;
  category : option string;
  date : option Demo.Date
}.

Inductive alert : Type :=
| UNUSUAL (amount : F64.double) (category : option string)
| LATE_NIGHT (hour : Z).

(** [l.reduce((sum, e) => sum + e.amount, 0)] *)
Definition sumAmounts (l : list expense) : F64.double :=
  fold_left (fun sum e => F64.add sum (amount e)) l F64.zero.

(** [detectAnomalies(expense)], reading the array [expenseDB]. *)
Definition detectAnomalies (expenseDB : list expense) (e : expense)
  : outcome (list alert) :=
  let categoryExpenses :=
    List.filter (fun x => Demo.same_category (category x) (category e))
      expenseDB in
  let alerts :=
    if (0 <? List.length categoryExpenses)%nat then
      let avgAmount :=
        F64.div (sumAmounts categoryExpenses)
          (F64.ofZ (Z.of_nat (List.length categoryExpenses))) in
      if F64.ltb (F64.mul avgAmount (F64.ofZ 2)) (amount e)
      then [UNUSUAL (amount e) (category e)]
      else []
    else [] in
  match date e with
  | None => Throw "TypeError: Cannot read properties of undefined (reading 'getHours')"
  | Some d =>
      match Demo.getHours d with
      | Some hour =>
          if (hour <? 6)%Z || (hour >? 23)%Z
          then Return (alerts ++ [LATE_NIGHT hour])
          else Return alerts
      | None => Return alerts
      end
  end.

Definition is_unusual (a : alert) : bool :=
  match a with
  | UNUSUAL _ _ => true
  | LATE_NIGHT _ => false
  end.

(** An element of [incomeDB]. *)
Record income : Type := {
  incomeName : string;
  incomeAmount : F64.double
}.

(** [addIncome({ name, amount })] *)
Definition addIncome (incomeDB : list income) (name : string)
    (amount : F64.double) : list income :=
  incomeDB ++ [ {| incomeName := name; incomeAmount := amount |} ].

(** [incomeDB.reduce((acc, item) => acc + item.amount, 0)] *)
Definition totalIncome (incomeDB : list income) : F64.double :=
  fold_left (fun acc item => F64.add acc (incomeAmount item)) incomeDB
    F64.zero.

(** [getMoneyBalance()]: the balance it prints. *)
Definition getMoneyBalance (incomeDB : list income) (expenseDB : list expense)
  : F64.double :=
  let totalIncome :=
    fold_left (fun acc item => F64.add acc (incomeAmount item)) incomeDB
      F64.zero in
  let totalExpense :=
    fold_left (fun acc item => F64.add acc (amount item)) expenseDB F64.zero in
  F64.sub totalIncome totalExpense.

(** An expense for food at noon. *)
Definition food (name amount : string) : expense :=
  {| name := name; amount := F64.parseFloat amount; category := Some "food";
     date := Some (Demo.DateAt 12) |}.

End Demo64.

(* ===================================================================== *)
(** ** Statement import: [processBankStatement] and its pipeline *)
(* ===================================================================== *)

Module Statement.

Record RawTransaction : Type := {
  name : string;
  bank : string;
  amount : F64.double;
  date : string;
  status : string;
  isIncome : bool
}.

Inductive transactionType : Type := income | expense.

(** A [Date], by the call that builds it:
    [new Date(parseInt(year), parseInt(month) - 1, parseInt(day))] from the
    parts of a date written with slashes (a part that is not there is
    [None]), or [new Date(text)]. *)
Inductive Date : Type :=
| DateOfParts (day month year : option string)
| DateOfText (text : string).

Record ProcessedTransaction : Type := {
  type : transactionType;
  processedName : string;
  processedAmount : F64.double;
  processedDate : Date;
  category : option string;
  merchant : option string;
  description : option string;
  isRecurring : bool;
  sourceType : option string
}.

Record summary : Type := {
  totalExpenses : F64.double;
  totalIncome : F64.double;
  categories : list (string * F64.double)
}.

Record importResult : Type := {
  success : bool;
  processed : nat;
  imported : nat;
  skipped : nat;
  errors : list string;
  summary_ : summary
}.

(** A row of cells, as the CSV and spreadsheet readers return it; a cell is
    held as the text [String(cell)] gives for it. *)
Definition row : Type := list string.

Definition cell (r : row) (i : nat) : string := nth i r "".

(** [/[^-0-9.]/g] removed *)
Definition numericChars (s : string) : string :=
  JS.filter_chars
    (fun c => JS.is_digit c || Ascii.eqb c "-"%char || Ascii.eqb c "."%char) s.

Definition parseTransactionRow (r : row) : option RawTransaction :=
  if (List.length r <? 5)%nat then None
  else
    let dateStr := cell r 0 in
    let merchant := cell r 1 in
    let amountStr := cell r 2 in
    let status := cell r 3 in
    let bank := cell r 4 in
    let amount := F64.abs (F64.parseFloat (numericChars amountStr)) in
    if F64.isNaN amount || F64.eqb amount F64.zero then None
    else
      let isIncome := negb (JS.includes amountStr "-") in
      Some {| name := JS.trim merchant;
              bank := JS.trim bank;
              amount := amount;
              date := JS.trim dateStr;
              status := JS.trim status;
              isIncome := isIncome |}.

(** The loop of [parseTransactionData] over the rows after the header. *)
Fixpoint parseRows (rows : list row) : list RawTransaction :=
  match rows with
  | [] => []
  | r :: rest =>
      if (List.length r <? 5)%nat then parseRows rest
      else
        match parseTransactionRow r with
        | Some transaction => transaction :: parseRows rest
        | None => parseRows rest
        end
  end.

(** [for (let i = 1; i < data.length; i++)]: the first row is the header. *)
Definition parseTransactionData (data : list row) : list RawTransaction :=
  parseRows (List.tail data).

Definition is_word_char (c : ascii) : bool :=
  let n := nat_of_ascii c in
  JS.is_digit c || ((65 <=? n)%nat && (n <=? 90)%nat)
  || ((97 <=? n)%nat && (n <=? 122)%nat) || (n =? 95)%nat.

(** [s.replace(/\s+/g, " ")] *)
Fixpoint collapseSpaces (s : string) : string :=
  match s with
  | EmptyString => EmptyString
  | String c s' =>
      if JS.is_space c then
        match s' with
        | String c' _ =>
            if JS.is_space c' then collapseSpaces s'
            else String " " (collapseSpaces s')
        | EmptyString => String " " EmptyString
        end
      else String c (collapseSpaces s')
  end.

Fixpoint take (n : nat) (s : string) : string :=
  match n, s with
  | S n', String c s' => String c (take n' s')
  | _, _ => EmptyString
  end.

Definition cleanMerchantName (merchant : string) : string :=
  take 50
    (JS.trim
       (collapseSpaces
          (JS.filter_chars
             (fun c => is_word_char c || JS.is_space c || Ascii.eqb c "-"%char)
             merchant))).

(** [keywords.some((keyword) => text.includes(keyword))] *)
Definition includesAny (text : string) (keywords : list string) : bool :=
  existsb (fun keyword => JS.includes text keyword) keywords.

Definition rules : list (string * list string) :=
  [ ("food", ["zepto"; "swiggy"; "zomato"; "dominos"; "mcdonalds"; "kfc";
              "meesho"; "grocery"]);
    ("transport", ["uber"; "ola"; "metro"; "petrol"; "fuel"; "gas"]);
    ("entertainment", ["netflix"; "amazon prime"; "spotify"; "bookmyshow";
                       "cinema"]);
    ("shopping", ["amazon"; "flipkart"; "myntra"; "ajio"; "meesho"; "fashion"]);
    ("bills", ["jio"; "airtel"; "electricity"; "gas"; "water"; "internet";
               "recharge"]);
    ("healthcare", ["pharma"; "medicose"; "hospital"; "clinic"; "doctor"]);
    ("utilities", ["electricity"; "water"; "gas"; "internet"; "mobile"]);
    ("education", ["education"; "course"; "training"; "school"; "college"]) ].

Definition intelligentCategorization (merchant : string) : string :=
  let merchantLower := JS.toLowerCase merchant in
  match List.find (fun rule => includesAny merchantLower (snd rule)) rules with
  | Some rule => fst rule
  | None => "other"
  end.

Definition detectIncomeSource (merchant : string) : string :=
  let merchantLower := JS.toLowerCase merchant in
  if JS.includes merchantLower "salary" || JS.includes merchantLower "pay"
  then "salary"
  else if JS.includes merchantLower "freelance"
          || JS.includes merchantLower "work"
  then "freelance"
  else if JS.includes merchantLower "business"
          || JS.includes merchantLower "profit"
  then "business"
  else if JS.includes merchantLower "investment"
          || JS.includes merchantLower "dividend"
  then "investment"
  else if JS.includes merchantLower "rent" || JS.includes merchantLower "rental"
  then "rental"
  else "other".

Definition detectRecurring (merchant : string) : bool :=
  includesAny (JS.toLowerCase merchant)
    ["salary"; "rent"; "subscription"; "recharge"; "sip"; "emi"].

(** A character that [/[\s\/]/] matches. *)
Definition is_separator (c : ascii) : bool :=
  JS.is_space c || Ascii.eqb c "/"%char.

(** [s.split(/[\s\/]+/)]: [current] is the part read so far, [inRun] says
    that the character before was a separator. *)
Fixpoint splitRuns (inRun : bool) (current : string) (s : string)
  : list string :=
  match s with
  | EmptyString => [current]
  | String c s' =>
      if is_separator c then
        if inRun then splitRuns true current s'
        else current :: splitRuns true "" s'
      else splitRuns false (current +:+ String c "") s'
  end.

Definition split (s : string) : list string := splitRuns false "" s.

(** A text of ASCII characters without white space and without a slash. *)
Fixpoint unbroken (s : string) : bool :=
  match s with
  | EmptyString => true
  | String c s' =>
      negb (is_separator c) && (nat_of_ascii c <? 128)%nat && unbroken s'
  end.

(** "Parse date": the [Date] for the date text of a row. *)
Definition transactionDate (text : string) : Date :=
  if JS.includes text "/" then
    let parts := split text in
    DateOfParts (List.nth_error parts 0) (List.nth_error parts 1)
      (List.nth_error parts 2)
  else DateOfText text.

(** [categorizeTransaction(rawTx)]; the declared result allows [null], the
    body never returns it. *)
Definition categorizeTransaction (rawTx : RawTransaction)
  : option ProcessedTransaction :=
  let amount := F64.abs (amount rawTx) in
  let merchant := JS.trim (name rawTx) in
  let transactionDate := transactionDate (date rawTx) in
  if isIncome rawTx then
    Some {| type := income;
            processedName := "Income from " +:+ merchant;
            processedAmount := amount;
            processedDate := transactionDate;
            category := None;
            merchant := None;
            description := Some ("Bank transfer from " +:+ merchant);
            isRecurring := detectRecurring merchant;
            sourceType := Some (detectIncomeSource merchant) |}
  else
    Some {| type := expense;
            processedName := cleanMerchantName merchant;
            processedAmount := amount;
            processedDate := transactionDate;
            category := Some (intelligentCategorization merchant);
            merchant := Some merchant;
            description := Some ("Payment to " +:+ merchant);
            isRecurring := detectRecurring merchant;
            sourceType := None |}.

(** [categories[cat]] for one of the category names *)
Fixpoint getCategory (categories : list (string * F64.double)) (cat : string)
  : option F64.double :=
  match categories with
  | [] => None
  | (k, v) :: rest => if String.eqb k cat then Some v else getCategory rest cat
  end.

(** [x || 0] *)
Definition orZero (x : option F64.double) : F64.double :=
  match F64.or_num x (Some F64.zero) with
  | Some v => v
  | None => F64.zero
  end.

(** [categories[cat] || 0] *)
Definition categoryTotal (categories : list (string * F64.double))
    (cat : string) : F64.double :=
  orZero (getCategory categories cat).

(** [categories[cat] = v]: an existing key keeps its place, a new key goes
    to the end. *)
Fixpoint setCategory (categories : list (string * F64.double)) (cat : string)
    (v : F64.double) : list (string * F64.double) :=
  match categories with
  | [] => [(cat, v)]
  | (k, old) :: rest =>
      if String.eqb k cat then (k, v) :: rest
      else (k, old) :: setCategory rest cat v
  end.

(** The counters and the summary that the loop of
    [processTransactionsWithAI] updates. *)
Record progress : Type := {
  p_processed : nat;
  p_imported : nat;
  p_skipped : nat;
  p_errors : list string;
  p_totalExpenses : F64.double;
  p_totalIncome : F64.double;
  p_categories : list (string * F64.double)
}.

Definition start : progress :=
  {| p_processed := 0; p_imported := 0; p_skipped := 0; p_errors := [];
     p_totalExpenses := F64.zero; p_totalIncome := F64.zero;
     p_categories := [] |}.

Definition skip_one (p : progress) (new_errors : list string) : progress :=
  {| p_processed := S (p_processed p);
     p_imported := p_imported p;
     p_skipped := S (p_skipped p);
     p_errors := p_errors p ++ new_errors;
     p_totalExpenses := p_totalExpenses p;
     p_totalIncome := p_totalIncome p;
     p_categories := p_categories p |}.

Definition failedStatus (rawTx : RawTransaction) : bool :=
  JS.includes (JS.toUpperCase (status rawTx)) "FAILED".

Section Persistence.

(** [saveTransactionToDatabase]: [Return tt] is [{ success: true }],
    [Throw e] is [{ success: false, error: e }].  The first argument is the
    number of transactions processed before this one. *)
Variable saveTransactionToDatabase :
  nat -> ProcessedTransaction -> outcome unit.

(** One turn of the loop of [processTransactionsWithAI]. *)
Definition processOne (p : progress) (rawTx : RawTransaction) : progress :=
  if failedStatus rawTx then skip_one p []
  else
    match categorizeTransaction rawTx with
    | None => skip_one p []
    | Some processedTx =>
        match saveTransactionToDatabase (p_processed p) processedTx with
        | Return _ =>
            match type processedTx with
            | expense =>
                let cat := match JS.or_str (category processedTx) (Some "other")
                           with Some c => c | None => "other" end in
                {| p_processed := S (p_processed p);
                   p_imported := S (p_imported p);
                   p_skipped := p_skipped p;
                   p_errors := p_errors p;
                   p_totalExpenses :=
                     F64.add (p_totalExpenses p)
                       (F64.abs (processedAmount processedTx));
                   p_totalIncome := p_totalIncome p;
                   p_categories :=
                     setCategory (p_categories p) cat
                       (F64.add (categoryTotal (p_categories p) cat)
                          (F64.abs (processedAmount processedTx))) |}
            | income =>
                {| p_processed := S (p_processed p);
                   p_imported := S (p_imported p);
                   p_skipped := p_skipped p;
                   p_errors := p_errors p;
                   p_totalExpenses := p_totalExpenses p;
                   p_totalIncome :=
                     F64.add (p_totalIncome p) (processedAmount processedTx);
                   p_categories := p_categories p |}
            end
        | Throw error =>
            skip_one p
              ["Failed to save: " +:+ processedName processedTx +:+ " - " +:+ error]
        end
    end.

Definition processTransactionsWithAI (transactions : list RawTransaction)
  : importResult :=
  let p := fold_left processOne transactions start in
  {| success := (0 <? p_imported p)%nat;
     processed := p_processed p;
     imported := p_imported p;
     skipped := p_skipped p;
     errors := p_errors p;
     summary_ := {| totalExpenses := p_totalExpenses p;
                    totalIncome := p_totalIncome p;
                    categories := p_categories p |} |}.

(** The uploaded file, by the extension of its name, with what the reader of
    the format makes of it.  A PDF is handed to [parseKnownPDFFormat], which
    returns no rows.  For a spreadsheet the rows are those of
    [XLSX.utils.sheet_to_json] on the first sheet, for any other file those
    of [parse] from csv-parse on the text; either reader can throw, and
    csv-parse does so when the records of the text differ in the number of
    their fields. *)
Inductive statementFile : Type :=
| PdfFile
| ExcelFile (sheet : outcome (list row))
| CsvFile (records : outcome (list row)).

Definition parseStatementFile (file : statementFile)
  : outcome (list RawTransaction) :=
  match file with
  | PdfFile => Return []
  | ExcelFile sheet => jsonData ← sheet; Return (parseTransactionData jsonData)
  | CsvFile parsed => records ← parsed; Return (parseTransactionData records)
  end.



End Persistence.








Definition count (f : row -> bool) (rows : list row) : nat :=
  List.length (List.filter f rows).




End Statement.

(* ===================================================================== *)
(** * Properties *)
(* ===================================================================== *)

(** Runs the binds of an [outcome] computation in a hypothesis. *)
Ltac run_outcome H :=
  unfold mbind, outcome_bind, mret, outcome_ret in H; cbn in H.

Lemma Qlt_bool_iff (a b : Q) : JS.Qlt_bool a b = true <-> (a < b)%Q.
Proof.
  unfold JS.Qlt_bool. rewrite negb_true_iff.
  split; intro H.
  - apply Qnot_le_lt. intro Hle. apply Qle_bool_iff in Hle. congruence.
  - destruct (Qle_bool b a) eqn:E; [|reflexivity].
    apply Qle_bool_iff in E. exfalso. exact (Qlt_not_le _ _ H E).
Qed.


(* --------------------------------------------------------------------- *)
(** ** Floating-point numbers *)
(* --------------------------------------------------------------------- *)

(** The literals are the doubles nearest to [7/10] and [1/2]. *)
Example literals :
  F64.ofQ (7 # 10) = F64.seven_tenths
  /\ F64.ofQ (1 # 2) = F64.half
  /\ (Qabs ((6305039478318694 # 9007199254740992) - (7 # 10))
      <= (1 # 18014398509481984))%Q.
Proof. repeat split. vm_compute. discriminate. Qed.

(** [Math.max(0, x)] compared with a positive number. *)
Lemma ltb_max_zero (x p : F64.double) :
  F64.ltb F64.zero p = true ->
  F64.ltb (F64.max F64.zero x) p = F64.ltb x p.
Proof.
  unfold F64.ltb, F64.max, F64.zero, F64.isNaN, SFltb.
  destruct p as [sp| [|] | |[|] mp ep]; cbn; try discriminate; intros _;
    destruct x as [sx| [|] | |[|] mx ex]; cbn; reflexivity.
Qed.



Lemma positive_truthy (x : F64.double) :
  F64.ltb F64.zero x = true -> F64.truthy x = true.
Proof.
  unfold F64.ltb, F64.zero, SFltb.
  destruct x as [sp| [|] | |[|] mp ep]; cbn; try discriminate; reflexivity.
Qed.

(** The absolute value of a number that is neither [NaN] nor zero is above
    zero. *)
Lemma abs_positive (x : F64.double) :
  F64.isNaN (F64.abs x) || F64.eqb (F64.abs x) F64.zero = false ->
  F64.ltb F64.zero (F64.abs x) = true.
Proof.
  unfold F64.ltb, F64.eqb, F64.abs, F64.zero, F64.isNaN, SFltb, SFeqb.
  destruct x as [sp| [|] | |[|] mp ep]; cbn; try discriminate; reflexivity.
Qed.

(* --------------------------------------------------------------------- *)
(** ** Affordability *)
(* --------------------------------------------------------------------- *)

Section Affordability.

Variable matchAmount : string -> option string.
Variable matchItem : string -> option string.

(** C5 (as amended). For a payload whose amount is a number above zero,
    [handleAffordabilityCheck] answers with the analysis of that amount, and
    the verdict follows the first rule that matches, in this order, all
    comparisons and operations being those of doubles: (1) balance <= 0:
    NOT_AFFORDABLE, high risk; (2) purchase > balance: NOT_AFFORDABLE, high
    risk, with the shortfall [purchase - balance]; (3) purchase >
    balance - monthlyExpenses * 3: RISKY, medium risk; (4)
    (purchase / monthlyIncome) * 100 > 50: EXPENSIVE_FOR_INCOME, medium risk;
    (5) otherwise AFFORDABLE, low risk.  The code tests rule 3 against
    [Math.max(0, balance - monthlyExpenses * 3)], which is the same test when
    the purchase is above zero. *)
Theorem C5_affordability_priority_order (s : Advice64.snapshot)
    (data : Advice64.payload) (userQuery : option string)
    (purchase : F64.double) :
  Advice64.amount data = Some purchase ->
  F64.ltb F64.zero purchase = true ->
  let balance := Advice64.balance s in
  let reserve := F64.mul (Advice64.totalExpenses s) (F64.ofZ 3) in
  let share :=
    F64.mul (F64.div purchase (Advice64.totalIncome s)) (F64.ofZ 100) in
  exists itemName v,
    Advice64.handleAffordabilityCheck matchAmount matchItem (Some s)
      (Some data) userQuery
    = Advice64.AffordabilityAnalysis itemName purchase v
    /\ (F64.leb balance F64.zero = true ->
        Advice64.affordabilityStatus_ v = Advice.NOT_AFFORDABLE
        /\ Advice64.riskLevel_ v = Advice.HighRisk
        /\ Advice64.recommendation_ v = Advice64.NegativeBalance)
    /\ (F64.leb balance F64.zero = false ->
        F64.ltb balance purchase = true ->
        Advice64.affordabilityStatus_ v = Advice.NOT_AFFORDABLE
        /\ Advice64.riskLevel_ v = Advice.HighRisk
        /\ Advice64.recommendation_ v
           = Advice64.NeedAdditional (F64.sub purchase balance))
    /\ (F64.leb balance F64.zero = false ->
        F64.ltb balance purchase = false ->
        F64.ltb (F64.sub balance reserve) purchase = true ->
        Advice64.affordabilityStatus_ v = Advice.RISKY_PURCHASE
        /\ Advice64.riskLevel_ v = Advice.MediumRisk
        /\ Advice64.recommendation_ v
           = Advice64.BelowEmergencyBuffer (F64.sub balance purchase))
    /\ (F64.leb balance F64.zero = false ->
        F64.ltb balance purchase = false ->
        F64.ltb (F64.sub balance reserve) purchase = false ->
        F64.ltb (F64.ofZ 50) share = true ->
        Advice64.affordabilityStatus_ v = Advice.EXPENSIVE_FOR_YOUR_INCOME
        /\ Advice64.riskLevel_ v = Advice.MediumRisk
        /\ Advice64.recommendation_ v = Advice64.HighShareOfIncome share)
    /\ (F64.leb balance F64.zero = false ->
        F64.ltb balance purchase = false ->
        F64.ltb (F64.sub balance reserve) purchase = false ->
        F64.ltb (F64.ofZ 50) share = false ->
        Advice64.affordabilityStatus_ v = Advice.AFFORDABLE
        /\ Advice64.riskLevel_ v = Advice.LowRisk
        /\ Advice64.recommendation_ v
           = Advice64.CanAfford (F64.sub balance purchase)).
Proof.
  intros Hamount Hpositive balance reserve share.
  pose proof (positive_truthy purchase Hpositive) as Htruthy.
  unfold Advice64.handleAffordabilityCheck.
  rewrite Hamount. unfold F64.or_num. cbn [F64.truthy_num].
  rewrite Htruthy. cbn [negb F64.truthy_num]. rewrite Htruthy. cbn [negb].
  do 2 eexists. split; [reflexivity|].
  unfold Advice64.affordability.
  rewrite (ltb_max_zero _ purchase Hpositive).
  fold balance reserve share.
  destruct (F64.leb balance F64.zero);
    [cbn; repeat split; intros; first [reflexivity | discriminate]|].
  destruct (F64.ltb balance purchase);
    [cbn; repeat split; intros; first [reflexivity | discriminate]|].
  destruct (F64.ltb (F64.sub balance reserve) purchase);
    [cbn; repeat split; intros; first [reflexivity | discriminate]|].
  destruct (F64.ltb (F64.ofZ 50) share);
    cbn; repeat split; intros; first [reflexivity | discriminate].
Qed.

End Affordability.

(** Balance -100, purchase 500: not affordable by rule 1, though the purchase
    is above the balance too. *)
Lemma C5_witness :
  let s :=
    {| Advice64.balance := F64.ofZ (-100);
       Advice64.totalIncome := F64.ofZ 50000;
       Advice64.totalExpenses := F64.ofZ 20000 |} in
  exists itemName v,
    Advice64.handleAffordabilityCheck no_match no_match (Some s)
      (Some (Advice64.priced (F64.ofZ 500))) None
    = Advice64.AffordabilityAnalysis itemName (F64.ofZ 500) v
    /\ Advice64.affordabilityStatus_ v = Advice.NOT_AFFORDABLE
    /\ Advice64.riskLevel_ v = Advice.HighRisk
    /\ Advice64.recommendation_ v = Advice64.NegativeBalance
    /\ F64.ltb (Advice64.balance s) (F64.ofZ 500) = true.
Proof.
  intros s.
  destruct (C5_affordability_priority_order no_match no_match s
              (Advice64.priced (F64.ofZ 500)) None (F64.ofZ 500)
              eq_refl eq_refl)
    as (itemName & v & Hreply & Hrule1 & _).
  exists itemName, v. split; [exact Hreply|].
  destruct (Hrule1 eq_refl) as (Hstatus & Hrisk & Hrec).
  repeat split; assumption.
Defined.

(** C5 as the specification has it fails for a purchase amount below zero,
    which the handler does not refuse: with balance 100, expenses 50 and an
    amount of -10, rules 1 and 2 do not match and rule 3 does
    (-10 > 100 - 150), yet the verdict is AFFORDABLE, because the code
    compares with [Math.max(0, -50)]. *)
Lemma C5_counterexample :
  let s :=
    {| Advice64.balance := F64.ofZ 100;
       Advice64.totalIncome := F64.ofZ 1000;
       Advice64.totalExpenses := F64.ofZ 50 |} in
  let purchase := F64.ofZ (-10) in
  F64.leb (Advice64.balance s) F64.zero = false
  /\ F64.ltb (Advice64.balance s) purchase = false
  /\ F64.ltb
       (F64.sub (Advice64.balance s)
          (F64.mul (F64.ofZ 3) (Advice64.totalExpenses s)))
       purchase = true
  /\ exists v,
       Advice64.handleAffordabilityCheck no_match no_match (Some s)
         (Some (Advice64.priced purchase)) None
       = Advice64.AffordabilityAnalysis None purchase v
       /\ Advice64.affordabilityStatus_ v = Advice.AFFORDABLE
       /\ Advice64.riskLevel_ v = Advice.LowRisk.
Proof.
  cbv zeta. repeat split. eexists. repeat split.
Qed.

(** The reserve is subtracted in binary: with balance 512.3 and expenses 4.1
    the safe spending limit is 499.99999999999994, so a purchase of 500 is
    risky. *)
Example reserve_is_rounded :
  let s :=
    {| Advice64.balance := F64.parseFloat "512.3";
       Advice64.totalIncome := F64.ofZ 100000;
       Advice64.totalExpenses := F64.parseFloat "4.1" |} in
  Advice64.affordabilityStatus_ (Advice64.affordability s (F64.ofZ 500))
  = Advice.RISKY_PURCHASE.
Proof. reflexivity. Qed.

(* --------------------------------------------------------------------- *)
(** ** Savings timeline *)
(* --------------------------------------------------------------------- *)

Section SavingsTimeline.

Variable matchAmount : string -> option string.
Variable matchItem : string -> option string.
Variable matchRupees : string -> option string.


End SavingsTimeline.


(** The contribution is rounded before the division: 70% of a surplus of
    11000 is 7699.999999999999, so a shortfall of 7700 takes two months. *)
Example contribution_is_rounded :
  Advice64.months (F64.ofZ 7700) (F64.mul (F64.ofZ 11000) F64.seven_tenths)
  = F64.ofZ 2.
Proof. reflexivity. Qed.

Section TargetAmount.

Variable matchAmount : string -> option string.
Variable matchItem : string -> option string.
Variable matchRupees : string -> option string.

(** Whatever was or was not extracted, the amount that reaches the guard of
    [handleSavingsTimeline] is a non-zero number. *)
Lemma purchaseTarget_truthy (d : Advice.payload) (q c : option string) :
  JS.truthy_num
    (fst (Advice.purchaseTarget matchAmount matchItem matchRupees d q c))
  = true.
Proof.
  unfold Advice.purchaseTarget.
  match goal with
  | |- context [if negb (JS.truthy_num ?x) then (Some 50000%Q, _) else _] =>
      destruct (JS.truthy_num x) eqn:E
  end; cbn [negb fst].
  - exact E.
  - reflexivity.
Qed.

(** With the financial data and the payload at hand, the reply of
    [handleSavingsTimeline] is the plan for the target amount that
    [purchaseTarget] settles on. *)
Lemma handleSavingsTimeline_plan (s : Advice.snapshot) (d : Advice.payload)
    (q c : option string) :
  exists target,
    fst (Advice.purchaseTarget matchAmount matchItem matchRupees d q c)
    = Some target
    /\ Advice.handleSavingsTimeline matchAmount matchItem matchRupees
         (Some s) (Some d) q c
       = Advice.savingsPlan s target
           (snd (Advice.purchaseTarget matchAmount matchItem matchRupees d q c)).
Proof.
  pose proof (purchaseTarget_truthy d q c) as H.
  unfold Advice.handleSavingsTimeline.
  destruct (Advice.purchaseTarget matchAmount matchItem matchRupees d q c)
    as [[target|] i]; cbn [fst snd] in *; [|discriminate H].
  exists target. rewrite H. split; reflexivity.
Qed.

(** C10 (as amended). In [handleSavingsTimeline] the reply "I need to know the
    target amount" is never produced, for any input.  When the financial data
    is available and neither the payload, nor the query, nor the conversation
    context yields a non-zero amount, the target amount is 50000; the item
    name is then the one extracted from the payload or the query, and "iPhone"
    only when none was extracted. *)
Theorem C10_default_target_amount :
  (forall (analytics : option Advice.snapshot) (data : option Advice.payload)
          (userQuery conversationContext : option string),
      Advice.handleSavingsTimeline matchAmount matchItem matchRupees
        analytics data userQuery conversationContext
      <> Advice.NeedTargetAmount)
  /\ (forall (s : Advice.snapshot) (d : Advice.payload)
             (userQuery conversationContext : option string),
        JS.truthy_num (Advice.amount d) = false ->
        JS.truthy_num
          (Advice.extractAmountFromQuery matchAmount (Advice.orEmpty userQuery))
        = false ->
        (JS.truthy_str conversationContext = true ->
         forall capture,
           matchRupees (Advice.orEmpty conversationContext) = Some capture ->
           JS.truthy_num
             (Advice.times (JS.parseInt (Advice.removeCommas capture)) 1)
           = false) ->
        let reply :=
          Advice.handleSavingsTimeline matchAmount matchItem matchRupees
            (Some s) (Some d) userQuery conversationContext in
        let extracted :=
          JS.or_str (Advice.item d)
            (Advice.extractItemFromQuery matchItem (Advice.orEmpty userQuery)) in
        reply = Advice.savingsPlan s 50000
                  (JS.or_str extracted (Some "iPhone"))
        /\ option_map Advice.targetAmount (Advice.data_of reply)
           = Some 50000%Q
        /\ (JS.truthy_str extracted = false ->
            Advice.itemName_of reply = Some "iPhone")
        /\ (JS.truthy_str extracted = true ->
            Advice.itemName_of reply = extracted)).
Proof.
  split.
  - intros analytics data userQuery conversationContext.
    unfold Advice.handleSavingsTimeline.
    destruct analytics as [s|]; [|discriminate].
    destruct data as [d|]; [|discriminate].
    pose proof (purchaseTarget_truthy d userQuery conversationContext) as H.
    destruct (Advice.purchaseTarget _ _ _ d userQuery conversationContext)
      as [p i].
    cbn [fst] in H. rewrite H. cbn [negb].
    destruct p as [p|]; [|discriminate H].
    unfold Advice.savingsPlan.
    destruct (Qle_bool _ 0); discriminate.
  - intros s d userQuery conversationContext Hd Hq Hc reply extracted.
    assert (Ht : Advice.purchaseTarget matchAmount matchItem matchRupees d
                   userQuery conversationContext
                 = (Some 50000%Q, JS.or_str extracted (Some "iPhone"))).
    { unfold Advice.purchaseTarget. fold extracted.
      unfold JS.or_num. rewrite Hd, Hq. cbn [negb andb].
      destruct (JS.truthy_str conversationContext) eqn:Ec.
      - destruct (matchRupees (Advice.orEmpty conversationContext)) as [cap|] eqn:Em.
        + rewrite (Hc eq_refl cap eq_refl). reflexivity.
        + rewrite Hq. reflexivity.
      - rewrite Hq. reflexivity. }
    assert (Hr : reply = Advice.savingsPlan s 50000
                           (JS.or_str extracted (Some "iPhone"))).
    { subst reply. unfold Advice.handleSavingsTimeline. rewrite Ht.
      reflexivity. }
    rewrite Hr. split; [reflexivity|].
    unfold Advice.savingsPlan.
    destruct (Qle_bool _ 0);
      cbn [Advice.itemName_of Advice.data_of option_map Advice.targetAmount];
      (split; [reflexivity|]); unfold JS.or_str;
      split; intros E; rewrite E; reflexivity.
Qed.

End TargetAmount.

(** A question that names neither an amount nor an item: the default target
    and the default item name. *)
Lemma C10_witness :
  let reply :=
    Advice.handleSavingsTimeline no_match no_match no_match
      (Some {| Advice.balance := 10000; Advice.totalIncome := 50000;
               Advice.totalExpenses := 30000 |})
      (Some {| Advice.amount := None; Advice.item := None |})
      (Some "In how much time will I be able to afford it?") None in
  option_map Advice.targetAmount (Advice.data_of reply) = Some 50000%Q
  /\ Advice.itemName_of reply = Some "iPhone".
Proof.
  pose proof (proj2 (C10_default_target_amount no_match no_match no_match)
                {| Advice.balance := 10000; Advice.totalIncome := 50000;
                   Advice.totalExpenses := 30000 |}
                {| Advice.amount := None; Advice.item := None |}
                (Some "In how much time will I be able to afford it?") None
                eq_refl eq_refl (fun H => False_ind _ (Bool.diff_false_true H)))
    as H.
  cbv zeta in H. destruct H as (_ & Ht & Hi & _).
  split; [exact Ht | exact (Hi eq_refl)].
Defined.

(** C10 (as stated) fails: with no amount anywhere the target is the default
    50000, but the item name is the extracted "Car", not "iPhone". *)
Lemma C10_counterexample :
  let reply :=
    Advice.handleSavingsTimeline no_match no_match no_match
      (Some {| Advice.balance := 10000; Advice.totalIncome := 50000;
               Advice.totalExpenses := 30000 |})
      (Some {| Advice.amount := None; Advice.item := None |})
      (Some "How long to save for a car?") None in
  option_map Advice.targetAmount (Advice.data_of reply) = Some 50000%Q
  /\ Advice.itemName_of reply = Some "Car"
  /\ Advice.itemName_of reply <> Some "iPhone".
Proof.
  cbv zeta. split; [reflexivity|]. split; [reflexivity|]. discriminate.
Qed.

(* --------------------------------------------------------------------- *)
(** ** Anomaly detection *)
(* --------------------------------------------------------------------- *)

(** C2, at the input where the code departs from it.  One earlier food
    expense of 100 is on record and a food receipt of 300 is added at noon.
    The mean of the prior expenses is 100 and 300 > 2 * 100, so the
    specification's check fires; the code has already pushed the new expense
    when it takes the mean, compares 300 with 2 * (100 + 300) / 2 = 400, and
    produces no alert. *)
Lemma C2_new_expense_counted_in_mean :
  let prior :=
    [ {| Demo.name := "lunch"; Demo.amount := 100;
         Demo.category := Some "food"; Demo.date := Some (Demo.DateAt 13) |} ] in
  let receiptData :=
    {| Demo.merchant := "Cafe"; Demo.firstItem := Some "dinner";
       Demo.total := 300; Demo.receiptCategory := Some "food";
       Demo.receiptDate := None |} in
  let e :=
    {| Demo.name := "Cafe - dinner"; Demo.amount := 300;
       Demo.category := Some "food"; Demo.date := Some (Demo.DateAt 12) |} in
  Demo.addSmartExpense (fun _ => Demo.InvalidDate) (Demo.DateAt 12)
    prior receiptData
  = (prior ++ [e], Return (e, []))
  /\ Demo.spec_prior_mean prior e = Some 100%Q
  /\ Demo.spec_unusual prior e = true.
Proof.
  cbv zeta. split; [reflexivity|]. split; reflexivity.
Qed.

Lemma late_night_range (hour : Z) :
  (0 <= hour <= 23)%Z ->
  ((hour <? 6)%Z || (hour >? 23)%Z = true <-> (hour < 6)%Z)
  /\ (hour >? 23)%Z = false.
Proof.
  intros Hr.
  assert (H23 : (hour >? 23)%Z = false) by lia.
  rewrite H23, orb_false_r. split; [lia | reflexivity].
Qed.

(** C9. For an entry whose local hour is in 0..23, [detectAnomalies] returns
    (it does not throw) and its alerts contain a late-night alert if and only
    if the hour is below 6; the [hour > 23] half of the rule is false for
    every such hour. *)
Theorem C9_late_night_alert (expenseDB : list Demo.expense) (e : Demo.expense)
    (hour : Z) :
  Demo.date e = Some (Demo.DateAt hour) ->
  (0 <= hour <= 23)%Z ->
  exists alerts,
    Demo.detectAnomalies expenseDB e = Return alerts
    /\ (existsb Demo.is_late_night alerts = true <-> (hour < 6)%Z)
    /\ (In (Demo.LATE_NIGHT hour) alerts <-> (hour < 6)%Z)
    /\ (hour >? 23)%Z = false.
Proof.
  intros Hd Hr. unfold Demo.detectAnomalies. rewrite Hd. cbn [Demo.getHours].
  destruct (late_night_range hour Hr) as [Hiff H23].
  set (amountAlerts :=
         if (0 <? _)%nat then
           if JS.Qlt_bool _ _ then [Demo.UNUSUAL _ _] else []
         else []).
  assert (Hno : existsb Demo.is_late_night amountAlerts = false
                /\ ~ In (Demo.LATE_NIGHT hour) amountAlerts).
  { subst amountAlerts.
    destruct (0 <? _)%nat; [destruct (JS.Qlt_bool _ _)|]; cbn;
      split; try reflexivity; intros H; try destruct H as [H|H];
      try discriminate; try contradiction. }
  destruct Hno as [Hno1 Hno2].
  destruct ((hour <? 6)%Z || (hour >? 23)%Z) eqn:E.
  - exists (amountAlerts ++ [Demo.LATE_NIGHT hour]).
    split; [reflexivity|]. split; [|split; [|exact H23]].
    + rewrite existsb_app. cbn. rewrite orb_true_r.
      split; [intros _; apply Hiff; reflexivity | reflexivity].
    + split; [intros _; apply Hiff; reflexivity|].
      intros _. apply in_or_app. right. left. reflexivity.
  - exists amountAlerts.
    split; [reflexivity|]. split; [|split; [|exact H23]].
    + rewrite Hno1. split; [discriminate|].
      intros H. apply Hiff in H. discriminate.
    + split; [contradiction|].
      intros H. apply Hiff in H. discriminate.
Qed.

(** A taxi ride at two in the night. *)
Lemma C9_witness :
  exists alerts,
    Demo.detectAnomalies []
      {| Demo.name := "taxi"; Demo.amount := 250;
         Demo.category := Some "transport";
         Demo.date := Some (Demo.DateAt 2) |} = Return alerts
    /\ (existsb Demo.is_late_night alerts = true <-> (2 < 6)%Z)
    /\ (In (Demo.LATE_NIGHT 2) alerts <-> (2 < 6)%Z)
    /\ (2 >? 23)%Z = false.
Proof.
  apply (C9_late_night_alert []
           {| Demo.name := "taxi"; Demo.amount := 250;
              Demo.category := Some "transport";
              Demo.date := Some (Demo.DateAt 2) |} 2 eq_refl).
  split; [discriminate | discriminate].
Defined.

(* --------------------------------------------------------------------- *)
(** ** Gateway: one fallback, at most two requests *)
(* --------------------------------------------------------------------- *)

Section GatewayProperties.

Variable create : nat -> Gateway.request -> outcome Gateway.response.

Lemma getOptimalModel_cases (task : string) :
  Gateway.getOptimalModel task = Gateway.Configured (Gateway.configOf task)
  /\ existsb (String.eqb task) Gateway.prototypeMembers = false
  \/ Gateway.getOptimalModel task = Gateway.Inherited task
     /\ existsb (String.eqb task) Gateway.prototypeMembers = true
     /\ Gateway.lookup task = None.
Proof.
  unfold Gateway.getOptimalModel, Gateway.configOf.
  destruct (Gateway.lookup task) as [config|] eqn:E.
  - left. split; [reflexivity|].
    unfold Gateway.lookup, Gateway.models in E. cbn [List.find fst snd] in E.
    repeat match type of E with
    | context [String.eqb ?a task] =>
        let H := fresh "H" in
        destruct (String.eqb a task) eqn:H;
        [apply String.eqb_eq in H; subst task; reflexivity|]
    end.
    discriminate E.
  - destruct (existsb _ _); [right | left]; auto.
Qed.

Lemma callFallback_request (msgs : list Gateway.message)
    (tls : option (list string)) (issued : list Gateway.request) :
  Gateway.callFallback create msgs tls issued
  = (create (List.length issued) (Gateway.fallbackRequest msgs tls),
     issued ++ [Gateway.fallbackRequest msgs tls]).
Proof.
  unfold Gateway.callFallback, Gateway.fallbackRequest.
  cbn [Gateway.getOptimalModel Gateway.lookup Gateway.models List.find fst snd
       String.eqb Ascii.eqb Bool.eqb Gateway.client_ Gateway.model].
  destruct (create (List.length issued) _); reflexivity.
Qed.

Lemma primary_request (config : Gateway.modelConfig)
    (msgs : list Gateway.message) (tls : option (list string)) :
  (if String.eqb (Gateway.type_ config) "github" then
     {| Gateway.to := Gateway.client_ config;
        Gateway.request_model := Gateway.model config;
        Gateway.messages := msgs; Gateway.tools := tls;
        Gateway.tool_choice := Gateway.toolChoice tls |}
   else
     {| Gateway.to := Gateway.client_ config;
        Gateway.request_model := Gateway.model config;
        Gateway.messages := msgs; Gateway.tools := tls;
        Gateway.tool_choice := Gateway.toolChoice tls |})
  = {| Gateway.to := Gateway.client_ config;
       Gateway.request_model := Gateway.model config;
       Gateway.messages := msgs; Gateway.tools := tls;
       Gateway.tool_choice := Gateway.toolChoice tls |}.
Proof. destruct (String.eqb _ _); reflexivity. Qed.

(** What one call does, by the three ways it can go. *)
Lemma callAIWithBestModel_cases (task : string) (msgs : list Gateway.message)
    (tls : option (list string)) (issued : list Gateway.request) :
  let primary := Gateway.primaryRequest task msgs tls in
  let second := Gateway.fallbackRequest msgs tls in
  (existsb (String.eqb task) Gateway.prototypeMembers = false
   /\ ((exists response,
          create (List.length issued) primary = Return response
          /\ Gateway.callAIWithBestModel create task msgs tls issued
             = (Return response, issued ++ [primary]))
       \/ (exists error,
             create (List.length issued) primary = Throw error
             /\ Gateway.callAIWithBestModel create task msgs tls issued
                = (create (S (List.length issued)) second,
                   issued ++ [primary; second]))))
  \/ (existsb (String.eqb task) Gateway.prototypeMembers = true
      /\ Gateway.callAIWithBestModel create task msgs tls issued
         = (create (List.length issued) second, issued ++ [second])).
Proof.
  intros primary second. unfold Gateway.callAIWithBestModel.
  destruct (getOptimalModel_cases task) as [[-> Hown]|(-> & Hmember & _)].
  - left. split; [exact Hown|].
    rewrite primary_request. fold (Gateway.primaryRequest task msgs tls).
    fold primary.
    destruct (create (List.length issued) primary) as [response|error].
    + left. exists response. split; reflexivity.
    + right. exists error. split; [reflexivity|].
      rewrite callFallback_request, length_app, Nat.add_1_r, <- app_assoc.
      reflexivity.
  - right. split; [exact Hmember|]. apply callFallback_request.
Qed.

Lemma primary_request_sent (task : string) (msgs : list Gateway.message)
    (tls : option (list string)) (issued : list Gateway.request) :
  existsb (String.eqb task) Gateway.prototypeMembers = false ->
  exists r rest,
    Gateway.callAIWithBestModel create task msgs tls issued
    = (r, issued ++ Gateway.primaryRequest task msgs tls :: rest)
    /\ (List.length rest <= 1)%nat.
Proof.
  intros Hown.
  destruct (callAIWithBestModel_cases task msgs tls issued)
    as [[_ [(response & _ & ->)|(error & _ & ->)]]|[Hmember _]].
  - exists (Return response), []. split; [reflexivity | cbn; lia].
  - eexists _, [_]. split; [reflexivity | cbn; lia].
  - congruence.
Qed.

(** C3 (as amended). One call of [callAIWithBestModel] goes one of three
    ways.  When the first request resolves with a response object, that
    object is returned as it is, whatever it holds, and no other request is
    made.  When the first
    request is rejected, exactly one more request is issued: it goes to the
    fallback provider and carries the same messages and tools as the first;
    the caller gets what that request resolves with or, when it is rejected
    too, the error of the fallback request alone: the error of the first
    request is dropped.  When the task names a member of [Object.prototype]
    no first request can be made, and the request to the fallback provider is
    the only one.  No call issues more than two requests. *)
Theorem C3_one_fallback_call (task : string) (msgs : list Gateway.message)
    (tls : option (list string)) (issued : list Gateway.request) :
  let primary := Gateway.primaryRequest task msgs tls in
  let second := Gateway.fallbackRequest msgs tls in
  let call := Gateway.callAIWithBestModel create task msgs tls issued in
  (existsb (String.eqb task) Gateway.prototypeMembers = false ->
   (forall response,
      create (List.length issued) primary = Return response ->
      call = (Return response, issued ++ [primary]))
   /\ (forall error,
         create (List.length issued) primary = Throw error ->
         call = (create (S (List.length issued)) second,
                 issued ++ [primary; second])
         /\ (forall fallbackError,
               create (S (List.length issued)) second = Throw fallbackError ->
               fst call = Throw fallbackError)))
  /\ (existsb (String.eqb task) Gateway.prototypeMembers = true ->
      call = (create (List.length issued) second, issued ++ [second]))
  /\ Gateway.to second = Gateway.groq
  /\ Gateway.messages second = Gateway.messages primary
  /\ Gateway.tools second = Gateway.tools primary
  /\ Gateway.tool_choice second = Gateway.tool_choice primary
  /\ (List.length issued < List.length (snd call) <= List.length issued + 2)%nat.
Proof.
  intros primary second call.
  pose proof (callAIWithBestModel_cases task msgs tls issued) as Hcases.
  cbv zeta in Hcases. fold primary second call in Hcases.
  split; [|split].
  - intros Hown. split.
    + intros response Hfirst.
      destruct Hcases as [[_ [(r & Hr & Hcall)|(e & He & _)]]|[Hmember _]];
        congruence.
    + intros error Hfirst.
      destruct Hcases as [[_ [(r & Hr & _)|(e & He & Hcall)]]|[Hmember _]];
        try congruence.
      split; [exact Hcall|].
      intros fallbackError Hsecond. rewrite Hcall. exact Hsecond.
  - intros Hmember.
    destruct Hcases as [[Hown _]|[_ Hcall]]; [congruence | exact Hcall].
  - repeat (split; [reflexivity|]).
    destruct Hcases as [[_ [(r & _ & ->)|(e & _ & ->)]]|[_ ->]];
      cbn [snd]; rewrite length_app; cbn [List.length]; lia.
Qed.

End GatewayProperties.

(** Both providers down: two requests, and the failure thrown is the one of
    the fallback provider. *)
Lemma C3_witness :
  let msgs := [ {| Gateway.role := "user"; Gateway.content := "hello" |} ] in
  Gateway.callAIWithBestModel Gateway.providers_down "conversation" msgs None []
  = (Throw "429 Too Many Requests",
     [ Gateway.primaryRequest "conversation" msgs None;
       Gateway.fallbackRequest msgs None ]).
Proof.
  intros msgs.
  exact (proj1
           (proj2
              (proj1 (C3_one_fallback_call Gateway.providers_down
                        "conversation" msgs None []) eq_refl)
              "401 Unauthorized" eq_refl)).
Defined.

(** C3 as the specification has it fails twice.  A first request that
    resolves with a response of the wrong shape (here: no choices) is not a
    failure for the gateway: the response is returned and the fallback
    provider is not called.  And when both providers fail the caller gets
    the error of the second, in which nothing of the first is kept. *)
Lemma C3_counterexample :
  let msgs := [ {| Gateway.role := "user"; Gateway.content := "hello" |} ] in
  Gateway.callAIWithBestModel (fun _ _ => Return Gateway.shapeless)
    "conversation" msgs None []
  = (Return Gateway.shapeless, [Gateway.primaryRequest "conversation" msgs None])
  /\ Classifier.readContent Gateway.shapeless
     = Throw "TypeError: Cannot read properties of undefined (reading 'message')"
  /\ fst (Gateway.callAIWithBestModel Gateway.providers_down "conversation"
            msgs None [])
     = Throw "429 Too Many Requests"
  /\ Gateway.providers_down 0 (Gateway.primaryRequest "conversation" msgs None)
     = Throw "401 Unauthorized"
  /\ JS.includes "429 Too Many Requests" "401" = false.
Proof.
  cbv zeta. repeat split.
Qed.

(* --------------------------------------------------------------------- *)
(** ** Statement import *)
(* --------------------------------------------------------------------- *)


Lemma intelligentCategorization_names (merchant : string) :
  In (Statement.intelligentCategorization merchant)
     ["food"; "transport"; "entertainment"; "shopping"; "bills"; "healthcare";
      "utilities"; "education"; "other"].
Proof.
  unfold Statement.intelligentCategorization. cbv zeta.
  destruct (List.find _ Statement.rules) as [rule|] eqn:E;
    [|cbn; tauto].
  apply List.find_some in E. destruct E as [Hin _].
  cbn in Hin. repeat destruct Hin as [<-|Hin]; cbn; tauto.
Qed.


Section ImportProperties.

Variable saveTransactionToDatabase :
  nat -> Statement.ProcessedTransaction -> outcome unit.

Abbreviation processOne := (Statement.processOne saveTransactionToDatabase).

Lemma processOne_counts (p : Statement.progress)
    (rawTx : Statement.RawTransaction) :
  Statement.p_processed (processOne p rawTx) = S (Statement.p_processed p)
  /\ (Statement.p_imported (processOne p rawTx)
      + Statement.p_skipped (processOne p rawTx)
      = S (Statement.p_imported p + Statement.p_skipped p))%nat.
Proof.
  unfold Statement.processOne.
  destruct (Statement.failedStatus rawTx); [cbn; lia|].
  destruct (Statement.categorizeTransaction rawTx) as [t|]; [|cbn; lia].
  destruct (saveTransactionToDatabase _ t); [|cbn; lia].
  destruct (Statement.type t); cbn; lia.
Qed.

Lemma fold_counts (transactions : list Statement.RawTransaction)
    (p : Statement.progress) :
  let p' := fold_left processOne transactions p in
  Statement.p_processed p'
  = (Statement.p_processed p + List.length transactions)%nat
  /\ (Statement.p_imported p' + Statement.p_skipped p'
      = Statement.p_imported p + Statement.p_skipped p
        + List.length transactions)%nat.
Proof.
  revert p. induction transactions as [|rawTx rest IH]; intros p; cbn.
  - lia.
  - destruct (IH (processOne p rawTx)) as (H1 & H2).
    destruct (processOne_counts p rawTx) as (G1 & G2).
    cbv zeta in H1, H2. lia.
Qed.








(** Whatever the database does with each save, every transaction is counted
    once, as imported or as skipped. *)
Lemma import_counts (transactions : list Statement.RawTransaction) :
  let r :=
    Statement.processTransactionsWithAI saveTransactionToDatabase
      transactions in
  Statement.processed r = List.length transactions
  /\ (Statement.imported r + Statement.skipped r = Statement.processed r)%nat.
Proof.
  cbv zeta. unfold Statement.processTransactionsWithAI.
  cbn [Statement.processed Statement.imported Statement.skipped].
  destruct (fold_counts transactions Statement.start) as (Hp & Hsum).
  cbv zeta in Hp, Hsum.
  cbn [Statement.start Statement.p_processed Statement.p_imported
       Statement.p_skipped] in Hp, Hsum.
  split; [exact Hp | lia].
Qed.

End ImportProperties.



(* --------------------------------------------------------------------- *)
(** ** Intent classifier *)
(* --------------------------------------------------------------------- *)

(** The validation of [extractExpenseFromMessage] on the four fields it
    reads: the missing fields come in the order amount, description,
    category, and the question is the one of the first of them. *)
Lemma validateExpense_order (ToNumber : Json.value -> option Q)
    (amount name description category : option Json.value) :
  let missing :=
    fst (Classifier.validateExpense ToNumber amount name description category) in
  let question :=
    snd (Classifier.validateExpense ToNumber amount name description category) in
  missing
  = List.filter
      (fun field =>
         if String.eqb field "amount"
         then negb (Json.truthy amount) || Classifier.le_zero ToNumber amount
         else if String.eqb field "description"
         then negb (Json.truthy name) && negb (Json.truthy description)
         else negb (Json.truthy category))
      Classifier.required_fields
  /\ (amount = None \/ amount = Some Json.Null
      \/ (exists q, amount = Some (Json.Num q) /\ (q <= 0)%Q) ->
      In "amount" missing)
  /\ (forall q, amount = Some (Json.Num q) -> (0 < q)%Q -> ~ In "amount" missing)
  /\ (In "description" missing
      <-> Json.truthy name = false /\ Json.truthy description = false)
  /\ (In "category" missing <-> Json.truthy category = false)
  /\ question
     = match missing with
       | [] => None
       | first :: _ => Classifier.question_for first amount
       end.
Proof.
  intros missing question. subst missing question.
  unfold Classifier.validateExpense, Classifier.required_fields.
  assert (Hamount :
    amount = None \/ amount = Some Json.Null
    \/ (exists q, amount = Some (Json.Num q) /\ (q <= 0)%Q) ->
    negb (Json.truthy amount) || Classifier.le_zero ToNumber amount = true).
  { intros [->|[->|(q & -> & Hq)]]; try reflexivity.
    cbn. apply Qle_bool_iff in Hq. rewrite Hq. apply orb_true_r. }
  assert (Hpositive : forall q, amount = Some (Json.Num q) -> (0 < q)%Q ->
    negb (Json.truthy amount) || Classifier.le_zero ToNumber amount = false).
  { intros q -> Hq. cbn.
    assert (Qeq_bool q 0 = false) as ->.
    { destruct (Qeq_bool q 0) eqn:E; [|reflexivity].
      apply Qeq_bool_iff in E. lra. }
    assert (Qle_bool q 0 = false) as ->; [|reflexivity].
    destruct (Qle_bool q 0) eqn:E; [|reflexivity].
    apply Qle_bool_iff in E. lra. }
  assert (Hdescription :
    negb (Json.truthy name) && negb (Json.truthy description) = true
    <-> Json.truthy name = false /\ Json.truthy description = false).
  { destruct (Json.truthy name), (Json.truthy description); cbn; intuition
      discriminate. }
  destruct (negb (Json.truthy amount) || Classifier.le_zero ToNumber amount)
    eqn:E1;
  destruct (negb (Json.truthy name) && negb (Json.truthy description)) eqn:E2;
  destruct (Json.truthy category) eqn:E3;
  cbn [negb app List.filter String.eqb Ascii.eqb Bool.eqb fst snd List.length
       Nat.ltb Nat.leb Classifier.member existsb orb andb
       Classifier.question_for];
  (split; [reflexivity|]);
  (split; [intros H; specialize (Hamount H); first [discriminate | cbn; tauto]|]);
  (split; [intros q Ha Hq; specialize (Hpositive q Ha Hq);
           first [discriminate | cbn; intuition discriminate]|]);
  (split; [rewrite <- Hdescription; cbn; intuition discriminate|]);
  (split; [cbn; intuition discriminate | reflexivity]).
Qed.

(** C8. When the provider's answer to [extractExpenseFromMessage] parses to
    a value with a truthy [hasExpense] and an [expenseData] whose fields can
    be read, the result of [extractExpenseFromMessage] reports the expense
    with that [expenseData]; its missing fields are those of amount,
    description, category that fail their test, in this order, and
    [missingFields] is undefined, never an empty list, when none fails; the
    amount is missing when it is absent, null or a number that is not
    positive (and not missing when it is a positive number), the description
    when both name and description are absent, the category when it is
    absent; the clarifying question is the one of the first missing field,
    so there is at most one, and none when nothing is missing. *)
Theorem C8_missing_field_order
    (create : nat -> Gateway.request -> outcome Gateway.response)
    (JSON_parse : string -> option Json.value)
    (ToNumber : Json.value -> option Q) (expensePrompt : string -> string)
    (message : string) (issued issued' : list Gateway.request)
    (response : Gateway.response) (content : string) (result : Json.value)
    (hasExpense expenseData amount name description category
       : option Json.value) :
  Gateway.callAIWithBestModel create "expense-extraction"
    [ {| Gateway.role := "user"; Gateway.content := expensePrompt message |} ]
    None issued = (Return response, issued') ->
  Classifier.readContent response = Return content ->
  JSON_parse (Classifier.cleanContent content) = Some result ->
  Json.get (Some result) "hasExpense" = Return hasExpense ->
  Json.truthy hasExpense = true ->
  Json.get (Some result) "expenseData" = Return expenseData ->
  Json.get expenseData "amount" = Return amount ->
  Json.get expenseData "name" = Return name ->
  Json.get expenseData "description" = Return description ->
  Json.get expenseData "category" = Return category ->
  let r :=
    fst (Classifier.extractExpenseFromMessage create JSON_parse ToNumber
           expensePrompt message issued) in
  let missing :=
    match Classifier.missingFields r with
    | Some fields => fields
    | None => []
    end in
  Classifier.hasExpense r = true
  /\ Classifier.expenseData r = expenseData
  /\ Classifier.missingFields r <> Some []
  /\ missing
     = List.filter
         (fun field =>
            if String.eqb field "amount"
            then negb (Json.truthy amount) || Classifier.le_zero ToNumber amount
            else if String.eqb field "description"
            then negb (Json.truthy name) && negb (Json.truthy description)
            else negb (Json.truthy category))
         Classifier.required_fields
  /\ (amount = None \/ amount = Some Json.Null
      \/ (exists q, amount = Some (Json.Num q) /\ (q <= 0)%Q) ->
      In "amount" missing)
  /\ (forall q, amount = Some (Json.Num q) -> (0 < q)%Q -> ~ In "amount" missing)
  /\ (In "description" missing
      <-> Json.truthy name = false /\ Json.truthy description = false)
  /\ (In "category" missing <-> Json.truthy category = false)
  /\ Classifier.clarificationQuestion r
     = match missing with
       | [] => None
       | first :: _ => Classifier.question_for first amount
       end.
Proof.
  intros Hcall Hcontent Hparse HhasExpense Htruthy Hdata Hamount Hname
    Hdescription Hcategory r missing.
  assert (Hr :
    r = {| Classifier.hasExpense := true;
           Classifier.expenseData := expenseData;
           Classifier.missingFields :=
             if (0 <? List.length
                        (fst (Classifier.validateExpense ToNumber amount name
                                description category)))%nat
             then Some (fst (Classifier.validateExpense ToNumber amount name
                               description category))
             else None;
           Classifier.clarificationQuestion :=
             snd (Classifier.validateExpense ToNumber amount name description
                    category) |}).
  { subst r. unfold Classifier.extractExpenseFromMessage,
      Classifier.extractExpenseFromMessage_try.
    rewrite Hcall.
    unfold mbind, outcome_bind. cbv beta iota.
    unfold Classifier.readExpense, Classifier.parseContent.
    unfold mbind, outcome_bind, mret, outcome_ret.
    rewrite Hcontent, Hparse, HhasExpense, Htruthy. cbn [negb].
    rewrite Hdata, Hamount, Hname, Hdescription, Hcategory.
    destruct (Classifier.validateExpense ToNumber amount name description
                category) as [m q].
    reflexivity. }
  assert (Hmissing :
    missing
    = fst (Classifier.validateExpense ToNumber amount name description
             category)).
  { subst missing. rewrite Hr. cbn [Classifier.missingFields].
    destruct (fst (Classifier.validateExpense ToNumber amount name description
                     category)); reflexivity. }
  destruct (validateExpense_order ToNumber amount name description category)
    as (Horder & Habsent & Hpositive & Hdesc & Hcat & Hquestion).
  rewrite Hmissing.
  split; [rewrite Hr; reflexivity|].
  split; [rewrite Hr; reflexivity|].
  split.
  { rewrite Hr. cbn [Classifier.missingFields].
    destruct (fst (Classifier.validateExpense ToNumber amount name description
                     category)); cbn; discriminate. }
  split; [exact Horder|].
  split; [exact Habsent|].
  split; [exact Hpositive|].
  split; [exact Hdesc|].
  split; [exact Hcat|].
  rewrite Hr. exact Hquestion.
Qed.

(** "I bought coffee", answered with a name and no amount: the amount and
    the category are missing, and the question asks for the amount. *)
Lemma C8_witness :
  let r :=
    fst (Classifier.extractExpenseFromMessage
           (Classifier.answers Classifier.coffee_answer) Json.parse
           Classifier.not_a_number Classifier.prompt1 "I bought coffee" []) in
  Classifier.missingFields r = Some ["amount"; "category"]
  /\ Classifier.clarificationQuestion r = Some Classifier.AskAmount.
Proof.
  pose proof
    (C8_missing_field_order (Classifier.answers Classifier.coffee_answer)
       Json.parse Classifier.not_a_number Classifier.prompt1
       "I bought coffee" [] _ _ _ _ _ _ _ _ _ _
       eq_refl eq_refl eq_refl eq_refl eq_refl eq_refl eq_refl eq_refl
       eq_refl eq_refl) as H.
  cbv zeta in H.
  destruct H as (_ & _ & _ & Hmissing & _ & _ & _ & _ & Hquestion).
  split.
  - destruct (Classifier.missingFields _) as [fields|] eqn:E.
    + rewrite Hmissing. reflexivity.
    + vm_compute in E. discriminate E.
  - rewrite Hquestion. reflexivity.
Defined.

Example extractExpenseFromMessage_coffee :
  fst (Classifier.extractExpenseFromMessage
         (Classifier.answers Classifier.coffee_answer) Json.parse
         Classifier.not_a_number Classifier.prompt1 "I bought coffee" [])
  = {| Classifier.hasExpense := true;
       Classifier.expenseData :=
         Some (Json.Obj [("name", Json.Str "coffee"); ("amount", Json.Null)]);
       Classifier.missingFields := Some ["amount"; "category"];
       Classifier.clarificationQuestion := Some Classifier.AskAmount |}.
Proof. reflexivity. Qed.

Section ClassifierProperties.

Variable create : nat -> Gateway.request -> outcome Gateway.response.
Variable JSON_parse : string -> option Json.value.
Variable ToNumber : Json.value -> option Q.
Variable extractionPrompt : string -> option string -> string.
Variable expensePrompt : string -> string.

(** What [classify] does with a parsed answer. *)
Lemma classify_parsed (response : Gateway.response) (content : string)
    (result : Json.value) :
  Classifier.readContent response = Return content ->
  JSON_parse (Classifier.cleanContent content) = Some result ->
  Classifier.classify JSON_parse response
  = (type ← Json.get (Some result) "type";
     if negb (Json.truthy type) || Json.equals type "none"
     then Return Classifier.none
     else
       data ← Json.get (Some result) "data";
       isMultiple ← Json.get (Some result) "isMultiple";
       Return {| Classifier.type := type;
                 Classifier.hasData := true;
                 Classifier.data := data;
                 Classifier.isMultiple :=
                   Json.orElse isMultiple (Some (Json.Bool false)) |}).
Proof.
  intros Hc Hp. unfold Classifier.classify. rewrite Hc. cbn.
  unfold Classifier.parseContent. rewrite Hp. reflexivity.
Qed.

(** C7 (as amended). [extractFinancialData] and [extractExpenseFromMessage]
    answer every exception of their [try] block with the [none] variant: they
    never raise.  When the provider's text, with the markdown fences
    stripped, is not valid JSON, the result is [none]; when it parses to
    [null] or to a value whose [type] is missing, falsy or "none", the result
    is [none]; any other parsed value is passed on with [hasData = true], its
    [type] and [data] as they came, whether or not it has the expected
    shape. *)
Theorem C7_malformed_output (message : string)
    (conversationContext : option string) (issued : list Gateway.request) :
  let attempt :=
    Classifier.extractFinancialData_try create JSON_parse extractionPrompt
      message conversationContext issued in
  let r :=
    fst (Classifier.extractFinancialData create JSON_parse extractionPrompt
           message conversationContext issued) in
  (forall error, fst attempt = Throw error -> r = Classifier.none)
  /\ (forall result, fst attempt = Return result -> r = result)
  /\ (Classifier.hasData r = false -> r = Classifier.none)
  /\ (forall response issued' content,
        Gateway.callAIWithBestModel create "expense-extraction"
          [ {| Gateway.role := "user";
               Gateway.content :=
                 extractionPrompt message conversationContext |} ]
          None issued = (Return response, issued') ->
        Classifier.readContent response = Return content ->
        (JSON_parse (Classifier.cleanContent content) = None ->
         r = Classifier.none)
        /\ (forall result,
              JSON_parse (Classifier.cleanContent content) = Some result ->
              (result = Json.Null -> r = Classifier.none)
              /\ (forall type,
                    Json.get (Some result) "type" = Return type ->
                    Json.truthy type = false \/ Json.equals type "none" = true ->
                    r = Classifier.none)
              /\ (forall type,
                    Json.get (Some result) "type" = Return type ->
                    Json.truthy type = true ->
                    Json.equals type "none" = false ->
                    Classifier.hasData r = true
                    /\ Classifier.type r = type
                    /\ Json.get (Some result) "data"
                       = Return (Classifier.data r))))
  /\ (forall error,
        fst (Classifier.extractExpenseFromMessage_try create JSON_parse
               ToNumber expensePrompt message issued) = Throw error ->
        fst (Classifier.extractExpenseFromMessage create JSON_parse ToNumber
               expensePrompt message issued) = Classifier.noExpense).
Proof.
  intros attempt r.
  assert (Hthrow : forall error, fst attempt = Throw error -> r = Classifier.none).
  { intros error H. subst r. unfold Classifier.extractFinancialData.
    fold attempt. destruct attempt as [[x|e] i]; [discriminate H | reflexivity]. }
  assert (Hreturn : forall result, fst attempt = Return result -> r = result).
  { intros result H. subst r. unfold Classifier.extractFinancialData.
    fold attempt. destruct attempt as [[x|e] i]; cbn in *; congruence. }
  split; [exact Hthrow|]. split; [exact Hreturn|]. split; [|split].
  - intros Hno. destruct (fst attempt) as [x|e] eqn:E.
    + rewrite (Hreturn x eq_refl) in *.
      subst attempt. unfold Classifier.extractFinancialData_try in E.
      destruct (Gateway.callAIWithBestModel _ _ _ _ _) as [[resp|err] i];
        cbn in E; [|discriminate E].
      unfold Classifier.classify in E.
      destruct (Classifier.readContent resp) as [content|];
        run_outcome E; [|discriminate E].
      destruct (Classifier.parseContent JSON_parse content) as [result|];
        run_outcome E; [|discriminate E].
      destruct (Json.get (Some result) "type") as [t|];
        run_outcome E; [|discriminate E].
      destruct (negb (Json.truthy t) || Json.equals t "none");
        [injection E as <-; reflexivity|].
      destruct (Json.get (Some result) "data") as [d|];
        run_outcome E; [|discriminate E].
      destruct (Json.get (Some result) "isMultiple") as [m|];
        run_outcome E; [|discriminate E].
      injection E as <-. cbn in Hno. discriminate Hno.
    + exact (Hthrow e eq_refl).
  - intros response issued' content Hcall Hcontent.
    assert (Hattempt : fst attempt = Classifier.classify JSON_parse response).
    { subst attempt. unfold Classifier.extractFinancialData_try.
      rewrite Hcall. reflexivity. }
    split.
    + intros Hparse. apply (Hthrow "SyntaxError: Unexpected token in JSON").
      rewrite Hattempt. unfold Classifier.classify. rewrite Hcontent. cbn.
      unfold Classifier.parseContent. rewrite Hparse. reflexivity.
    + intros result Hparse.
      rewrite (classify_parsed response content result Hcontent Hparse)
        in Hattempt.
      split; [|split].
      * intros ->. unfold Json.get in Hattempt. run_outcome Hattempt.
        exact (Hthrow _ Hattempt).
      * intros type Htype Hfalsy. rewrite Htype in Hattempt.
        run_outcome Hattempt.
        assert (negb (Json.truthy type) || Json.equals type "none" = true)
          as Hc by (destruct Hfalsy as [-> | ->];
                    [reflexivity | apply orb_true_r]).
        rewrite Hc in Hattempt. exact (Hreturn _ Hattempt).
      * intros type Htype Htruthy Hnot. rewrite Htype in Hattempt.
        run_outcome Hattempt. rewrite Htruthy, Hnot in Hattempt.
        cbn [negb orb] in Hattempt.
        destruct (Json.get (Some result) "data") as [d|] eqn:Ed.
        2:{ destruct result; discriminate. }
        destruct (Json.get (Some result) "isMultiple") as [m|] eqn:Em.
        2:{ destruct result; discriminate. }
        run_outcome Hattempt.
        rewrite (Hreturn _ Hattempt). repeat split; reflexivity.
  - intros error H. unfold Classifier.extractExpenseFromMessage.
    destruct (Classifier.extractExpenseFromMessage_try _ _ _ _ _ _)
      as [[x|e] i]; [discriminate H | reflexivity].
Qed.

End ClassifierProperties.

(** An answer in prose is not JSON: the classifier returns [none]. *)
Lemma C7_witness :
  fst (Classifier.extractFinancialData
         (Classifier.answers Classifier.prose_answer) Json.parse
         Classifier.prompt2 "I spent 150 on coffee" None [])
  = Classifier.none.
Proof.
  exact (proj1 (C7_malformed_output
                  (Classifier.answers Classifier.prose_answer) Json.parse
                  Classifier.not_a_number Classifier.prompt2
                  Classifier.prompt1 "I spent 150 on coffee" None [])
           "SyntaxError: Unexpected token in JSON" eq_refl).
Defined.

(** C7 (as stated) fails: the answer [{"type":"expense"}] parses, but it has
    no [data] and so is not of the expected shape; the classifier passes it
    on as an expense with [hasData = true] instead of returning [none].  The
    same happens to an intent that is not one of the seven. *)
Lemma C7_counterexample :
  let r :=
    fst (Classifier.extractFinancialData
           (Classifier.answers Classifier.incomplete_answer) Json.parse
           Classifier.prompt2 "I spent" None []) in
  let r' :=
    fst (Classifier.extractFinancialData
           (Classifier.answers Classifier.banana_answer) Json.parse
           Classifier.prompt2 "banana" None []) in
  Json.parse (Classifier.cleanContent Classifier.incomplete_answer)
  = Some (Json.Obj [("type", Json.Str "expense")])
  /\ Classifier.expected_shape (Json.Obj [("type", Json.Str "expense")]) = false
  /\ r = {| Classifier.type := Some (Json.Str "expense");
            Classifier.hasData := true;
            Classifier.data := None;
            Classifier.isMultiple := Some (Json.Bool false) |}
  /\ r <> Classifier.none
  /\ Classifier.type r' = Some (Json.Str "banana")
  /\ Classifier.hasData r' = true.
Proof.
  cbv zeta. repeat (split; [reflexivity|]).
  split; [discriminate|]. split; reflexivity.
Qed.

(* --------------------------------------------------------------------- *)
(** ** Chat: the conversation states *)
(* --------------------------------------------------------------------- *)

Lemma keeps_ret {A : Type} (a : A) : Chat.keeps (mret a : Chat.M A).
Proof. intros w. reflexivity. Qed.

Lemma keeps_lift {A : Type} (o : outcome A) : Chat.keeps (Chat.lift o).
Proof. intros w. reflexivity. Qed.

Lemma keeps_bind {A B : Type} (m : Chat.M A) (f : A -> Chat.M B) :
  Chat.keeps m -> (forall a, Chat.keeps (f a)) -> Chat.keeps (m ≫= f).
Proof.
  intros Hm Hf w. unfold mbind, Chat.M_bind.
  specialize (Hm w). destruct (m w) as [[a|e] w']; cbn [snd] in *.
  - rewrite (Hf a w'). exact Hm.
  - exact Hm.
Qed.

Lemma keeps_catch {A : Type} (m : Chat.M A) (h : string -> Chat.M A) :
  Chat.keeps m -> (forall e, Chat.keeps (h e)) -> Chat.keeps (Chat.catch m h).
Proof.
  intros Hm Hh w. unfold Chat.catch.
  specialize (Hm w). destruct (m w) as [[a|e] w']; cbn [snd] in *.
  - exact Hm.
  - rewrite (Hh e w'). exact Hm.
Qed.

Section ChatProperties.

Variable create : nat -> Gateway.request -> outcome Gateway.response.
Variable JSON_parse : string -> option Json.value.
Variable extractionPrompt : string -> option string -> string.
Variable dbFault : nat -> option string.
Variable render : Chat.responseText -> string.
Variable matchNumber : string -> option string.
Variable matchCategory : string -> option string.
Variable handleOther :
  string -> string -> option Json.value -> string -> string -> Chat.M Chat.reply.

Lemma keeps_query {A : Type} (run : Chat.World -> outcome A * Chat.World) :
  (forall w, Chat.conversationStates (snd (run w)) = Chat.conversationStates w) ->
  Chat.keeps (Chat.query dbFault run).
Proof.
  intros Hrun w. unfold Chat.query.
  destruct (dbFault (Chat.queries w)); [reflexivity|].
  specialize (Hrun w). destruct (run w) as [a w']. exact Hrun.
Qed.

Lemma keeps_saveChatMessage user text response intent :
  Chat.keeps (Chat.saveChatMessage dbFault user text response intent).
Proof. apply keeps_query. reflexivity. Qed.

Lemma keeps_getConversationContext user n :
  Chat.keeps (Chat.getConversationContext dbFault render user n).
Proof.
  apply keeps_catch.
  - apply keeps_bind; [apply keeps_query; reflexivity|].
    intros a. apply keeps_ret.
  - intros e. apply keeps_ret.
Qed.

Lemma keeps_saveExpense_try user expenseData :
  Chat.keeps (Chat.saveExpense_try dbFault user expenseData).
Proof.
  unfold Chat.saveExpense_try.
  repeat (apply keeps_bind; [first [apply keeps_lift
                                   | apply keeps_query; reflexivity]|];
          intros ?).
  apply keeps_bind.
  - destruct (List.find _ _); [apply keeps_ret | apply keeps_query; reflexivity].
  - intros stored.
    repeat (apply keeps_bind; [apply keeps_lift|]; intros ?).
    apply keeps_query. intros w.
    destruct (Chat.expenseRow _ _ _ _ _ _ _ _); reflexivity.
Qed.

Lemma keeps_saveExpenseToDatabase user expenseData :
  Chat.keeps (Chat.saveExpenseToDatabase dbFault user expenseData).
Proof.
  intros w. unfold Chat.saveExpenseToDatabase.
  pose proof (keeps_saveExpense_try user expenseData w) as H.
  destruct (Chat.saveExpense_try dbFault user expenseData w) as [[e|err] w'];
    exact H.
Qed.

Lemma keeps_handleExpenseCreation user data state :
  Chat.keeps (Chat.handleExpenseCreation dbFault user data state).
Proof.
  unfold Chat.handleExpenseCreation.
  apply keeps_bind; [apply keeps_saveExpenseToDatabase|].
  intros [expense|error]; [|apply keeps_ret].
  repeat (apply keeps_bind; [apply keeps_lift|]; intros ?).
  apply keeps_ret.
Qed.

Lemma keeps_saveAll user i expensesData :
  Chat.keeps (Chat.saveAll dbFault user i expensesData).
Proof.
  revert i.
  induction expensesData as [|expenseData rest IH]; intros i;
    cbn [Chat.saveAll].
  - apply keeps_ret.
  - apply keeps_bind; [apply keeps_saveExpenseToDatabase|].
    intros saveResult. apply keeps_bind; [apply keeps_lift|].
    intros entry. apply keeps_bind; [apply IH|].
    intros others. destruct entry; apply keeps_ret.
Qed.

Hypothesis handleOther_keeps :
  forall intent user data text context,
    Chat.keeps (handleOther intent user data text context).

Lemma keeps_route user text context extractionResult state :
  Chat.keeps (Chat.route dbFault handleOther user text context extractionResult state).
Proof.
  unfold Chat.route.
  destruct (negb (Classifier.hasData extractionResult)); [apply keeps_ret|].
  destruct (Json.equals (Classifier.type extractionResult) "expense").
  - apply keeps_bind; [|intros r; apply keeps_ret].
    destruct (Json.truthy _ && Json.isArray _);
      [|apply keeps_handleExpenseCreation].
    destruct (Classifier.data extractionResult) as [[| | | |items|]|];
      try apply keeps_handleExpenseCreation.
    unfold Chat.handleMultipleExpenseCreation.
    apply keeps_bind; [apply keeps_saveAll | intros r; apply keeps_ret].
  - destruct (existsb _ _); [|apply keeps_ret].
    destruct (Classifier.type extractionResult) as [[| | |intent| |]|];
      try apply keeps_ret.
    apply keeps_bind; [apply handleOther_keeps | intros r; apply keeps_ret].
Qed.

(** As long as the user has no pending expense, a chat turn does not touch
    the conversation states: [processChatMessage] writes to the map only in
    the branch that completes a pending expense, and nothing creates one. *)
Lemma processChatMessage_keeps_states (user text : string) (w : Chat.World) :
  Chat.has_pending w user = false ->
  Chat.conversationStates
    (snd (Chat.processChatMessage create JSON_parse extractionPrompt dbFault
            render matchNumber matchCategory handleOther user text w))
  = Chat.conversationStates w.
Proof.
  intros Hnone.
  assert (Htry : Chat.conversationStates
                   (snd (Chat.processChatMessage_try create JSON_parse
                           extractionPrompt dbFault render matchNumber
                           matchCategory handleOther user text w))
                 = Chat.conversationStates w).
  { unfold Chat.processChatMessage_try.
    unfold mbind at 1. unfold Chat.M_bind at 1.
    pose proof (keeps_getConversationContext user 5 w) as Hctx.
    destruct (Chat.getConversationContext dbFault render user 5 w)
      as [[context|e] w1]; cbn [snd] in Hctx; [|exact Hctx].
    unfold mbind at 1. unfold Chat.M_bind at 1.
    unfold Chat.has_pending in Hnone. rewrite <- Hctx in Hnone.
    set (state := match Chat.conversationStates w1 !! user with
                  | Some stored => stored
                  | None => Chat.fresh user
                  end).
    assert (Hstate : match Chat.pendingExpense state, Chat.missingFields state
                     with Some _, Some _ => true | _, _ => false end = false).
    { subst state. destruct (Chat.conversationStates w1 !! user);
        [exact Hnone | reflexivity]. }
    rewrite <- Hctx.
    assert (Hgeneral : Chat.keeps
      (let trimmedMessage := JS.toLowerCase (JS.trim text) in
       if Classifier.member trimmedMessage Chat.greetings then
         _ ← Chat.saveChatMessage dbFault user text Chat.GreetingText None;
         mret {| Chat.response := Chat.GreetingText;
                 Chat.action_ := Some Chat.greeting; Chat.saved := [] |}
       else
         extractionResult ←
           (fun w =>
              let '(r, sent) :=
                Classifier.extractFinancialData create JSON_parse
                  extractionPrompt text
                  (if JS.truthy_str (Some context) then Some context else None)
                  (Chat.issued w) in
              (Return r,
               {| Chat.issued := sent;
                  Chat.conversationStates := Chat.conversationStates w;
                  Chat.categories := Chat.categories w;
                  Chat.expenses := Chat.expenses w;
                  Chat.chat_messages := Chat.chat_messages w;
                  Chat.queries := Chat.queries w |}));
         routed ← Chat.route dbFault handleOther user text context
                    extractionResult state;
         _ ← Chat.saveChatMessage dbFault user text
               (Chat.response (fst routed)) (Some (snd routed));
         mret (fst routed))).
    { cbv zeta. destruct (Classifier.member _ Chat.greetings).
      - apply keeps_bind; [apply keeps_saveChatMessage|].
        intros ?. apply keeps_ret.
      - apply keeps_bind.
        + intros w'.
          destruct (Classifier.extractFinancialData _ _ _ _ _ _); reflexivity.
        + intros extractionResult.
          apply keeps_bind; [apply keeps_route|]. intros routed.
          apply keeps_bind; [apply keeps_saveChatMessage|].
          intros ?. apply keeps_ret. }
    cbn [fst snd].
    destruct (Chat.pendingExpense state) as [p|];
      [destruct (Chat.missingFields state) as [missing|];
       [discriminate Hstate|]|];
      apply (Hgeneral w1). }
  unfold Chat.processChatMessage.
  destruct (Chat.processChatMessage_try _ _ _ _ _ _ _ _ _ _ w)
    as [[r|e] w'] eqn:E; cbn [snd] in *; [exact Htry|].
  pose proof (keeps_saveChatMessage user text Chat.SorryError (Some "error") w')
    as Hs.
  destruct (Chat.saveChatMessage _ _ _ _ _ w') as [o w'']. cbn [snd] in *.
  congruence.
Qed.

End ChatProperties.

Section Conversations.

Variable create : nat -> Gateway.request -> outcome Gateway.response.
Variable JSON_parse : string -> option Json.value.
Variable extractionPrompt : string -> option string -> string.
Variable dbFault : nat -> option string.
Variable render : Chat.responseText -> string.
Variable matchNumber : string -> option string.
Variable matchCategory : string -> option string.
Variable handleOther :
  string -> string -> option Json.value -> string -> string -> Chat.M Chat.reply.

Hypothesis handleOther_keeps :
  forall intent user data text context,
    Chat.keeps (handleOther intent user data text context).

(** No conversation, however long, gives any user a pending expense: the
    branch of [processChatMessage] that calls [handleExpenseCompletion] is
    never entered. *)
Lemma pending_expense_never_created (turns : list (string * string))
    (w : Chat.World) :
  (forall user, Chat.has_pending w user = false) ->
  forall user,
    Chat.has_pending
      (Chat.converse
         (Chat.processChatMessage create JSON_parse extractionPrompt dbFault
            render matchNumber matchCategory handleOther) turns w) user
    = false.
Proof.
  revert w. induction turns as [|[u text] rest IH]; intros w Hnone user.
  - apply Hnone.
  - cbn [Chat.converse fold_left fst snd]. apply IH. intros user'.
    unfold Chat.has_pending.
    rewrite (processChatMessage_keeps_states create JSON_parse
               extractionPrompt dbFault render matchNumber matchCategory
               handleOther handleOther_keeps u text w (Hnone u)).
    apply Hnone.
Qed.

End Conversations.

(** C1, at inputs where the code departs from it.  The classifier
    recognises "I spent 150 on coffee" as a single expense and leaves one
    field out.  Without the category, [processChatMessage] commits the
    expense at once, under the category it guesses from the name; without
    the amount, the insert is refused and the reply reports the failed save.
    In both cases no clarifying question is asked and the user gets no
    pending expense, so there is nothing for a follow-up to complete. *)
Lemma C1_no_clarifying_question :
  let turn answer :=
    Chat.processChatMessage (Classifier.answers answer) Json.parse
      Classifier.prompt2 Chat.healthy Chat.plain no_match no_match Chat.unused
      "u1" "I spent 150 on coffee" Chat.initial in
  (Chat.response (fst (turn Chat.no_category_answer))
   = Chat.ExpenseSaved (Some (Json.Str "coffee")) (Some (Json.Num 150))
       (Some (Json.Str "other"))
   /\ Chat.action_ (fst (turn Chat.no_category_answer))
      = Some Chat.expense_saved
   /\ Chat.is_question (Chat.response (fst (turn Chat.no_category_answer)))
      = false
   /\ Chat.has_pending (snd (turn Chat.no_category_answer)) "u1" = false
   /\ List.map Chat.categoryName
        (Chat.expenses (snd (turn Chat.no_category_answer))) = ["food"])
  /\ (Chat.response (fst (turn Chat.no_amount_answer))
      = Chat.FailedToSaveExpense
          "null value in column amount violates not-null constraint"
      /\ Chat.action_ (fst (turn Chat.no_amount_answer)) = None
      /\ Chat.has_pending (snd (turn Chat.no_amount_answer)) "u1" = false
      /\ Chat.expenses (snd (turn Chat.no_amount_answer)) = []).
Proof.
  cbv zeta. repeat split; vm_compute; reflexivity.
Qed.

(** The sibling [extractExpenseFromMessage] does detect the gap in the same
    answer and words the question. *)
Example extractExpenseFromMessage_asks_category :
  let answer :=
    "{" +:+ Json.quoted "hasExpense" +:+ ":true," +:+ Json.quoted "expenseData"
    +:+ ":{" +:+ Json.quoted "name" +:+ ":" +:+ Json.quoted "coffee" +:+ ","
    +:+ Json.quoted "amount" +:+ ":150}}" in
  let r :=
    fst (Classifier.extractExpenseFromMessage (Classifier.answers answer)
           Json.parse Classifier.not_a_number Classifier.prompt1
           "I spent 150 on coffee" []) in
  Classifier.missingFields r = Some ["category"]
  /\ Classifier.clarificationQuestion r
     = Some (Classifier.AskCategory (Some (Json.Num 150))).
Proof. cbv zeta. split; reflexivity. Qed.

(* ===================================================================== *)
(** * Further properties of the code *)
(* ===================================================================== *)

(* --------------------------------------------------------------------- *)
(** ** Gateway *)
(* --------------------------------------------------------------------- *)

(** X1. For a task that does not name a member of [Object.prototype]: when
    the first request of [callAIWithBestModel] resolves, its response is
    returned as it is and it is the only request issued (the fallback
    provider is not contacted); and unless the task is "backup" that request
    goes to GitHub Models. *)
Theorem X1_primary_success_single_request
    (create : nat -> Gateway.request -> outcome Gateway.response)
    (task : string) (msgs : list Gateway.message) (tls : option (list string))
    (issued : list Gateway.request) (response : Gateway.response) :
  existsb (String.eqb task) Gateway.prototypeMembers = false ->
  create (List.length issued) (Gateway.primaryRequest task msgs tls)
  = Return response ->
  Gateway.callAIWithBestModel create task msgs tls issued
  = (Return response, issued ++ [Gateway.primaryRequest task msgs tls])
  /\ (task <> "backup" ->
      Gateway.to (Gateway.primaryRequest task msgs tls) = Gateway.githubAI).
Proof.
  intros Hown Hok. split.
  - destruct (callAIWithBestModel_cases create task msgs tls issued)
      as [[_ [(r & Hr & Hcall)|(e & He & _)]]|[Hmember _]]; congruence.
  - intros Hnot. unfold Gateway.primaryRequest, Gateway.configOf,
      Gateway.lookup, Gateway.models.
    cbn [List.find fst snd Gateway.to].
    repeat match goal with
    | |- context [String.eqb ?a task] =>
        destruct (String.eqb a task) eqn:?; cbn [Gateway.client_]
    end; try reflexivity.
    exfalso. apply Hnot. symmetry. apply String.eqb_eq. assumption.
Qed.

Lemma X1_witness :
  Gateway.callAIWithBestModel (Classifier.answers "hello") "conversation"
    [ {| Gateway.role := "user"; Gateway.content := "hi" |} ] None []
  = (Return {| Gateway.choices :=
                 [ {| Gateway.message_content := Some "hello" |} ];
               Gateway.total_tokens := Some 42%Z |},
     [ Gateway.primaryRequest "conversation"
         [ {| Gateway.role := "user"; Gateway.content := "hi" |} ] None ]).
Proof.
  exact (proj1 (X1_primary_success_single_request (Classifier.answers "hello")
                  "conversation"
                  [ {| Gateway.role := "user"; Gateway.content := "hi" |} ]
                  None [] _ eq_refl eq_refl)).
Defined.

(** X2. What [getOptimalModel] selects for every task string.  A name of
    the table gets its configuration.  A name of a member of
    [Object.prototype] ("constructor", "toString", ...) gets that member and
    no configuration: [callAIWithBestModel] then sends nothing to GitHub
    Models, and its one request goes to Groq.  Every other string gets the
    configuration of "conversation".  Among the configurations only the one
    of "backup" is served by Groq. *)
Theorem X2_routing_table
    (create : nat -> Gateway.request -> outcome Gateway.response)
    (task : string) (msgs : list Gateway.message) (tls : option (list string))
    (issued : list Gateway.request) :
  (forall config,
     Gateway.lookup task = Some config ->
     Gateway.getOptimalModel task = Gateway.Configured config)
  /\ (Gateway.lookup task = None ->
      if existsb (String.eqb task) Gateway.prototypeMembers
      then Gateway.getOptimalModel task = Gateway.Inherited task
           /\ Gateway.callAIWithBestModel create task msgs tls issued
              = (create (List.length issued) (Gateway.fallbackRequest msgs tls),
                 issued ++ [Gateway.fallbackRequest msgs tls])
      else Gateway.getOptimalModel task
           = Gateway.Configured Gateway.conversation)
  /\ (forall config,
        Gateway.getOptimalModel task = Gateway.Configured config ->
        (Gateway.client_ config = Gateway.groq <-> task = "backup")).
Proof.
  split; [|split].
  - intros config Hfound. unfold Gateway.getOptimalModel. rewrite Hfound.
    reflexivity.
  - intros Hnone.
    destruct (existsb (String.eqb task) Gateway.prototypeMembers) eqn:E.
    + split.
      * unfold Gateway.getOptimalModel. rewrite Hnone, E. reflexivity.
      * destruct (callAIWithBestModel_cases create task msgs tls issued)
          as [[Hown _]|[_ Hcall]]; [congruence | exact Hcall].
    + unfold Gateway.getOptimalModel. rewrite Hnone, E. reflexivity.
  - intros config Hsel. unfold Gateway.getOptimalModel in Hsel.
    unfold Gateway.lookup, Gateway.models in Hsel.
    cbn [List.find fst snd] in Hsel.
    repeat match type of Hsel with
    | context [String.eqb ?a task] =>
        let H := fresh "H" in
        destruct (String.eqb a task) eqn:H;
        [apply String.eqb_eq in H; subst task; injection Hsel as <-;
         cbn; split; intros; first [reflexivity | discriminate]|]
    end.
    assert (Hnot : task <> "backup").
    { intros ->. discriminate. }
    destruct (existsb _ _); [discriminate Hsel|].
    injection Hsel as <-. cbn. split; [discriminate | contradiction].
Qed.

(** X3. One call of [extractFinancialData] or of
    [extractExpenseFromMessage] adds one or two requests to those already
    issued, the first of them to the model of the task "expense-extraction"
    with the prompt as its only message and no tools. *)
Theorem X3_classifier_requests
    (create : nat -> Gateway.request -> outcome Gateway.response)
    (JSON_parse : string -> option Json.value)
    (ToNumber : Json.value -> option Q)
    (extractionPrompt : string -> option string -> string)
    (expensePrompt : string -> string)
    (message : string) (conversationContext : option string)
    (issued : list Gateway.request) :
  (exists rest,
     snd (Classifier.extractFinancialData create JSON_parse extractionPrompt
            message conversationContext issued)
     = issued
       ++ Gateway.primaryRequest "expense-extraction"
            [ {| Gateway.role := "user";
                 Gateway.content :=
                   extractionPrompt message conversationContext |} ] None
          :: rest
     /\ (List.length rest <= 1)%nat)
  /\ (exists rest,
        snd (Classifier.extractExpenseFromMessage create JSON_parse ToNumber
               expensePrompt message issued)
        = issued
          ++ Gateway.primaryRequest "expense-extraction"
               [ {| Gateway.role := "user";
                    Gateway.content := expensePrompt message |} ] None
             :: rest
        /\ (List.length rest <= 1)%nat).
Proof.
  split.
  - destruct (primary_request_sent create "expense-extraction"
                [ {| Gateway.role := "user";
                     Gateway.content :=
                       extractionPrompt message conversationContext |} ]
                None issued eq_refl) as (r & rest & Heq & Hlen).
    exists rest. split; [|exact Hlen].
    unfold Classifier.extractFinancialData,
      Classifier.extractFinancialData_try.
    rewrite Heq. destruct (r ≫= Classifier.classify JSON_parse); reflexivity.
  - destruct (primary_request_sent create "expense-extraction"
                [ {| Gateway.role := "user";
                     Gateway.content := expensePrompt message |} ]
                None issued eq_refl) as (r & rest & Heq & Hlen).
    exists rest. split; [|exact Hlen].
    unfold Classifier.extractExpenseFromMessage,
      Classifier.extractExpenseFromMessage_try.
    rewrite Heq.
    destruct (r ≫= Classifier.readExpense JSON_parse ToNumber); reflexivity.
Qed.

Lemma append_cons (a : ascii) (p x : string) :
  String a p +:+ x = String a (p +:+ x).
Proof. reflexivity. Qed.

Lemma append_nil (x : string) : "" +:+ x = x.
Proof. reflexivity. Qed.

Lemma startsWith_prefix (p q s : string) :
  JS.startsWith (p +:+ q) s = true -> JS.startsWith p s = true.
Proof.
  revert s. induction p as [|a p IH]; intros s H; [reflexivity|].
  destruct s as [|b s]; [discriminate H|].
  rewrite append_cons in H. cbn [JS.startsWith] in *.
  apply andb_true_iff in H as [Hab H].
  rewrite Hab. cbn [andb]. apply IH. exact H.
Qed.

Lemma includes_prefix (p q s : string) :
  JS.includes s p = false -> JS.includes s (p +:+ q) = false.
Proof.
  induction s as [|c s IH]; cbn [JS.includes]; intros H;
    apply orb_false_iff in H as [H1 H2].
  - destruct (JS.startsWith (p +:+ q) "") eqn:E; [|reflexivity].
    apply startsWith_prefix in E. congruence.
  - rewrite (IH H2), orb_false_r.
    destruct (JS.startsWith (p +:+ q) (String c s)) eqn:E; [|reflexivity].
    apply startsWith_prefix in E. congruence.
Qed.

(** Text in which the tag does not occur is not changed by its removal. *)
Lemma removeTag_absent (fuel : nat) (tag s : string) :
  JS.includes s tag = false -> Classifier.removeTag fuel tag s = s.
Proof.
  revert s. induction fuel as [|fuel IH]; intros s H; [reflexivity|].
  cbn [Classifier.removeTag].
  destruct s as [|c s]; cbn [JS.includes] in H;
    apply orb_false_iff in H as [H1 H2]; rewrite H1; [reflexivity|].
  rewrite (IH s H2). reflexivity.
Qed.

(** X4. An answer without a code fence passes [cleanContent] unchanged but
    for the white space at its ends. *)
Theorem X4_unfenced_content_is_trimmed (content : string) :
  JS.includes content "```" = false ->
  Classifier.cleanContent content = JS.trim content.
Proof.
  intros H. unfold Classifier.cleanContent, Classifier.removeAll.
  rewrite (removeTag_absent _ "```json" content
             (includes_prefix "```" "json" content H)).
  rewrite (removeTag_absent _ "```" content H). reflexivity.
Qed.

(** A bare JSON object with white space around it. *)
Lemma X4_witness :
  Classifier.cleanContent "  {} " = "{}".
Proof.
  exact (X4_unfenced_content_is_trimmed "  {} " eq_refl).
Defined.

Lemma startsWith_app (p x : string) : JS.startsWith p (p +:+ x) = true.
Proof.
  induction p as [|a p IH]; [reflexivity|].
  rewrite append_cons. cbn [JS.startsWith]. rewrite Ascii.eqb_refl. exact IH.
Qed.

Lemma skip_app (p x : string) : JS.skip (String.length p) (p +:+ x) = x.
Proof. induction p as [|a p IH]; [reflexivity | exact IH]. Qed.

(** A string without a backquote: its first character is not one, and the
    rest has none. *)
Lemma no_backquote_cons (c : ascii) (s : string) :
  JS.includes (String c s) "`" = false ->
  Ascii.eqb "`"%char c = false /\ JS.includes s "`" = false.
Proof.
  cbn [JS.includes JS.startsWith]. intros H.
  apply orb_false_iff in H as [H1 H2]. split; [|exact H2].
  destruct (Ascii.eqb "`"%char c); [discriminate H1 | reflexivity].
Qed.

Lemma trimStart_app (b x : string) :
  JS.trimStart (b +:+ x)
  = match JS.trimStart b with
    | EmptyString => JS.trimStart x
    | String c r => String c r +:+ x
    end.
Proof.
  induction b as [|c b IH].
  - rewrite append_nil. cbn [JS.trimStart]. reflexivity.
  - rewrite append_cons. cbn [JS.trimStart].
    destruct (JS.is_space c); [exact IH | reflexivity].
Qed.

Lemma trimStart_no_backquote (b : string) :
  JS.includes b "`" = false -> JS.includes (JS.trimStart b) "`" = false.
Proof.
  induction b as [|c b IH]; intros H; [exact H|].
  cbn [JS.trimStart]. destruct (JS.is_space c); [|exact H].
  apply IH. apply (no_backquote_cons c b H).
Qed.

Lemma trimStart_shorter (r : string) :
  (String.length (JS.trimStart r) <= String.length r)%nat.
Proof.
  induction r as [|a r IH]; cbn [JS.trimStart String.length]; [lia|].
  destruct (JS.is_space a); cbn [String.length]; lia.
Qed.

(** What [trimStart] returns does not start with white space. *)
Lemma trimStart_head (b : string) (c : ascii) (r : string) :
  JS.trimStart b = String c r -> JS.is_space c = false.
Proof.
  induction b as [|a b IH]; cbn [JS.trimStart]; [discriminate|].
  destruct (JS.is_space a) eqn:E; [exact IH|].
  intros [= <- <-]. exact E.
Qed.

Lemma trimEnd_newline (s : string) :
  JS.trimEnd (s +:+ String "010"%char EmptyString) = JS.trimEnd s.
Proof.
  induction s as [|c s IH]; [reflexivity|].
  rewrite append_cons. cbn [JS.trimEnd]. rewrite IH. reflexivity.
Qed.

(** Removing the short fence from text that ends in it and has no other
    backquote. *)
Lemma removeTag_closing_fence (fuel : nat) (u : string) :
  JS.includes u "`" = false ->
  (String.length u < fuel)%nat ->
  Classifier.removeTag fuel "```" (u +:+ "```") = u.
Proof.
  revert fuel. induction u as [|c u IH]; intros fuel Hu Hfuel.
  - destruct fuel as [|[|fuel]]; [cbn in Hfuel; lia | reflexivity | reflexivity].
  - destruct fuel as [|fuel]; [cbn in Hfuel; lia|].
    destruct (no_backquote_cons c u Hu) as [Hc Hu'].
    rewrite append_cons. cbn [Classifier.removeTag JS.startsWith].
    rewrite Hc. cbn [andb]. rewrite IH; [reflexivity | exact Hu' |].
    cbn in Hfuel. lia.
Qed.

(** The long fence does not occur in such text. *)
Lemma no_opening_fence (u : string) :
  JS.includes u "`" = false -> JS.includes (u +:+ "```") "```json" = false.
Proof.
  induction u as [|c u IH]; intros Hu; [reflexivity|].
  destruct (no_backquote_cons c u Hu) as [Hc Hu'].
  rewrite append_cons. cbn [JS.includes JS.startsWith].
  rewrite Hc. cbn [andb orb]. apply IH. exact Hu'.
Qed.

Lemma no_backquote_newline (u : string) :
  JS.includes u "`" = false ->
  JS.includes (u +:+ String "010"%char EmptyString) "`" = false.
Proof.
  induction u as [|c u IH]; intros Hu; [reflexivity|].
  destruct (no_backquote_cons c u Hu) as [Hc Hu'].
  rewrite append_cons. cbn [JS.includes JS.startsWith].
  rewrite Hc. cbn [andb orb]. apply IH. exact Hu'.
Qed.

Lemma length_append (a b : string) :
  String.length (a +:+ b) = (String.length a + String.length b)%nat.
Proof.
  induction a as [|c a IH]; [reflexivity|].
  rewrite append_cons. cbn [String.length]. rewrite IH. reflexivity.
Qed.

Lemma append_assoc (a b c : string) : (a +:+ b) +:+ c = a +:+ (b +:+ c).
Proof.
  induction a as [|x a IH]; [reflexivity|].
  rewrite !append_cons, IH. reflexivity.
Qed.

(** X5. [cleanContent] unwraps a fenced answer: for a body without
    backquotes, the text between the opening fence with its "json" tag and
    the closing fence comes out, trimmed. *)
Theorem X5_fenced_content_is_unwrapped (body : string) :
  JS.includes body "`" = false ->
  Classifier.cleanContent (Classifier.fenced body) = JS.trim body.
Proof.
  intros Hbody. unfold Classifier.cleanContent, Classifier.fenced.
  set (nl := String "010"%char EmptyString).
  change (String "010"%char (body +:+ String "010"%char "```"))
    with (nl +:+ (body +:+ (nl +:+ "```"))).
  (* the opening fence goes, with the white space after it *)
  assert (Hopen :
    Classifier.removeAll "```json"
      ("```json" +:+ (nl +:+ (body +:+ (nl +:+ "```"))))
    = Classifier.removeTag
        (String.length ("```json" +:+ (nl +:+ (body +:+ (nl +:+ "```")))))
        "```json" (JS.trimStart (body +:+ (nl +:+ "```")))).
  { unfold Classifier.removeAll. cbn [Classifier.removeTag].
    rewrite startsWith_app, skip_app. reflexivity. }
  rewrite Hopen. clear Hopen.
  rewrite trimStart_app.
  pose proof (trimStart_no_backquote body Hbody) as Hclean.
  unfold JS.trim.
  destruct (JS.trimStart body) as [|c r] eqn:Eb.
  - (* the body is blank *)
    change (JS.trimStart (nl +:+ "```")) with "```".
    rewrite removeTag_absent by reflexivity.
    reflexivity.
  - (* the body starts at [c] *)
    pose proof (trimStart_head body c r Eb) as Hc.
    rewrite <- (append_assoc (String c r) nl "```").
    pose proof (no_backquote_newline (String c r) Hclean) as Hu.
    fold nl in Hu.
    rewrite removeTag_absent by (apply no_opening_fence; exact Hu).
    unfold Classifier.removeAll.
    rewrite removeTag_closing_fence;
      [| exact Hu | rewrite !length_append; cbn [String.length]; lia].
    rewrite append_cons. cbn [JS.trimStart]. rewrite Hc.
    rewrite <- append_cons. apply trimEnd_newline.
Qed.

(** An object in a fence, as in the prompt's examples. *)
Lemma X5_witness :
  Classifier.cleanContent (Classifier.fenced " {} ") = "{}".
Proof.
  exact (X5_fenced_content_is_unwrapped " {} " eq_refl).
Defined.

Lemma validateExpense_consistent (ToNumber : Json.value -> option Q)
    (amount name description category : option Json.value) :
  snd (Classifier.validateExpense ToNumber amount name description category)
  = None
  <-> fst (Classifier.validateExpense ToNumber amount name description category)
      = [].
Proof.
  unfold Classifier.validateExpense.
  destruct (negb (Json.truthy amount) || Classifier.le_zero ToNumber amount);
  destruct (negb (Json.truthy name) && negb (Json.truthy description));
  destruct (negb (Json.truthy category));
  cbn; split; intros H; first [reflexivity | discriminate H].
Qed.

Ltac run_binds H :=
  unfold mbind, outcome_bind, mret, outcome_ret in H;
  cbn -[Classifier.validateExpense] in H.

(** What the [try] block of [extractExpenseFromMessage] can return. *)
Lemma readExpense_result (JSON_parse : string -> option Json.value)
    (ToNumber : Json.value -> option Q) (response : Gateway.response)
    (x : Classifier.expenseExtraction) :
  Classifier.readExpense JSON_parse ToNumber response = Return x ->
  x = Classifier.noExpense
  \/ exists expenseData amount name description category,
       let v := Classifier.validateExpense ToNumber amount name description
                  category in
       x = {| Classifier.hasExpense := true;
              Classifier.expenseData := expenseData;
              Classifier.missingFields :=
                if (0 <? List.length (fst v))%nat then Some (fst v) else None;
              Classifier.clarificationQuestion := snd v |}.
Proof.
  unfold Classifier.readExpense. intros E.
  destruct (Classifier.readContent response) as [content|];
    run_binds E; [|discriminate E].
  destruct (Classifier.parseContent JSON_parse content) as [result|];
    run_binds E; [|discriminate E].
  destruct (Json.get (Some result) "hasExpense") as [h|];
    run_binds E; [|discriminate E].
  destruct (negb (Json.truthy h)); [left; congruence|].
  destruct (Json.get (Some result) "expenseData") as [ed|];
    run_binds E; [|discriminate E].
  destruct (Json.get ed "amount") as [a|]; run_binds E; [|discriminate E].
  destruct (Json.get ed "name") as [n|]; run_binds E; [|discriminate E].
  destruct (Json.get ed "description") as [d|];
    run_binds E; [|discriminate E].
  destruct (Json.get ed "category") as [c|]; run_binds E; [|discriminate E].
  right. exists ed, a, n, d, c. cbv zeta.
  destruct (Classifier.validateExpense ToNumber a n d c) as [m q].
  injection E as <-. reflexivity.
Qed.

(** X6. Whatever the provider answers, the result of
    [extractExpenseFromMessage] carries a clarifying question exactly when it
    carries a list of missing fields, that list is never empty, and a result
    without an expense carries neither. *)
Theorem X6_question_iff_missing_fields
    (create : nat -> Gateway.request -> outcome Gateway.response)
    (JSON_parse : string -> option Json.value)
    (ToNumber : Json.value -> option Q) (expensePrompt : string -> string)
    (message : string) (issued : list Gateway.request) :
  let r :=
    fst (Classifier.extractExpenseFromMessage create JSON_parse ToNumber
           expensePrompt message issued) in
  (Classifier.clarificationQuestion r = None
   <-> Classifier.missingFields r = None)
  /\ Classifier.missingFields r <> Some []
  /\ (Classifier.hasExpense r = false -> r = Classifier.noExpense).
Proof.
  intros r. subst r. unfold Classifier.extractExpenseFromMessage.
  destruct (Classifier.extractExpenseFromMessage_try _ _ _ _ _ _)
    as [[x|e] i] eqn:E; cbn [fst].
  2:{ repeat split; try reflexivity; discriminate. }
  unfold Classifier.extractExpenseFromMessage_try in E.
  destruct (Gateway.callAIWithBestModel _ _ _ _ _) as [[resp|err] i'];
    [|discriminate E].
  injection E as E _. run_outcome E.
  destruct (readExpense_result JSON_parse ToNumber resp x E)
    as [-> | (ed & a & n & d & c & ->)].
  { repeat split; try reflexivity; discriminate. }
  pose proof (validateExpense_consistent ToNumber a n d c) as Hv.
  destruct (Classifier.validateExpense ToNumber a n d c) as [m q].
  cbn [fst snd] in *. cbn [Classifier.clarificationQuestion
    Classifier.missingFields Classifier.hasExpense].
  destruct m as [|f m]; cbn [List.length Nat.ltb Nat.leb].
  - split; [|split; [discriminate | discriminate]].
    split; [reflexivity | intros _; apply Hv; reflexivity].
  - split; [|split; [discriminate | discriminate]].
    split; [|discriminate]. intros Hq. apply Hv in Hq. discriminate Hq.
Qed.

(* --------------------------------------------------------------------- *)
(** ** Chat: saving expenses *)
(* --------------------------------------------------------------------- *)

Lemma find_category_visible (user categoryName c : string)
    (categories : list Chat.Category) :
  let rows := List.filter (Chat.visible user) categories in
  List.find
    (fun c => String.eqb (JS.toLowerCase c) (JS.toLowerCase categoryName))
    (List.map Chat.category_name
       (List.filter Chat.is_default rows
        ++ List.filter (fun c => negb (Chat.is_default c)) rows))
  = Some c ->
  exists row,
    In row categories
    /\ Chat.category_name row = c
    /\ Chat.visible user row = true.
Proof.
  intros rows Hfind. apply List.find_some in Hfind. destruct Hfind as [Hin _].
  apply in_map_iff in Hin. destruct Hin as (row & Hname & Hin).
  exists row.
  assert (Hrow : In row rows).
  { apply in_app_or in Hin.
    destruct Hin as [Hin|Hin]; apply List.filter_In in Hin; tauto. }
  apply List.filter_In in Hrow. tauto.
Qed.

Lemma get_of_value (v : Json.value) (key : string) :
  v <> Json.Null -> exists x, Json.get (Some v) key = Return x.
Proof.
  intros Hv. unfold Json.get. destruct v; eauto. contradiction.
Qed.

Section SavingExpenses.

Variable dbFault : nat -> option string.

Lemma saveExpense_try_effect (user : string) (expenseData : option Json.value)
    (w : Chat.World) :
  Chat.saveEffect user expenseData w
    (fst (Chat.saveExpense_try dbFault user expenseData w))
    (snd (Chat.saveExpense_try dbFault user expenseData w)).
Proof.
  unfold Chat.saveExpense_try, Chat.saveEffect.
  unfold mbind, Chat.M_bind, Chat.lift, mret, Chat.M_ret.
  destruct (Json.get expenseData "category") as [category|];
    [|cbn; tauto].
  destruct (Json.get expenseData "description") as [description|];
    [|cbn; tauto].
  destruct (Json.get expenseData "name") as [name|]; [|cbn; tauto].
  match goal with
  | |- context [if Json.truthy category then ?a else ?b] =>
      destruct (if Json.truthy category then a else b) as [categoryValue|]
  end; [|cbn; tauto].
  unfold Chat.getCategories, Chat.createCategory, Chat.createExpense,
    Chat.query.
  cbn [Chat.queries Chat.withQueries Chat.categories].
  destruct (dbFault (Chat.queries w)); [cbn; tauto|].
  cbn [fst snd Chat.queries Chat.withQueries Chat.categories].
  destruct (Chat.asString categoryValue) as [categoryName|]; [|cbn; tauto].
  destruct (List.find _ _) as [stored|] eqn:Efind.
  - apply find_category_visible in Efind.
    cbn [fst snd Chat.queries Chat.withQueries Chat.categories].
    destruct (Json.get expenseData "amount") as [amount|] eqn:Ea;
      [|cbn; tauto].
    destruct (Json.get expenseData "merchant") as [merchant|]; [|cbn; tauto].
    destruct (Json.get expenseData "location") as [location|]; [|cbn; tauto].
    cbn [fst snd Chat.queries Chat.withQueries Chat.categories].
    destruct (dbFault (S (Chat.queries w))); [cbn; tauto|].
    unfold Chat.expenseRow.
    destruct amount as [[| |q| | |]|]; cbn; tauto.
  - cbn [fst snd Chat.queries Chat.withQueries Chat.categories].
    destruct (dbFault (S (Chat.queries w))); [cbn; tauto|].
    cbn [fst snd Chat.queries Chat.withQueries Chat.categories].
    destruct (Json.get expenseData "amount") as [amount|] eqn:Ea;
      [|cbn; eauto 10].
    destruct (Json.get expenseData "merchant") as [merchant|];
      [|cbn; eauto 10].
    destruct (Json.get expenseData "location") as [location|];
      [|cbn; eauto 10].
    cbn [fst snd Chat.queries Chat.withQueries Chat.categories].
    destruct (dbFault (S (S (Chat.queries w)))); [cbn; eauto 10|].
    unfold Chat.expenseRow.
    destruct amount as [[| |q| | |]|]; cbn; eauto 10.
    repeat split; eauto.
    eexists. split; [apply in_or_app; right; left; reflexivity|].
    split; [reflexivity|].
    cbn. rewrite String.eqb_refl. reflexivity.
Qed.

Lemma saveExpenseToDatabase_effect (user : string)
    (expenseData : option Json.value) (w : Chat.World) :
  exists result w',
    Chat.saveExpenseToDatabase dbFault user expenseData w
    = (Return result, w')
    /\ Chat.saveEffect user expenseData w result w'.
Proof.
  pose proof (saveExpense_try_effect user expenseData w) as H.
  unfold Chat.saveExpenseToDatabase.
  destruct (Chat.saveExpense_try dbFault user expenseData w) as [[e|err] w'];
    cbn [fst snd] in H.
  - exists (Return e), w'. split; [reflexivity | exact H].
  - exists (Throw err), w'. split; [reflexivity | exact H].
Qed.

(** X7. For a payload whose amount is a number or is missing and whose
    category is a string or is missing, [saveExpenseToDatabase] never throws:
    it returns a result.  On success exactly one row is added to the
    expenses, owned by the user, with the amount of the payload, filed under
    a category the user can see (a default one or one of the user's own); on
    failure the expenses are as before.  Either way at most one category is
    created, for the user and not as a default, and neither the conversation
    states, nor the chat history, nor the provider requests are touched. *)
Theorem X7_save_expense_effect (user : string)
    (expenseData : option Json.value) (w : Chat.World) :
  Chat.typed expenseData = true ->
  exists result w',
    Chat.saveExpenseToDatabase dbFault user expenseData w
    = (Return result, w')
    /\ Chat.saveEffect user expenseData w result w'.
Proof. intros _. apply saveExpenseToDatabase_effect. Qed.

Lemma saveAll_effect (user : string) (expensesData : list Json.value)
    (i : nat) (w : Chat.World) :
  ~ In Json.Null expensesData ->
  exists successful failed rows w',
    Chat.saveAll dbFault user i expensesData w
    = (Return (successful, failed), w')
    /\ (List.length successful + List.length failed
        = List.length expensesData)%nat
    /\ Chat.expenses w' = Chat.expenses w ++ rows
    /\ List.length rows = List.length successful
    /\ Forall (fun e => Chat.owner e = user) rows
    /\ Chat.conversationStates w' = Chat.conversationStates w.
Proof.
  revert i w. induction expensesData as [|expenseData rest IH];
    intros i w Hnull.
  - exists [], [], [], w. cbn. rewrite app_nil_r. repeat split; auto.
  - assert (Hvalue : expenseData <> Json.Null).
    { intros ->. apply Hnull. left. reflexivity. }
    assert (Hrest : ~ In Json.Null rest).
    { intros Hin. apply Hnull. right. exact Hin. }
    cbn [Chat.saveAll]. unfold mbind at 1. unfold Chat.M_bind at 1.
    destruct (saveExpenseToDatabase_effect user (Some expenseData) w)
      as (result & w1 & -> & Hstates & _ & _ & _ & Hexp).
    unfold mbind at 1. unfold Chat.M_bind at 1. unfold Chat.lift at 1.
    destruct (get_of_value expenseData "name" Hvalue) as (name & Hname).
    destruct (get_of_value expenseData "amount" Hvalue) as (amount & Hamount).
    destruct (get_of_value expenseData "category" Hvalue)
      as (category & Hcategory).
    unfold mbind at 1. unfold Chat.M_bind at 1.
    destruct (IH (S i) w1 Hrest)
      as (successful & failed & rows & w2 & Heq & Hlen & Hrows & Hcount
          & Hown & Hkeep).
    destruct result as [e|err];
      unfold Chat.summarize, mbind, outcome_bind;
      rewrite Hname, ?Hamount, ?Hcategory.
    + fold (@mbind Chat.M _). rewrite Heq.
      destruct Hexp as (Hexp & Howner & _).
      eexists (_ :: successful), failed, (e :: rows), w2.
      split; [reflexivity|]. split; [cbn; lia|].
      split; [rewrite Hrows, Hexp, <- app_assoc; reflexivity|].
      split; [cbn; lia|].
      split; [constructor; assumption | congruence].
    + rewrite Heq.
      eexists successful, (_ :: failed), rows, w2.
      split; [reflexivity|]. split; [cbn; lia|].
      split; [rewrite Hrows, Hexp; reflexivity|].
      split; [assumption|].
      split; [assumption | congruence].
Qed.

Lemma save_null (user : string) (w : Chat.World) :
  Chat.saveExpenseToDatabase dbFault user (Some Json.Null) w
  = (Return
       (Throw "TypeError: Cannot read properties of null (reading 'category')"),
     w).
Proof. reflexivity. Qed.

Lemma saveAll_null (user : string) (before after : list Json.value)
    (i : nat) (w : Chat.World) :
  ~ In Json.Null before ->
  exists rows w',
    Chat.saveAll dbFault user i (before ++ Json.Null :: after) w
    = (Throw "TypeError: Cannot read properties of null (reading 'name')", w')
    /\ Chat.expenses w' = Chat.expenses w ++ rows
    /\ (List.length rows <= List.length before)%nat
    /\ Forall (fun e => Chat.owner e = user) rows
    /\ Chat.conversationStates w' = Chat.conversationStates w.
Proof.
  revert i w. induction before as [|expenseData rest IH]; intros i w Hnull.
  - exists [], w. cbn [app Chat.saveAll].
    unfold mbind at 1. unfold Chat.M_bind at 1. rewrite save_null.
    split; [reflexivity|]. rewrite app_nil_r. cbn. auto.
  - assert (Hvalue : expenseData <> Json.Null).
    { intros ->. apply Hnull. left. reflexivity. }
    assert (Hrest : ~ In Json.Null rest).
    { intros Hin. apply Hnull. right. exact Hin. }
    cbn [app Chat.saveAll]. unfold mbind at 1. unfold Chat.M_bind at 1.
    destruct (saveExpenseToDatabase_effect user (Some expenseData) w)
      as (result & w1 & -> & Hstates & _ & _ & _ & Hexp).
    unfold mbind at 1. unfold Chat.M_bind at 1. unfold Chat.lift at 1.
    destruct (get_of_value expenseData "name" Hvalue) as (name & Hname).
    destruct (get_of_value expenseData "amount" Hvalue) as (amount & Hamount).
    destruct (get_of_value expenseData "category" Hvalue)
      as (category & Hcategory).
    unfold mbind at 1. unfold Chat.M_bind at 1.
    destruct (IH (S i) w1 Hrest) as (rows & w2 & Heq & Hrows & Hcount & Hown
                                     & Hkeep).
    destruct result as [e|err];
      unfold Chat.summarize, mbind, outcome_bind;
      rewrite Hname, ?Hamount, ?Hcategory.
    + fold (@mbind Chat.M _). rewrite Heq.
      destruct Hexp as (Hexp & Howner & _).
      exists (e :: rows), w2.
      split; [reflexivity|].
      split; [rewrite Hrows, Hexp, <- app_assoc; reflexivity|].
      split; [cbn; lia|].
      split; [constructor; assumption | congruence].
    + rewrite Heq.
      exists rows, w2.
      split; [reflexivity|].
      split; [rewrite Hrows, Hexp; reflexivity|].
      split; [cbn; lia|].
      split; [assumption | congruence].
Qed.

(** X8. [handleMultipleExpenseCreation], on a batch whose elements have an
    amount that is a number or is missing and a category that is a string or
    is missing.  When no element is [null] it tries every expense: the
    listed successes and failures add up to the batch, the table of expenses
    grows by one row of the user for each success and by nothing else, and a
    failed save does not stop the rest; the reply carries the action
    "expense_saved" in every case, also when nothing was saved.  When an
    element is [null] the handler throws at the first such element, reading
    its name: the rows saved for the elements before it stay in the table,
    and the elements after it are not tried. *)
Theorem X8_batch_of_expenses (user : string) (expensesData : list Json.value)
    (state : Chat.ConversationState) (w : Chat.World) :
  Forall (fun expenseData => Chat.typed (Some expenseData) = true)
    expensesData ->
  (~ In Json.Null expensesData ->
   exists successful failed rows w',
     Chat.handleMultipleExpenseCreation dbFault user expensesData state w
     = (Return {| Chat.response := Chat.ExpensesSaved successful failed;
                  Chat.action_ := Some Chat.expense_saved;
                  Chat.saved := [] |}, w')
     /\ (List.length successful + List.length failed
         = List.length expensesData)%nat
     /\ Chat.expenses w' = Chat.expenses w ++ rows
     /\ List.length rows = List.length successful
     /\ Forall (fun e => Chat.owner e = user) rows)
  /\ (forall before after,
        expensesData = before ++ Json.Null :: after ->
        ~ In Json.Null before ->
        exists rows w',
          Chat.handleMultipleExpenseCreation dbFault user expensesData state w
          = (Throw "TypeError: Cannot read properties of null (reading 'name')",
             w')
          /\ Chat.expenses w' = Chat.expenses w ++ rows
          /\ (List.length rows <= List.length before)%nat
          /\ Forall (fun e => Chat.owner e = user) rows).
Proof.
  intros _. split.
  - intros Hnull.
    destruct (saveAll_effect user expensesData 0 w Hnull)
      as (successful & failed & rows & w' & Heq & Hlen & Hrows & Hcount
          & Hown & _).
    exists successful, failed, rows, w'. split; [|auto].
    unfold Chat.handleMultipleExpenseCreation.
    unfold mbind, Chat.M_bind. rewrite Heq. reflexivity.
  - intros before after -> Hnull.
    destruct (saveAll_null user before after 0 w Hnull)
      as (rows & w' & Heq & Hrows & Hcount & Hown & _).
    exists rows, w'. split; [|auto].
    unfold Chat.handleMultipleExpenseCreation.
    unfold mbind, Chat.M_bind. rewrite Heq. reflexivity.
Qed.

(* --------------------------------------------------------------------- *)
(** ** Chat: completing a pending expense *)
(* --------------------------------------------------------------------- *)

Variable matchNumber : string -> option string.
Variable matchCategory : string -> option string.

Lemma settles_answer (user : string) (text : Chat.responseText)
    (state : Chat.ConversationState) :
  Chat.settles user (Chat.answer text state).
Proof.
  intros w. unfold Chat.answer. do 2 eexists.
  split; [reflexivity|]. cbn. auto.
Qed.

Lemma settles_askNext (state : Chat.ConversationState)
    (p : Chat.PendingExpense) (newMissingFields : list string) :
  Chat.settles (Chat.userId state) (Chat.askNext state p newMissingFields).
Proof. apply settles_answer. Qed.

Lemma settles_complete (state : Chat.ConversationState)
    (p : Chat.PendingExpense) (otherwise : string -> Chat.M Chat.completion) :
  (forall error, Chat.settles (Chat.userId state) (otherwise error)) ->
  Chat.settles (Chat.userId state) (Chat.complete dbFault state p otherwise).
Proof.
  intros Hother w. unfold Chat.complete, mbind, Chat.M_bind.
  destruct (saveExpenseToDatabase_effect (Chat.userId state)
              (Some (Chat.objectOf p)) w)
    as (result & w1 & -> & Hstates & Hissued & _ & _ & Hexp).
  destruct result as [e|err].
  - destruct Hexp as (Hexp & Howner & _).
    do 2 eexists. split; [reflexivity|]. split; [exact Hstates|].
    split; [exact Hissued|]. cbn. exists e. auto.
  - destruct (Hother err w1) as (r & w2 & Heq & Hs & Hi & Hr).
    exists r, w2. split; [exact Heq|]. split; [congruence|].
    split; [congruence|]. rewrite Hexp in Hr. exact Hr.
Qed.

Lemma settles_categoryStep (state : Chat.ConversationState)
    (p : Chat.PendingExpense) (missing : list string) (text : string) :
  Chat.settles (Chat.userId state)
    (Chat.categoryStep dbFault matchCategory state p missing text).
Proof.
  unfold Chat.categoryStep.
  destruct (Classifier.member "category" missing); [|apply settles_answer].
  destruct (matchCategory _); [|apply settles_answer].
  destruct (JS.truthy_num _); [|apply settles_answer].
  apply settles_complete. intros error. apply settles_answer.
Qed.

Lemma settles_descriptionStep (state : Chat.ConversationState)
    (p : Chat.PendingExpense) (missing : list string) (text : string) :
  Chat.settles (Chat.userId state)
    (Chat.descriptionStep dbFault matchCategory state p missing text).
Proof.
  unfold Chat.descriptionStep.
  destruct (_ && _); [|apply settles_categoryStep].
  destruct (Chat.without "description" missing); [|apply settles_askNext].
  destruct (JS.truthy_num _); [|apply settles_categoryStep].
  apply settles_complete. intros error. apply settles_categoryStep.
Qed.

Lemma settles_handleExpenseCompletion (state : Chat.ConversationState)
    (p : Chat.PendingExpense) (missing : list string) (text : string) :
  Chat.settles (Chat.userId state)
    (Chat.handleExpenseCompletion dbFault matchNumber matchCategory state p
       missing text).
Proof.
  unfold Chat.handleExpenseCompletion.
  destruct (Classifier.member "amount" missing);
    [|apply settles_descriptionStep].
  destruct (matchNumber text); [|apply settles_answer].
  destruct (Chat.without "amount" missing); [|apply settles_askNext].
  destruct (JS.truthy_num _); [|apply settles_descriptionStep].
  apply settles_complete. intros error. apply settles_answer.
Qed.

(** X9. [handleExpenseCompletion] never throws, sends nothing to a provider,
    and commits all or nothing: when it reports the expense as completed,
    exactly one row has been added to the expenses, it is the user's and the
    one shown in the reply, and the state to store is the cleared one; when
    it does not, no row has been added. *)
Theorem X9_completion_commits_once (state : Chat.ConversationState)
    (p : Chat.PendingExpense) (missing : list string) (text : string)
    (w : Chat.World) :
  exists r w',
    Chat.handleExpenseCompletion dbFault matchNumber matchCategory state p
      missing text w = (Return r, w')
    /\ Chat.conversationStates w' = Chat.conversationStates w
    /\ Chat.issued w' = Chat.issued w
    /\ if Chat.completed r
       then exists e,
              Chat.expense_ r = Some e
              /\ Chat.completionResponse r = Chat.PerfectSaved e
              /\ Chat.expenses w' = Chat.expenses w ++ [e]
              /\ Chat.owner e = Chat.userId state
              /\ Chat.state_ r = Chat.fresh (Chat.userId state)
       else Chat.expense_ r = None /\ Chat.expenses w' = Chat.expenses w.
Proof. apply settles_handleExpenseCompletion. Qed.

(** X10. A reply the dialog cannot use changes nothing: when the amount is
    awaited and the reply holds no number, or when only the category is
    awaited and the reply names none, [handleExpenseCompletion] asks again
    (for the amount, or for the category), returns the state it was given and
    leaves the world as it is: no query, no request. *)
Theorem X10_unusable_reply_asks_again (state : Chat.ConversationState)
    (p : Chat.PendingExpense) (missing : list string) (text : string)
    (w : Chat.World) :
  Chat.pendingExpense state = Some p ->
  Classifier.member "amount" missing = true /\ matchNumber text = None
  \/ Classifier.member "amount" missing = false
     /\ Classifier.member "description" missing = false
     /\ Classifier.member "category" missing = true
     /\ matchCategory (JS.toLowerCase text) = None ->
  Chat.handleExpenseCompletion dbFault matchNumber matchCategory state p
    missing text w
  = (Return {| Chat.completed := false;
               Chat.completionResponse :=
                 if Classifier.member "amount" missing
                 then Chat.NoAmountFound else Chat.ChooseACategory;
               Chat.state_ := state;
               Chat.expense_ := None |}, w).
Proof.
  intros Hp [[Ha Hn]|(Ha & Hd & Hc & Hn)].
  - unfold Chat.handleExpenseCompletion. rewrite Ha, Hn. reflexivity.
  - unfold Chat.handleExpenseCompletion, Chat.descriptionStep,
      Chat.categoryStep.
    rewrite Ha, Hd, Hc, Hn. cbn [andb]. unfold Chat.answer, Chat.withPending.
    destruct state as [u pe mf lc]. cbn in Hp. subst pe. reflexivity.
Qed.

Lemma find_category_lower (name : string) (known : list string)
    (stored : string) :
  List.find (fun c => String.eqb (JS.toLowerCase c) (JS.toLowerCase name))
    known = Some stored ->
  JS.toLowerCase stored = JS.toLowerCase name.
Proof.
  intros H. apply List.find_some in H. destruct H as [_ H].
  apply String.eqb_eq in H. exact H.
Qed.

Lemma save_with_healthy_database (user : string)
    (fields : list (string * Json.value)) (c : string) (q : Q)
    (w : Chat.World) :
  (forall n, dbFault n = None) ->
  Json.field fields "category" = Some (Json.Str c) ->
  c <> "" ->
  Json.field fields "amount" = Some (Json.Num q) ->
  exists e w',
    Chat.saveExpenseToDatabase dbFault user (Some (Json.Obj fields)) w
    = (Return (Return e), w')
    /\ Chat.expenseAmount e = q
    /\ JS.toLowerCase (Chat.categoryName e) = JS.toLowerCase c.
Proof.
  intros Hdb Hc Hne Ha.
  unfold Chat.saveExpenseToDatabase, Chat.saveExpense_try.
  unfold mbind, Chat.M_bind, Chat.lift, mret, Chat.M_ret.
  unfold Json.get. rewrite Hc, Ha.
  assert (Ht : Json.truthy (Some (Json.Str c)) = true).
  { cbn. destruct (String.eqb_spec c ""); [contradiction | reflexivity]. }
  rewrite Ht. cbn [Chat.asString].
  unfold Chat.getCategories, Chat.createCategory, Chat.createExpense,
    Chat.query.
  rewrite Hdb.
  cbn [fst snd Chat.queries Chat.withQueries Chat.categories].
  destruct (List.find _ _) as [stored|] eqn:Efind.
  - apply find_category_lower in Efind.
    cbn [fst snd Chat.queries Chat.withQueries Chat.categories].
    rewrite Hdb. cbn. eauto.
  - rewrite Hdb.
    cbn [fst snd Chat.queries Chat.withQueries Chat.categories].
    rewrite Hdb. cbn. eauto.
Qed.

Lemma objectOf_fields (p : Chat.PendingExpense) (c : string) (q : Q) :
  Chat.amount p = Some q ->
  Chat.category p = Some c ->
  exists fields,
    Chat.objectOf p = Json.Obj fields
    /\ Json.field fields "category" = Some (Json.Str c)
    /\ Json.field fields "amount" = Some (Json.Num q).
Proof.
  destruct p as [n a k d m l]. cbn. intros -> ->.
  eexists. split; [reflexivity|].
  destruct n, d, m, l; split; reflexivity.
Qed.

Lemma complete_with_healthy_database (state : Chat.ConversationState)
    (p : Chat.PendingExpense) (otherwise : string -> Chat.M Chat.completion)
    (c : string) (q : Q) (w : Chat.World) :
  (forall n, dbFault n = None) ->
  Chat.amount p = Some q ->
  Chat.category p = Some c ->
  c <> "" ->
  exists e w',
    Chat.complete dbFault state p otherwise w
    = (Return {| Chat.completed := true;
                 Chat.completionResponse := Chat.PerfectSaved e;
                 Chat.state_ := Chat.fresh (Chat.userId state);
                 Chat.expense_ := Some e |}, w')
    /\ Chat.expenseAmount e = q
    /\ JS.toLowerCase (Chat.categoryName e) = JS.toLowerCase c.
Proof.
  intros Hdb Ha Hc Hne.
  destruct (objectOf_fields p c q Ha Hc) as (fields & Hobj & Hfc & Hfa).
  destruct (save_with_healthy_database (Chat.userId state) fields c q w
              Hdb Hfc Hne Hfa) as (e & w' & Hsave & Hq & Hcat).
  exists e, w'. split; [|auto].
  unfold Chat.complete, mbind, Chat.M_bind. rewrite Hobj, Hsave. reflexivity.
Qed.

(** X11. With a database that does not fail, naming a category when only the
    category is awaited completes the expense: the row that is stored carries
    the pending amount, and its category is the one named, up to case (an
    existing category of the user is reused under its stored spelling). *)
Theorem X11_category_reply_completes (state : Chat.ConversationState)
    (p : Chat.PendingExpense) (missing : list string) (text found : string)
    (q : Q) (w : Chat.World) :
  (forall n, dbFault n = None) ->
  Classifier.member "amount" missing = false ->
  Classifier.member "description" missing = false ->
  Classifier.member "category" missing = true ->
  matchCategory (JS.toLowerCase text) = Some found ->
  found <> "" ->
  Chat.amount p = Some q ->
  ~ q == 0 ->
  exists e w',
    Chat.handleExpenseCompletion dbFault matchNumber matchCategory state p
      missing text w
    = (Return {| Chat.completed := true;
                 Chat.completionResponse := Chat.PerfectSaved e;
                 Chat.state_ := Chat.fresh (Chat.userId state);
                 Chat.expense_ := Some e |}, w')
    /\ Chat.expenseAmount e = q
    /\ JS.toLowerCase (Chat.categoryName e) = JS.toLowerCase found.
Proof.
  intros Hdb Hma Hmd Hmc Hfound Hne Ha Hq.
  unfold Chat.handleExpenseCompletion, Chat.descriptionStep,
    Chat.categoryStep.
  rewrite Hma, Hmd, Hmc, Hfound. cbn [andb Chat.amount].
  rewrite Ha. cbn [JS.truthy_num].
  destruct (Qeq_bool q 0) eqn:E;
    [apply Qeq_bool_iff in E; contradiction|]. cbn [negb].
  apply complete_with_healthy_database; auto.
Qed.

(** X12. With a database that does not fail, a reply holding a number when
    only the amount is awaited completes the expense with that number: the
    amount stored is [parseFloat] of the matched text, provided it is not
    zero and the pending expense has a category. *)
Theorem X12_amount_reply_completes (state : Chat.ConversationState)
    (p : Chat.PendingExpense) (missing : list string) (text found c : string)
    (q : Q) (w : Chat.World) :
  (forall n, dbFault n = None) ->
  Classifier.member "amount" missing = true ->
  Chat.without "amount" missing = [] ->
  matchNumber text = Some found ->
  JS.parseFloat found = Some q ->
  ~ q == 0 ->
  Chat.category p = Some c ->
  c <> "" ->
  exists e w',
    Chat.handleExpenseCompletion dbFault matchNumber matchCategory state p
      missing text w
    = (Return {| Chat.completed := true;
                 Chat.completionResponse := Chat.PerfectSaved e;
                 Chat.state_ := Chat.fresh (Chat.userId state);
                 Chat.expense_ := Some e |}, w')
    /\ Chat.expenseAmount e = q
    /\ JS.toLowerCase (Chat.categoryName e) = JS.toLowerCase c.
Proof.
  intros Hdb Hma Hrest Hfound Hparse Hq Hc Hne.
  unfold Chat.handleExpenseCompletion.
  rewrite Hma, Hfound, Hrest. cbn [Chat.amount].
  rewrite Hparse. cbn [JS.truthy_num].
  destruct (Qeq_bool q 0) eqn:E;
    [apply Qeq_bool_iff in E; contradiction|]. cbn [negb].
  apply complete_with_healthy_database; auto.
Qed.

End SavingExpenses.

(** A coffee filed under "food" where the default category "Food" exists: the
    row is stored under the default category, and no category is created. *)
Lemma X7_witness :
  exists result w',
    Chat.saveExpenseToDatabase Chat.healthy "u1" (Some Chat.coffee_payload)
      Chat.seeded
    = (Return result, w')
    /\ Chat.saveEffect "u1" (Some Chat.coffee_payload) Chat.seeded result w'.
Proof.
  apply (X7_save_expense_effect Chat.healthy "u1" (Some Chat.coffee_payload)
           Chat.seeded).
  reflexivity.
Defined.

Example coffee_under_default_category :
  let r := Chat.saveExpenseToDatabase Chat.healthy "u1"
             (Some Chat.coffee_payload) Chat.seeded in
  (exists e, fst r = Return (Return e) /\ Chat.categoryName e = "Food")
  /\ Chat.categories (snd r) = Chat.categories Chat.seeded.
Proof. cbv zeta. split; [eexists; split; reflexivity | reflexivity]. Qed.

(** A coffee and a tea without amount: both are tried. *)
Lemma X8_witness :
  let batch := [Chat.coffee_payload; Chat.tea_payload] in
  exists successful failed rows w',
    Chat.handleMultipleExpenseCreation Chat.healthy "u1" batch
      (Chat.fresh "u1") Chat.initial
    = (Return {| Chat.response := Chat.ExpensesSaved successful failed;
                 Chat.action_ := Some Chat.expense_saved;
                 Chat.saved := [] |}, w')
    /\ (List.length successful + List.length failed = List.length batch)%nat
    /\ Chat.expenses w' = Chat.expenses Chat.initial ++ rows
    /\ List.length rows = List.length successful
    /\ Forall (fun e => Chat.owner e = "u1") rows.
Proof.
  intros batch.
  apply (proj1 (X8_batch_of_expenses Chat.healthy "u1" batch
                  (Chat.fresh "u1") Chat.initial
                  ltac:(repeat constructor))).
  cbn. intuition discriminate.
Defined.

(** The same batch with a [null] between the two: the coffee is saved, the
    handler throws, and the tea is not tried. *)
Example batch_with_null :
  let r := Chat.handleMultipleExpenseCreation Chat.healthy "u1"
             [Chat.coffee_payload; Json.Null; Chat.tea_payload]
             (Chat.fresh "u1") Chat.initial in
  fst r = Throw "TypeError: Cannot read properties of null (reading 'name')"
  /\ List.length (Chat.expenses (snd r)) = 1%nat
  /\ Chat.queries (snd r) = 3%nat.
Proof. cbv zeta. repeat split. Qed.

(* --------------------------------------------------------------------- *)
(** ** Chat: whole turns *)
(* --------------------------------------------------------------------- *)

Section Turns.

Variable create : nat -> Gateway.request -> outcome Gateway.response.
Variable JSON_parse : string -> option Json.value.
Variable extractionPrompt : string -> option string -> string.
Variable dbFault : nat -> option string.
Variable render : Chat.responseText -> string.
Variable matchNumber : string -> option string.
Variable matchCategory : string -> option string.
Variable handleOther :
  string -> string -> option Json.value -> string -> string -> Chat.M Chat.reply.

Abbreviation turn :=
  (Chat.processChatMessage create JSON_parse extractionPrompt dbFault render
     matchNumber matchCategory handleOther).

(** X13. A greeting from a user without a pending expense is answered by the
    service alone: no request goes to a provider, and neither the expenses,
    nor the categories, nor the conversation states change.  The reply is the
    greeting, unless storing the chat message fails, in which case it is the
    apology; with a database that does not fail it is the greeting and the
    exchange is the one row added to the chat history. *)
Theorem X13_greeting_turn (user text : string) (w : Chat.World) :
  Chat.has_pending w user = false ->
  Classifier.member (JS.toLowerCase (JS.trim text)) Chat.greetings = true ->
  let r := fst (turn user text w) in
  let w' := snd (turn user text w) in
  Chat.issued w' = Chat.issued w
  /\ Chat.expenses w' = Chat.expenses w
  /\ Chat.categories w' = Chat.categories w
  /\ Chat.conversationStates w' = Chat.conversationStates w
  /\ Chat.saved r = []
  /\ (Chat.response r = Chat.GreetingText
      /\ Chat.action_ r = Some Chat.greeting
      \/ Chat.response r = Chat.SorryError /\ Chat.action_ r = None)
  /\ ((forall n, dbFault n = None) ->
      Chat.response r = Chat.GreetingText
      /\ Chat.chat_messages w'
         = Chat.chat_messages w
           ++ [ {| Chat.chatUser := user; Chat.message := text;
                   Chat.chatResponse := Chat.GreetingText;
                   Chat.intent := None |} ]).
Proof.
  intros Hnone Hgreet. cbv zeta.
  unfold Chat.processChatMessage, Chat.processChatMessage_try.
  unfold Chat.getConversationContext, Chat.catch, Chat.getChatHistory.
  unfold mbind, Chat.M_bind, mret, Chat.M_ret, Chat.query.
  unfold Chat.has_pending in Hnone.
  destruct (dbFault (Chat.queries w)) as [e0|] eqn:E0;
    cbn [fst snd Chat.queries Chat.withQueries Chat.conversationStates].
  all: set (state := match Chat.conversationStates w !! user with
                     | Some stored => stored
                     | None => Chat.fresh user
                     end).
  all: assert (Hstate : match Chat.pendingExpense state,
                              Chat.missingFields state
                        with Some _, Some _ => true | _, _ => false end
                        = false)
         by (subst state; destruct (Chat.conversationStates w !! user);
             [exact Hnone | reflexivity]).
  all: destruct (Chat.pendingExpense state) as [p|];
         [destruct (Chat.missingFields state) as [missing|];
          [discriminate Hstate|]|].
  all: rewrite Hgreet; unfold Chat.saveChatMessage, Chat.query;
       cbn [fst snd Chat.queries Chat.withQueries Chat.conversationStates].
  all: destruct (dbFault (S (Chat.queries w))) as [e1|] eqn:E1;
       cbn [fst snd Chat.queries Chat.withQueries Chat.conversationStates].
  all: try (destruct (dbFault (S (S (Chat.queries w)))) as [e2|] eqn:E2).
  all: cbn; repeat split; auto.
  all: match goal with
       | H : forall n, dbFault n = None |- _ => rewrite H in *; discriminate
       end.
Qed.

Lemma getConversationContext_effect (user : string) (n : nat)
    (w : Chat.World) :
  exists context,
    Chat.getConversationContext dbFault render user n w
    = (Return context, Chat.withQueries w (S (Chat.queries w))).
Proof.
  unfold Chat.getConversationContext, Chat.catch, Chat.getChatHistory.
  unfold mbind, Chat.M_bind, mret, Chat.M_ret, Chat.query.
  destruct (dbFault (Chat.queries w)); eexists; reflexivity.
Qed.

Lemma saveChatMessage_effect (user text : string)
    (response : Chat.responseText) (intent : option string) (w : Chat.World) :
  let w' := snd (Chat.saveChatMessage dbFault user text response intent w) in
  Chat.issued w' = Chat.issued w
  /\ Chat.expenses w' = Chat.expenses w
  /\ Chat.categories w' = Chat.categories w
  /\ Chat.conversationStates w' = Chat.conversationStates w.
Proof.
  unfold Chat.saveChatMessage, Chat.query.
  destruct (dbFault (Chat.queries w)); cbn; auto.
Qed.

Lemma pending_turn_effect (user text : string)
    (state : Chat.ConversationState) (p : Chat.PendingExpense)
    (missing : list string) (w : Chat.World) (r : Chat.reply)
    (w' : Chat.World) :
  Chat.conversationStates w !! user = Some state ->
  Chat.pendingExpense state = Some p ->
  Chat.missingFields state = Some missing ->
  turn user text w = (r, w') ->
  Chat.issued w' = Chat.issued w
  /\ (forall other, other <> user ->
      Chat.conversationStates w' !! other = Chat.conversationStates w !! other)
  /\ (Chat.expenses w' = Chat.expenses w
      \/ exists e,
           Chat.expenses w' = Chat.expenses w ++ [e]
           /\ Chat.owner e = Chat.userId state
           /\ Chat.has_pending w' user = false)
  /\ (Chat.action_ r = Some Chat.expense_saved ->
      exists e,
        Chat.saved r = [e]
        /\ Chat.response r = Chat.PerfectSaved e
        /\ Chat.expenses w' = Chat.expenses w ++ [e]
        /\ Chat.has_pending w' user = false)
  /\ (Chat.action_ r = Some Chat.pending ->
      Chat.saved r = [] /\ Chat.expenses w' = Chat.expenses w)
  /\ (Chat.action_ r = None -> Chat.response r = Chat.SorryError)
  /\ (Chat.action_ r = Some Chat.expense_saved
      \/ Chat.action_ r = Some Chat.pending
      \/ Chat.action_ r = None).
Proof.
  intros Hstate Hp Hm Hturn.
  unfold Chat.processChatMessage, Chat.processChatMessage_try in Hturn.
  unfold mbind, Chat.M_bind, mret, Chat.M_ret in Hturn.
  destruct (getConversationContext_effect user 5 w) as [context Hctx].
  rewrite Hctx in Hturn.
  cbn [Chat.conversationStates Chat.withQueries] in Hturn.
  rewrite Hstate, Hp, Hm in Hturn.
  destruct (settles_handleExpenseCompletion dbFault matchNumber matchCategory
              state p missing text (Chat.withQueries w (S (Chat.queries w))))
    as (c & w2 & Hdone & Hs2 & Hi2 & Hc).
  rewrite Hdone in Hturn.
  cbn [Chat.conversationStates Chat.issued Chat.expenses Chat.withQueries]
    in Hs2, Hi2, Hc.
  set (w3 := Chat.withStates w2
               (<[user := Chat.state_ c]> (Chat.conversationStates w2)))
    in Hturn.
  assert (Hothers : forall other, other <> user ->
            Chat.conversationStates w3 !! other
            = Chat.conversationStates w !! other).
  { intros other Hne. subst w3. cbn. rewrite lookup_insert_ne by congruence.
    rewrite Hs2. reflexivity. }
  assert (Hmine : Chat.conversationStates w3 !! user = Some (Chat.state_ c)).
  { subst w3. cbn. apply lookup_insert_eq. }
  assert (Hi3 : Chat.issued w3 = Chat.issued w) by exact Hi2.
  assert (He3 : Chat.expenses w3 = Chat.expenses w2) by reflexivity.
  clearbody w3.
  destruct (Chat.completed c) eqn:Ecompleted.
  - destruct Hc as (e & Hexp & Hresp & Hexps & Howner & Hfresh).
    assert (Hclear : forall w',
              Chat.conversationStates w' = Chat.conversationStates w3 ->
              Chat.has_pending w' user = false).
    { intros w0 Hw0. unfold Chat.has_pending.
      rewrite Hw0, Hmine, Hfresh. reflexivity. }
    pose proof (saveChatMessage_effect user text (Chat.completionResponse c)
                  (Some "expense_completion") w3) as (Ha & Hb & _ & Hd).
    destruct (Chat.saveChatMessage dbFault user text
                (Chat.completionResponse c) (Some "expense_completion") w3)
      as [[[]|err] w4]; cbn [fst snd] in *.
    + rewrite Hexp in Hturn. injection Hturn as <- <-.
      cbn [Chat.action_ Chat.saved Chat.response].
      repeat split; try congruence; try discriminate; auto.
      * intros other Hne. rewrite Hd. auto.
      * right. exists e. repeat split; try congruence. auto.
      * intros _. exists e. repeat split; try congruence. auto.
    + pose proof (saveChatMessage_effect user text Chat.SorryError
                    (Some "error") w4) as (Ha' & Hb' & _ & Hd').
      destruct (Chat.saveChatMessage dbFault user text Chat.SorryError
                  (Some "error") w4) as [o w5]; cbn [fst snd] in *.
      injection Hturn as <- <-.
      cbn [Chat.action_ Chat.saved Chat.response].
      repeat split; try congruence; try discriminate; auto.
      * intros other Hne. rewrite Hd', Hd. auto.
      * right. exists e. repeat split; try congruence.
        apply Hclear. congruence.
  - destruct Hc as (Hexp & Hexps).
    pose proof (saveChatMessage_effect user text (Chat.completionResponse c)
                  (Some "expense_pending") w3) as (Ha & Hb & _ & Hd).
    destruct (Chat.saveChatMessage dbFault user text
                (Chat.completionResponse c) (Some "expense_pending") w3)
      as [[[]|err] w4]; cbn [fst snd] in *.
    + injection Hturn as <- <-.
      cbn [Chat.action_ Chat.saved Chat.response].
      repeat split; try congruence; try discriminate; auto.
      * intros other Hne. rewrite Hd. auto.
      * left. congruence.
    + pose proof (saveChatMessage_effect user text Chat.SorryError
                    (Some "error") w4) as (Ha' & Hb' & _ & Hd').
      destruct (Chat.saveChatMessage dbFault user text Chat.SorryError
                  (Some "error") w4) as [o w5]; cbn [fst snd] in *.
      injection Hturn as <- <-.
      cbn [Chat.action_ Chat.saved Chat.response].
      repeat split; try congruence; try discriminate; auto.
      * intros other Hne. rewrite Hd', Hd. auto.
      * left. congruence.
Qed.

(** X14. A turn of a user who has a pending expense is spent on completing
    it: no request goes to a provider and the other users' states are not
    touched.  The expenses gain the completed row or nothing.  A reply with
    the action [expense_saved] means that its row was added and that the
    user's pending expense is cleared; the action [pending] means that no row
    was added.  When storing the chat message fails the reply is the apology
    without an action, although the row may have been added. *)
Theorem X14_pending_turn (user text : string)
    (state : Chat.ConversationState) (p : Chat.PendingExpense)
    (missing : list string) (w : Chat.World) :
  Chat.conversationStates w !! user = Some state ->
  Chat.pendingExpense state = Some p ->
  Chat.missingFields state = Some missing ->
  let r := fst (turn user text w) in
  let w' := snd (turn user text w) in
  Chat.issued w' = Chat.issued w
  /\ (forall other, other <> user ->
      Chat.conversationStates w' !! other = Chat.conversationStates w !! other)
  /\ (Chat.expenses w' = Chat.expenses w
      \/ exists e,
           Chat.expenses w' = Chat.expenses w ++ [e]
           /\ Chat.owner e = Chat.userId state
           /\ Chat.has_pending w' user = false)
  /\ (Chat.action_ r = Some Chat.expense_saved ->
      exists e,
        Chat.saved r = [e]
        /\ Chat.response r = Chat.PerfectSaved e
        /\ Chat.expenses w' = Chat.expenses w ++ [e]
        /\ Chat.has_pending w' user = false)
  /\ (Chat.action_ r = Some Chat.pending ->
      Chat.saved r = [] /\ Chat.expenses w' = Chat.expenses w)
  /\ (Chat.action_ r = None -> Chat.response r = Chat.SorryError)
  /\ (Chat.action_ r = Some Chat.expense_saved
      \/ Chat.action_ r = Some Chat.pending
      \/ Chat.action_ r = None).
Proof.
  intros Hstate Hp Hm. cbv zeta.
  apply (pending_turn_effect user text state p missing w _ _ Hstate Hp Hm).
  destruct (turn user text w); reflexivity.
Qed.

End Turns.

Lemma X10_witness :
  Chat.handleExpenseCompletion Chat.healthy no_match no_match
    (Chat.awaiting "u1" Chat.coffee ["category"]) Chat.coffee ["category"]
    "no idea" Chat.initial
  = (Return {| Chat.completed := false;
               Chat.completionResponse := Chat.ChooseACategory;
               Chat.state_ := Chat.awaiting "u1" Chat.coffee ["category"];
               Chat.expense_ := None |}, Chat.initial).
Proof.
  apply (X10_unusable_reply_asks_again Chat.healthy no_match no_match
           (Chat.awaiting "u1" Chat.coffee ["category"]) Chat.coffee
           ["category"] "no idea" Chat.initial).
  - reflexivity.
  - right. repeat split; reflexivity.
Defined.

Lemma X11_witness :
  exists e w',
    Chat.handleExpenseCompletion Chat.healthy no_match (Chat.finds "food")
      (Chat.awaiting "u1" Chat.coffee ["category"]) Chat.coffee ["category"]
      "food" Chat.initial
    = (Return {| Chat.completed := true;
                 Chat.completionResponse := Chat.PerfectSaved e;
                 Chat.state_ := Chat.fresh "u1";
                 Chat.expense_ := Some e |}, w')
    /\ Chat.expenseAmount e = 150 # 1
    /\ JS.toLowerCase (Chat.categoryName e) = JS.toLowerCase "food".
Proof.
  apply (X11_category_reply_completes Chat.healthy no_match
           (Chat.finds "food") (Chat.awaiting "u1" Chat.coffee ["category"])
           Chat.coffee ["category"] "food" "food" (150 # 1) Chat.initial).
  - reflexivity.
  - reflexivity.
  - reflexivity.
  - reflexivity.
  - reflexivity.
  - discriminate.
  - reflexivity.
  - discriminate.
Defined.

Lemma X12_witness :
  let p :=
    {| Chat.name := Some "coffee"; Chat.amount := None;
       Chat.category := Some "food"; Chat.description := None;
       Chat.merchant := None; Chat.location := None |} in
  exists e w',
    Chat.handleExpenseCompletion Chat.healthy (Chat.finds "150") no_match
      (Chat.awaiting "u1" p ["amount"]) p ["amount"] "it was 150"
      Chat.initial
    = (Return {| Chat.completed := true;
                 Chat.completionResponse := Chat.PerfectSaved e;
                 Chat.state_ := Chat.fresh "u1";
                 Chat.expense_ := Some e |}, w')
    /\ Chat.expenseAmount e = 150 # 1
    /\ JS.toLowerCase (Chat.categoryName e) = JS.toLowerCase "food".
Proof.
  intros p.
  apply (X12_amount_reply_completes Chat.healthy (Chat.finds "150") no_match
           (Chat.awaiting "u1" p ["amount"]) p ["amount"] "it was 150" "150"
           "food" (150 # 1) Chat.initial).
  - reflexivity.
  - reflexivity.
  - reflexivity.
  - reflexivity.
  - reflexivity.
  - discriminate.
  - reflexivity.
  - discriminate.
Defined.

Lemma X13_witness :
  let turn :=
    Chat.processChatMessage Gateway.providers_down Json.parse
      Classifier.prompt2 Chat.healthy Chat.plain no_match no_match Chat.unused
      "u1" "  Good Morning " Chat.initial in
  Chat.issued (snd turn) = []
  /\ Chat.expenses (snd turn) = []
  /\ Chat.response (fst turn) = Chat.GreetingText.
Proof.
  pose proof (X13_greeting_turn Gateway.providers_down Json.parse
                Classifier.prompt2 Chat.healthy Chat.plain no_match no_match
                Chat.unused "u1" "  Good Morning " Chat.initial
                eq_refl eq_refl) as H.
  cbv zeta in *.
  destruct H as (Hissued & Hexpenses & _ & _ & _ & _ & Hhealthy).
  split; [exact Hissued|]. split; [exact Hexpenses|].
  apply Hhealthy. reflexivity.
Defined.

Lemma X14_witness :
  let w :=
    Chat.withStates Chat.initial
      (<["u1" := Chat.awaiting "u1" Chat.coffee ["category"]]> ∅) in
  let turn :=
    Chat.processChatMessage Gateway.providers_down Json.parse
      Classifier.prompt2 Chat.healthy Chat.plain no_match (Chat.finds "food")
      Chat.unused "u1" "food" w in
  Chat.issued (snd turn) = []
  /\ (Chat.action_ (fst turn) = Some Chat.expense_saved ->
      exists e,
        Chat.saved (fst turn) = [e]
        /\ Chat.response (fst turn) = Chat.PerfectSaved e
        /\ Chat.expenses (snd turn) = [] ++ [e]
        /\ Chat.has_pending (snd turn) "u1" = false).
Proof.
  cbv zeta.
  pose proof (X14_pending_turn Gateway.providers_down Json.parse
                Classifier.prompt2 Chat.healthy Chat.plain no_match
                (Chat.finds "food") Chat.unused "u1" "food"
                (Chat.awaiting "u1" Chat.coffee ["category"]) Chat.coffee
                ["category"]
                (Chat.withStates Chat.initial
                   (<["u1" := Chat.awaiting "u1" Chat.coffee ["category"]]> ∅))
                (lookup_insert_eq _ _ _) eq_refl eq_refl) as H.
  cbv zeta in H.
  destruct H as (Hissued & _ & _ & Hsaved & _).
  split; [exact Hissued | exact Hsaved].
Defined.

(* --------------------------------------------------------------------- *)
(** ** Chat: the category of an expense that names none *)
(* --------------------------------------------------------------------- *)

Lemma lower_upper (c : ascii) : JS.lower (JS.upper c) = JS.lower c.
Proof. destruct c as [[] [] [] [] [] [] [] []]; reflexivity. Qed.

Lemma lower_lower (c : ascii) : JS.lower (JS.lower c) = JS.lower c.
Proof. destruct c as [[] [] [] [] [] [] [] []]; reflexivity. Qed.

Lemma toLowerCase_toUpperCase (s : string) :
  JS.toLowerCase (JS.toUpperCase s) = JS.toLowerCase s.
Proof.
  unfold JS.toLowerCase, JS.toUpperCase.
  induction s as [|c s IH]; cbn; [reflexivity|].
  rewrite lower_upper, IH. reflexivity.
Qed.

Lemma toLowerCase_idempotent (s : string) :
  JS.toLowerCase (JS.toLowerCase s) = JS.toLowerCase s.
Proof.
  unfold JS.toLowerCase.
  induction s as [|c s IH]; cbn; [reflexivity|].
  rewrite lower_lower, IH. reflexivity.
Qed.

(** X16. [categorizeExpenseAuto] does not see the case of an ASCII
    description: written in upper case, or in lower case, it gets the
    category of the description as it was written. *)
Theorem X16_category_ignores_case (description : string) :
  JS.ascii_only description = true ->
  Chat.categorizeExpenseAuto (JS.toUpperCase description)
  = Chat.categorizeExpenseAuto description
  /\ Chat.categorizeExpenseAuto (JS.toLowerCase description)
     = Chat.categorizeExpenseAuto description.
Proof.
  intros _. unfold Chat.categorizeExpenseAuto.
  rewrite toLowerCase_toUpperCase, toLowerCase_idempotent.
  split; reflexivity.
Qed.

Lemma X16_witness :
  Chat.categorizeExpenseAuto (JS.toUpperCase "Uber to the airport")
  = Chat.categorizeExpenseAuto "Uber to the airport"
  /\ Chat.categorizeExpenseAuto (JS.toLowerCase "Uber to the airport")
     = Chat.categorizeExpenseAuto "Uber to the airport".
Proof.
  apply (X16_category_ignores_case "Uber to the airport"). reflexivity.
Defined.

Section UncategorizedExpenses.

Variable dbFault : nat -> option string.

(** X17. With a database that does not fail, a payload that names no category
    is filed under the keyword category of its description, or of its name
    when it has no description: the row is stored with the payload's amount
    and under that category, up to case.  Its name is the payload's name,
    else its description, else the category followed by [expense]. *)
Theorem X17_save_without_category (user text : string)
    (fields : list (string * Json.value)) (q : Q) (w : Chat.World) :
  (forall n, dbFault n = None) ->
  Json.truthy (Json.field fields "category") = false ->
  Json.orElse
    (Json.orElse (Json.field fields "description") (Json.field fields "name"))
    (Some (Json.Str ""))
  = Some (Json.Str text) ->
  Json.field fields "amount" = Some (Json.Num q) ->
  exists e w',
    Chat.saveExpenseToDatabase dbFault user (Some (Json.Obj fields)) w
    = (Return (Return e), w')
    /\ Chat.expenseAmount e = q
    /\ JS.toLowerCase (Chat.categoryName e)
       = JS.toLowerCase (Chat.categorizeExpenseAuto text)
    /\ Chat.expenseName e
       = Json.orElse
           (Json.orElse (Json.field fields "name")
              (Json.field fields "description"))
           (Some (Json.Str (Chat.categorizeExpenseAuto text +:+ " expense"))).
Proof.
  intros Hdb Hc Htext Ha.
  unfold Chat.saveExpenseToDatabase, Chat.saveExpense_try.
  unfold mbind, Chat.M_bind, Chat.lift, mret, Chat.M_ret.
  unfold Json.get. rewrite Hc, Htext, Ha.
  cbn [Chat.asString outcome_bind outcome_ret].
  unfold Chat.getCategories, Chat.createCategory, Chat.createExpense,
    Chat.query.
  rewrite Hdb.
  cbn [fst snd Chat.queries Chat.withQueries Chat.categories].
  destruct (List.find _ _) as [stored|] eqn:Efind.
  - apply find_category_lower in Efind.
    cbn [fst snd Chat.queries Chat.withQueries Chat.categories].
    rewrite Hdb. cbn. eauto 10.
  - rewrite Hdb.
    cbn [fst snd Chat.queries Chat.withQueries Chat.categories].
    rewrite Hdb. cbn. eauto 10.
Qed.

End UncategorizedExpenses.

Lemma X17_witness :
  exists e w',
    Chat.saveExpenseToDatabase Chat.healthy "u1"
      (Some (Json.Obj [("name", Json.Str "Coffee at Starbucks");
                       ("amount", Json.Num (150 # 1))])) Chat.initial
    = (Return (Return e), w')
    /\ Chat.expenseAmount e = 150 # 1
    /\ JS.toLowerCase (Chat.categoryName e)
       = JS.toLowerCase (Chat.categorizeExpenseAuto "Coffee at Starbucks")
    /\ Chat.expenseName e
       = Json.orElse
           (Json.orElse (Some (Json.Str "Coffee at Starbucks")) None)
           (Some (Json.Str (Chat.categorizeExpenseAuto "Coffee at Starbucks"
                            +:+ " expense"))).
Proof.
  apply (X17_save_without_category Chat.healthy "u1" "Coffee at Starbucks"
           [("name", Json.Str "Coffee at Starbucks");
            ("amount", Json.Num (150 # 1))] (150 # 1) Chat.initial).
  - reflexivity.
  - reflexivity.
  - reflexivity.
  - reflexivity.
Defined.

(* --------------------------------------------------------------------- *)
(** ** Financial calculators: what the verdicts guarantee *)
(* --------------------------------------------------------------------- *)

Lemma Qle_bool_false (a b : Q) : Qle_bool a b = false <-> (b < a)%Q.
Proof.
  split; intro H.
  - apply Qnot_le_lt. intro Hle. apply Qle_bool_iff in Hle. congruence.
  - destruct (Qle_bool a b) eqn:E; [|reflexivity].
    apply Qle_bool_iff in E. lra.
Qed.

(** X18. On a purchase above zero the verdict AFFORDABLE is reached only
    when no rule before the last one matched, with the tests as doubles take
    them: the balance is not [<= 0], the purchase is neither above the
    balance nor above [balance - expenses * 3], and the share of the income,
    [(purchase / income) * 100], is not above 50.  The verdict comes with the
    low risk level and the recommendation that prints the remaining
    balance. *)
Theorem X18_affordable_only_by_last_rule (s : Advice64.snapshot)
    (purchase : F64.double) :
  F64.ltb F64.zero purchase = true ->
  Advice64.affordabilityStatus_ (Advice64.affordability s purchase)
  = Advice.AFFORDABLE ->
  F64.leb (Advice64.balance s) F64.zero = false
  /\ F64.ltb (Advice64.balance s) purchase = false
  /\ F64.ltb
       (F64.sub (Advice64.balance s)
          (F64.mul (Advice64.totalExpenses s) (F64.ofZ 3)))
       purchase = false
  /\ F64.ltb (F64.ofZ 50)
       (F64.mul (F64.div purchase (Advice64.totalIncome s)) (F64.ofZ 100))
     = false
  /\ Advice64.riskLevel_ (Advice64.affordability s purchase) = Advice.LowRisk
  /\ Advice64.recommendation_ (Advice64.affordability s purchase)
     = Advice64.CanAfford (F64.sub (Advice64.balance s) purchase).
Proof.
  intros Hpositive. unfold Advice64.affordability.
  rewrite (ltb_max_zero _ purchase Hpositive).
  destruct (F64.leb (Advice64.balance s) F64.zero); [discriminate|].
  destruct (F64.ltb (Advice64.balance s) purchase); [discriminate|].
  destruct (F64.ltb (F64.sub _ _) purchase); [discriminate|].
  destruct (F64.ltb (F64.ofZ 50) _); [discriminate|].
  intros _. repeat split.
Qed.

(** Balance 732.63, income 7509.7, expenses 27.22: a purchase of 650.97 is
    affordable, the reserve test being taken on the rounded difference. *)
Lemma X18_witness :
  let s :=
    {| Advice64.balance := F64.parseFloat "732.63";
       Advice64.totalIncome := F64.parseFloat "7509.7";
       Advice64.totalExpenses := F64.parseFloat "27.22" |} in
  let purchase := F64.parseFloat "650.97" in
  F64.ltb
    (F64.sub (Advice64.balance s)
       (F64.mul (Advice64.totalExpenses s) (F64.ofZ 3)))
    purchase = false
  /\ Advice64.recommendation_ (Advice64.affordability s purchase)
     = Advice64.CanAfford (F64.sub (Advice64.balance s) purchase).
Proof.
  intros s purchase.
  destruct (X18_affordable_only_by_last_rule s purchase eq_refl eq_refl)
    as (_ & _ & Hreserve & _ & _ & Hrec).
  split; assumption.
Defined.





(** X20. When the balance already covers the target and the surplus is
    positive, [handleSavingsTimeline] says that the purchase is affordable
    now, and still recommends saving: the recommendation is the "good news"
    one, for a month count that is zero or negative, which is also the
    [timelineMonths] of the data; the shortfall reported in the data is 0. *)
Theorem X20_affordable_now_still_counts_months (s : Advice.snapshot)
    (target : Q) (itemName : option string) :
  (0 < Advice.totalIncome s - Advice.totalExpenses s)%Q ->
  (target - Advice.balance s <= 0)%Q ->
  exists months d,
    Advice.savingsPlan s target itemName
    = Advice.SavingsTimeline itemName
        (Advice.AffordNow (Advice.balance s - target))
        (Advice.GoodNews months) d
    /\ (months <= 0)%Z
    /\ Advice.timelineMonths d = Some months
    /\ Advice.feasible d = true
    /\ Advice.shortfall d == 0.
Proof.
  intros Hs Hf. destruct s as [b i e].
  cbn [Advice.balance Advice.totalIncome Advice.totalExpenses] in *.
  unfold Advice.savingsPlan.
  cbn [Advice.balance Advice.totalIncome Advice.totalExpenses].
  assert (E1 : Qle_bool (i - e) 0 = false) by (apply Qle_bool_false; lra).
  assert (E2 : Qle_bool (target - b) 0 = true) by (apply Qle_bool_iff; lra).
  assert (E3 : JS.Qlt_bool 0 (i - e) = true) by (apply Qlt_bool_iff; lra).
  rewrite E1, E2, E3.
  assert (Hm : (Qceiling ((target - b) / ((i - e) * 0.7)) <= 0)%Z).
  { change 0%Z with (Qceiling 0). apply Qceiling_resp_le.
    assert (H70 : (target - b) / ((i - e) * 0.7)
                  == (target - b) * / ((i - e) * 0.7)) by reflexivity.
    assert (Hinv : (0 < / ((i - e) * 0.7))%Q)
      by (apply Qinv_lt_0_compat; lra).
    assert (Hmul : ((target - b) * / ((i - e) * 0.7)
                    <= 0 * / ((i - e) * 0.7))%Q)
      by (apply Qmult_le_compat_r; lra).
    rewrite H70. lra. }
  assert (E4 : (Qceiling ((target - b) / ((i - e) * 0.7)) <=? 6)%Z = true)
    by (apply Z.leb_le; lia).
  rewrite E4.
  do 2 eexists. split; [reflexivity|].
  split; [exact Hm|]. split; [reflexivity|]. split; [reflexivity|].
  cbn [Advice.shortfall]. unfold JS.max.
  destruct (Qle_bool 0 (target - b)) eqn:E5; [|reflexivity].
  apply Qle_bool_iff in E5. lra.
Qed.

Lemma X20_witness :
  let s := {| Advice.balance := 80000; Advice.totalIncome := 50000;
              Advice.totalExpenses := 30000 |} in
  exists months d,
    Advice.savingsPlan s 50000 (Some "Laptop")
    = Advice.SavingsTimeline (Some "Laptop")
        (Advice.AffordNow (Advice.balance s - 50000))
        (Advice.GoodNews months) d
    /\ (months <= 0)%Z
    /\ Advice.timelineMonths d = Some months
    /\ Advice.feasible d = true
    /\ Advice.shortfall d == 0.
Proof.
  intros s.
  apply (X20_affordable_now_still_counts_months s 50000 (Some "Laptop")).
  - reflexivity.
  - discriminate.
Defined.

Lemma includes_lakh (s : string) :
  JS.includes s "lakh" = true -> JS.includes s "k" = true.
Proof.
  induction s as [|c s IH]; [discriminate|].
  cbn [JS.includes]. intros H. apply orb_true_iff in H. destruct H as [H|H].
  - destruct s as [|c1 [|c2 s]]; cbn [JS.startsWith] in H;
      repeat rewrite andb_false_r in H; try discriminate.
    apply andb_true_iff in H. destruct H as [_ H].
    apply andb_true_iff in H. destruct H as [_ H].
    apply andb_true_iff in H. destruct H as [H _].
    apply Ascii.eqb_eq in H. subst c2.
    apply orb_true_iff. right. cbn [JS.includes].
    apply orb_true_iff. right. reflexivity.
  - apply orb_true_iff. right. apply IH. exact H.
Qed.

Section Amounts.

Variable matchAmount : string -> option string.

(** X21. [extractAmountFromQuery] never multiplies by 100000: an amount
    written with [lakh] holds a [k], so the test for [k] comes first and the
    amount is read in thousands, after the first [k] has been taken out. *)
Theorem X21_lakh_is_read_as_thousands (query capture : string) :
  matchAmount query = Some capture ->
  JS.includes (JS.toLowerCase (Advice.removeCommas capture)) "lakh" = true ->
  Advice.extractAmountFromQuery matchAmount query
  = Advice.times
      (JS.parseInt
         (Advice.removeFirst_i "k" (Advice.removeCommas capture))) 1000.
Proof.
  intros Hmatch Hlakh. unfold Advice.extractAmountFromQuery.
  rewrite Hmatch. cbv zeta.
  rewrite (includes_lakh _ Hlakh). reflexivity.
Qed.

End Amounts.

Lemma X21_witness :
  Advice.extractAmountFromQuery (fun _ => Some "5lakh")
    "can I afford a car worth 5lakh"
  = Some (inject_Z 5000).
Proof.
  exact (X21_lakh_is_read_as_thousands (fun _ => Some "5lakh")
           "can I afford a car worth 5lakh" "5lakh" eq_refl eq_refl).
Defined.

(* --------------------------------------------------------------------- *)
(** ** The agent's tools: alerts, balances and voice commands *)
(* --------------------------------------------------------------------- *)

Lemma same_category_refl (c : option string) : Demo.same_category c c = true.
Proof. destruct c as [s|]; cbn; [apply String.eqb_refl | reflexivity]. Qed.

Lemma sumAmounts_app (l : list Demo.expense) (e : Demo.expense) :
  Demo.sumAmounts (l ++ [e]) = (Demo.sumAmounts l + Demo.amount e)%Q.
Proof. unfold Demo.sumAmounts. rewrite fold_left_app. reflexivity. Qed.

(** X22. The callers of [detectAnomalies] push the new expense before they
    call it, so the test on the number of expenses of the category always
    passes and the mean counts the new expense: with the earlier expenses of
    the category [same], the unusual-amount alert is raised exactly when the
    amount is above twice the mean of [same] followed by the new expense,
    the sum, the division and the doubling being those of doubles. *)
Theorem X22_unusual_alert_counts_new_expense (prior : list Demo64.expense)
    (e : Demo64.expense) (d : Demo.Date) :
  Demo64.date e = Some d ->
  let same :=
    List.filter
      (fun x => Demo.same_category (Demo64.category x) (Demo64.category e))
      prior in
  let avgAmount :=
    F64.div (Demo64.sumAmounts (same ++ [e]))
      (F64.ofZ (Z.of_nat (List.length same + 1))) in
  exists alerts,
    Demo64.detectAnomalies (prior ++ [e]) e = Return alerts
    /\ existsb Demo64.is_unusual alerts
       = F64.ltb (F64.mul avgAmount (F64.ofZ 2)) (Demo64.amount e).
Proof.
  intros Hd same avgAmount. unfold Demo64.detectAnomalies.
  rewrite List.filter_app. cbn [List.filter].
  rewrite same_category_refl. fold same.
  rewrite length_app. cbn [List.length].
  assert (Hguard : (0 <? List.length same + 1)%nat = true)
    by (apply Nat.ltb_lt; lia).
  rewrite Hguard. fold avgAmount. rewrite Hd.
  assert (Hlate : forall alerts hour,
            existsb Demo64.is_unusual (alerts ++ [Demo64.LATE_NIGHT hour])
            = existsb Demo64.is_unusual alerts).
  { intros alerts hour. rewrite existsb_app. cbn. apply orb_false_r. }
  destruct (F64.ltb (F64.mul avgAmount (F64.ofZ 2)) (Demo64.amount e));
    (destruct (Demo.getHours d) as [hour|];
     [destruct ((hour <? 6)%Z || (hour >? 23)%Z)|]);
    eexists; (split; [reflexivity|]); rewrite ?Hlate; reflexivity.
Qed.

(** After expenses of 10 and 17.4 for food, one of 54.8 raises the alert:
    the doubled mean of the three is 54.79999999999999. *)
Lemma X22_witness :
  exists alerts,
    Demo64.detectAnomalies
      ([Demo64.food "tea" "10"; Demo64.food "lunch" "17.4"]
       ++ [Demo64.food "dinner" "54.8"])
      (Demo64.food "dinner" "54.8")
    = Return alerts
    /\ existsb Demo64.is_unusual alerts = true.
Proof.
  destruct (X22_unusual_alert_counts_new_expense
              [Demo64.food "tea" "10"; Demo64.food "lunch" "17.4"]
              (Demo64.food "dinner" "54.8") (Demo.DateAt 12) eq_refl)
    as (alerts & Hrun & Halert).
  exists alerts. split; [exact Hrun|]. rewrite Halert. reflexivity.
Defined.

Lemma detectAnomalies_returns (expenseDB : list Demo.expense)
    (e : Demo.expense) (d : Demo.Date) :
  Demo.date e = Some d ->
  exists alerts, Demo.detectAnomalies expenseDB e = Return alerts.
Proof.
  intros Hd. unfold Demo.detectAnomalies. rewrite Hd.
  destruct (Demo.getHours d) as [hour|];
    [destruct ((hour <? 6)%Z || (hour >? 23)%Z)|]; eexists; reflexivity.
Qed.

Lemma addExpense_with_category (expenseDB : list Demo.expense)
    (now : Demo.Date) (name : string) (amount : Q) (category : string) :
  category <> "" ->
  exists alerts,
    Demo.addExpense expenseDB now name amount (Demo.text category)
    = (expenseDB
       ++ [ {| Demo.name := name; Demo.amount := amount;
               Demo.category := Some category; Demo.date := Some now |} ],
       Return alerts).
Proof.
  intros Hne. unfold Demo.addExpense. cbv zeta.
  set (e := {| Demo.name := name; Demo.amount := amount;
               Demo.category := _; Demo.date := Some now |}).
  destruct (detectAnomalies_returns (expenseDB ++ [e]) e now eq_refl)
    as [alerts Hrun].
  exists alerts. rewrite Hrun. subst e.
  destruct category as [|c s]; [contradiction | reflexivity].
Qed.

(** X23. [addExpense] always answers with its list of alerts and appends
    exactly one expense, with the name, amount and time given.  Its category
    is the one given when that is a non-empty text; a call without a category
    is filed under [other], whatever the name, because the default of the
    parameter applies before the keyword categorizer is tried; the
    categorizer decides only for an empty or null category.  The total of
    [getTotalExpenses] grows by the amount, for any period asked. *)
Theorem X23_addExpense_effect (expenseDB : list Demo.expense)
    (now : Demo.Date) (name : string) (amount : Q) (category : Demo.optional)
    (from to : string) :
  exists alerts,
    Demo.addExpense expenseDB now name amount category
    = (expenseDB
       ++ [ {| Demo.name := name; Demo.amount := amount;
               Demo.category :=
                 Some match category with
                      | Demo.undefined => "other"
                      | Demo.null | Demo.text "" =>
                          Demo.categorizeExpenseAuto name
                      | Demo.text given => given
                      end;
               Demo.date := Some now |} ],
       Return alerts)
    /\ Demo.getTotalExpenses
         (fst (Demo.addExpense expenseDB now name amount category)) from to
       = (Demo.getTotalExpenses expenseDB from to + amount)%Q.
Proof.
  unfold Demo.addExpense. cbv zeta.
  set (e := {| Demo.name := name; Demo.amount := amount;
               Demo.category := _; Demo.date := Some now |}).
  destruct (detectAnomalies_returns (expenseDB ++ [e]) e now eq_refl)
    as [alerts Hrun].
  exists alerts. rewrite Hrun. cbn [fst].
  split.
  - subst e. destruct category as [| |[|c s]]; reflexivity.
  - unfold Demo.getTotalExpenses. rewrite sumAmounts_app. reflexivity.
Qed.

(** X24. The balance of [getMoneyBalance] follows the entries, in doubles:
    after one more income the balance is the old income total plus the new
    amount, minus the expense total; after one more expense it is the income
    total minus the sum of the old expense total and the new amount.  Each
    total is the sum of its amounts from left to right, starting at 0. *)
Theorem X24_balance_follows_entries (incomeDB : list Demo64.income)
    (expenseDB : list Demo64.expense) (name : string) (amount : F64.double)
    (e : Demo64.expense) :
  Demo64.getMoneyBalance (Demo64.addIncome incomeDB name amount) expenseDB
  = F64.sub (F64.add (Demo64.totalIncome incomeDB) amount)
      (Demo64.sumAmounts expenseDB)
  /\ Demo64.getMoneyBalance incomeDB (expenseDB ++ [e])
     = F64.sub (Demo64.totalIncome incomeDB)
         (F64.add (Demo64.sumAmounts expenseDB) (Demo64.amount e))
  /\ Demo64.getMoneyBalance incomeDB expenseDB
     = F64.sub (Demo64.totalIncome incomeDB) (Demo64.sumAmounts expenseDB).
Proof.
  unfold Demo64.getMoneyBalance, Demo64.addIncome, Demo64.totalIncome,
    Demo64.sumAmounts.
  rewrite !fold_left_app. repeat split.
Qed.

(** An income of 215.9 and an expense of 39.96: after a new expense of 72.58
    the balance is 103.36000000000001. *)
Example balance_is_rounded :
  let incomeDB := Demo64.addIncome [] "salary" (F64.parseFloat "215.9") in
  let expenseDB := [Demo64.food "lunch" "39.96"; Demo64.food "dinner" "72.58"] in
  Demo64.getMoneyBalance incomeDB expenseDB
  = S754_finite false 7273313398203352 (-46)
  /\ F64.parseFloat "103.36" = S754_finite false 7273313398203351 (-46).
Proof. split; reflexivity. Qed.

(** X25. In [parseVoiceCommand] the last category rule that matches wins: a
    transcript that is an expense command gets [shopping] if it holds
    [shopping] or [bought], else [transport] for [uber], [taxi] or
    [transport], else [food] for [food], [coffee] or [restaurant], else
    [other].  So whatever was [bought] is shopping.  The name of the expense
    is the transcript as spoken. *)
Theorem X25_voice_category_last_rule_wins (transcript : string) :
  Chat.anyOf (JS.toLowerCase transcript) ["add expense"; "spent"; "bought"]
  = true ->
  exists amount,
    Demo.parseVoiceCommand transcript
    = Demo.add_expense transcript amount
        (if Chat.anyOf (JS.toLowerCase transcript) ["shopping"; "bought"]
         then "shopping"
         else if Chat.anyOf (JS.toLowerCase transcript)
                   ["uber"; "taxi"; "transport"]
         then "transport"
         else if Chat.anyOf (JS.toLowerCase transcript)
                   ["food"; "coffee"; "restaurant"]
         then "food"
         else "other")
    /\ (JS.includes (JS.toLowerCase transcript) "bought" = true ->
        Demo.parseVoiceCommand transcript
        = Demo.add_expense transcript amount "shopping").
Proof.
  intros Hexpense. unfold Demo.parseVoiceCommand. cbv zeta.
  rewrite Hexpense. eexists. split.
  - destruct (Chat.anyOf _ ["shopping"; "bought"]); [reflexivity|].
    destruct (Chat.anyOf _ ["uber"; "taxi"; "transport"]); reflexivity.
  - intros Hbought.
    assert (H : Chat.anyOf (JS.toLowerCase transcript) ["shopping"; "bought"]
                = true).
    { unfold Chat.anyOf. cbn [existsb]. rewrite Hbought.
      rewrite orb_true_r. reflexivity. }
    rewrite H. reflexivity.
Qed.

Lemma X25_witness :
  exists amount,
    Demo.parseVoiceCommand "I bought coffee for 120"
    = Demo.add_expense "I bought coffee for 120" amount "shopping".
Proof.
  destruct (X25_voice_category_last_rule_wins "I bought coffee for 120"
              eq_refl) as (amount & _ & Hbought).
  exists amount. apply Hbought. reflexivity.
Defined.

Section VoiceProperties.

Variable ask : string -> string -> outcome (option string).
Variable analysisPrompt : list Demo.expense -> string.

(** X26. A voice command changes [expenseDB] only by adding one expense, and
    it does so exactly when it answers that the expense was added: then the
    amount is a whole number other than 0, the category is one of [food],
    [transport], [shopping] and [other] (the keyword categorizer of
    [addExpense] is never reached), and the name is the command as spoken.
    In every other case (the balance, the analysis, the chat, an amount that
    is missing or 0) the expenses are left as they were. *)
Theorem X26_voice_command_effect (incomeDB : list Demo.income)
    (expenseDB : list Demo.expense) (now : Demo.Date) (spoken : string) :
  let result :=
    Demo.handleVoiceCommand ask analysisPrompt incomeDB expenseDB now spoken in
  (exists n category alerts,
     snd result = Demo.AddedExpense n category alerts
     /\ n <> 0%Z
     /\ In category ["food"; "transport"; "shopping"; "other"]
     /\ fst result
        = expenseDB
          ++ [ {| Demo.name := spoken; Demo.amount := inject_Z n;
                  Demo.category := Some category;
                  Demo.date := Some now |} ])
  \/ (fst result = expenseDB
      /\ forall n category alerts,
           snd result <> Demo.AddedExpense n category alerts).
Proof.
  cbv zeta. unfold Demo.handleVoiceCommand, Demo.parseVoiceCommand.
  cbv zeta.
  destruct (Chat.anyOf _ ["add expense"; "spent"; "bought"]).
  - set (category :=
           if Chat.anyOf _ ["shopping"; "bought"] then "shopping"
           else if Chat.anyOf _ ["uber"; "taxi"; "transport"] then "transport"
           else if Chat.anyOf _ ["food"; "coffee"; "restaurant"] then "food"
           else "other").
    assert (Hcategory : In category ["food"; "transport"; "shopping"; "other"]
                        /\ category <> "").
    { subst category.
      destruct (Chat.anyOf _ ["shopping"; "bought"]);
        [cbn; split; [tauto | discriminate]|].
      destruct (Chat.anyOf _ ["uber"; "taxi"; "transport"]);
        [cbn; split; [tauto | discriminate]|].
      destruct (Chat.anyOf _ ["food"; "coffee"; "restaurant"]);
        cbn; split; try tauto; discriminate. }
    destruct Hcategory as [Hin Hne].
    destruct (match Demo.matchDigits _ with
              | Some found => JS.parseInt found
              | None => None
              end) as [n|];
      [|right; split; [reflexivity | discriminate]].
    destruct (n =? 0)%Z eqn:En;
      [right; split; [reflexivity | discriminate]|].
    apply Z.eqb_neq in En.
    destruct (addExpense_with_category expenseDB now spoken (inject_Z n)
                category Hne) as (alerts & Hadd).
    rewrite Hadd. left. exists n, category, alerts. cbn [fst snd]. auto.
  - destruct (Chat.anyOf _ ["balance"; "money left"; "how much"]);
      [right; split; [reflexivity | discriminate]|].
    destruct (Chat.anyOf _ ["analyze"; "spending pattern"; "insights"]);
      [right; split; [reflexivity | discriminate]|].
    destruct (ask "quick-response" spoken);
      right; split; try reflexivity; discriminate.
Qed.

End VoiceProperties.

(* --------------------------------------------------------------------- *)
(** ** Bank statements: parsing, categorizing and accounting *)
(* --------------------------------------------------------------------- *)

Lemma parseTransactionRow_amount (r : Statement.row)
    (t : Statement.RawTransaction) :
  Statement.parseTransactionRow r = Some t ->
  (5 <= List.length r)%nat
  /\ F64.ltb F64.zero (Statement.amount t) = true
  /\ Statement.isIncome t = negb (JS.includes (Statement.cell r 2) "-")
  /\ Statement.name t = JS.trim (Statement.cell r 1).
Proof.
  unfold Statement.parseTransactionRow.
  destruct (List.length r <? 5)%nat eqn:El; [discriminate|].
  apply Nat.ltb_ge in El.
  destruct (F64.isNaN _ || F64.eqb _ F64.zero) eqn:E; [discriminate|].
  intros H. injection H as <-. cbn.
  split; [exact El|]. split; [|split; reflexivity].
  apply abs_positive. exact E.
Qed.

Lemma parseRows_sound (rows : list Statement.row) :
  (List.length (Statement.parseRows rows) <= List.length rows)%nat
  /\ Forall
       (fun t =>
          exists r,
            In r rows /\ Statement.parseTransactionRow r = Some t)
       (Statement.parseRows rows).
Proof.
  induction rows as [|r rest [IHlen IHall]]; [split; [apply le_n | constructor]|].
  assert (Hweak : Forall
            (fun t => exists r0,
               In r0 (r :: rest)
               /\ Statement.parseTransactionRow r0 = Some t)
            (Statement.parseRows rest)).
  { eapply List.Forall_impl; [|exact IHall].
    intros t (r0 & Hin & Hrow). exists r0. split; [right; exact Hin | exact Hrow]. }
  cbn [Statement.parseRows List.length].
  destruct (List.length r <? 5)%nat; [split; [lia | exact Hweak]|].
  destruct (Statement.parseTransactionRow r) as [t|] eqn:Er;
    [|split; [lia | exact Hweak]].
  split; [cbn; lia|].
  constructor; [|exact Hweak].
  exists r. split; [left; reflexivity | exact Er].
Qed.

(** X27. What [parseStatementFile] hands on: a PDF gives no transaction;
    when the reader of a spreadsheet or of a CSV text throws, so does
    [parseStatementFile]; the rows a reader returns give at most one
    transaction per row after the first, whatever that first row holds, and
    every transaction comes from a row of at least five cells, has an amount
    above zero, the name of the row, and is an income exactly when the
    amount cell holds no minus sign. *)
Theorem X27_parsed_transactions (header : Statement.row)
    (rows : list Statement.row) :
  Statement.parseStatementFile Statement.PdfFile = Return []
  /\ (forall error,
        Statement.parseStatementFile (Statement.ExcelFile (Throw error))
        = Throw error
        /\ Statement.parseStatementFile (Statement.CsvFile (Throw error))
           = Throw error)
  /\ Statement.parseStatementFile
       (Statement.ExcelFile (Return (header :: rows)))
     = Return (Statement.parseRows rows)
  /\ Statement.parseStatementFile (Statement.CsvFile (Return (header :: rows)))
     = Return (Statement.parseRows rows)
  /\ (List.length (Statement.parseRows rows) <= List.length rows)%nat
  /\ Forall
       (fun t =>
          F64.ltb F64.zero (Statement.amount t) = true
          /\ exists r,
               In r rows
               /\ (5 <= List.length r)%nat
               /\ Statement.isIncome t
                  = negb (JS.includes (Statement.cell r 2) "-")
               /\ Statement.name t = JS.trim (Statement.cell r 1))
       (Statement.parseRows rows).
Proof.
  split; [reflexivity|]. split; [intros error; split; reflexivity|].
  split; [reflexivity|]. split; [reflexivity|].
  destruct (parseRows_sound rows) as [Hlen Hall].
  split; [exact Hlen|].
  eapply List.Forall_impl; [|exact Hall].
  intros t (r & Hin & Hrow).
  destruct (parseTransactionRow_amount r t Hrow)
    as (Hcells & Hpos & Hsign & Hname).
  split; [exact Hpos|]. exists r. repeat split; auto.
Qed.

Lemma take_length (n : nat) (s : string) :
  (String.length (Statement.take n s) <= n)%nat.
Proof.
  revert s. induction n as [|n IH]; intros s; [cbn; lia|].
  destruct s as [|c s]; cbn; [lia|]. specialize (IH s). lia.
Qed.

Lemma detectIncomeSource_names (merchant : string) :
  In (Statement.detectIncomeSource merchant)
     ["salary"; "freelance"; "business"; "investment"; "rental"; "other"].
Proof.
  unfold Statement.detectIncomeSource. cbv zeta.
  repeat match goal with
         | |- context [if ?b then _ else _] => destruct b
         end; cbn; tauto.
Qed.

Lemma append_empty (x : string) : x +:+ "" = x.
Proof.
  induction x as [|a x IH];
    [reflexivity | rewrite append_cons, IH; reflexivity].
Qed.

Lemma splitRuns_unbroken (x rest current : string) (inRun : bool) :
  Statement.unbroken x = true ->
  x <> "" \/ inRun = false ->
  Statement.splitRuns inRun current (x +:+ rest)
  = Statement.splitRuns false (current +:+ x) rest.
Proof.
  revert current inRun.
  induction x as [|c x IH]; intros current inRun Hx Hrun.
  - destruct Hrun as [Hne| ->]; [contradiction|].
    rewrite append_nil, append_empty. reflexivity.
  - rewrite append_cons. cbn [Statement.unbroken] in Hx.
    apply andb_true_iff in Hx. destruct Hx as [Hc Hx].
    apply andb_true_iff in Hc. destruct Hc as [Hc _].
    apply negb_true_iff in Hc.
    cbn [Statement.splitRuns]. rewrite Hc.
    destruct x as [|c' x'].
    + rewrite append_nil. reflexivity.
    + rewrite (IH (current +:+ String c "") false Hx) by (left; discriminate).
      rewrite append_assoc, append_cons, append_nil. reflexivity.
Qed.

Lemma splitRuns_last (x current : string) (inRun : bool) :
  Statement.unbroken x = true ->
  x <> "" \/ inRun = false ->
  Statement.splitRuns inRun current x = [current +:+ x].
Proof.
  intros Hx Hrun.
  pose proof (splitRuns_unbroken x "" current inRun Hx Hrun) as H.
  rewrite (append_empty x) in H. exact H.
Qed.

Lemma includes_slash (x rest : string) :
  JS.includes (x +:+ String "/" rest) "/" = true.
Proof.
  induction x as [|c x IH].
  - rewrite append_nil. reflexivity.
  - rewrite append_cons. cbn [JS.includes]. rewrite IH. apply orb_true_r.
Qed.

Lemma splitRuns_slash (current rest : string) :
  Statement.splitRuns false current (String "/" rest)
  = current :: Statement.splitRuns true "" rest.
Proof. reflexivity. Qed.

(** A date written day/month/year is read as
    [new Date(year, month - 1, day)]. *)
Lemma transactionDate_of_parts (day month year : string) :
  Statement.unbroken day = true ->
  Statement.unbroken month = true ->
  Statement.unbroken year = true ->
  month <> "" ->
  year <> "" ->
  Statement.transactionDate (day +:+ "/" +:+ month +:+ "/" +:+ year)
  = Statement.DateOfParts (Some day) (Some month) (Some year).
Proof.
  intros Hd Hm Hy Hmonth Hyear. unfold Statement.transactionDate.
  rewrite !append_cons, !append_nil.
  rewrite includes_slash.
  assert (Hsplit : Statement.split (day +:+ String "/" (month +:+ String "/" year))
                   = [day; month; year]).
  { unfold Statement.split.
    rewrite (splitRuns_unbroken day _ "" false Hd) by (right; reflexivity).
    rewrite splitRuns_slash.
    rewrite (splitRuns_unbroken month _ "" true Hm) by (left; exact Hmonth).
    rewrite splitRuns_slash.
    rewrite (splitRuns_last year "" true Hy) by (left; exact Hyear).
    rewrite !append_nil. reflexivity. }
  rewrite Hsplit. reflexivity.
Qed.

Lemma abs_not_negative (x : F64.double) :
  F64.ltb (F64.abs x) F64.zero = false.
Proof. destruct x as [s| s | |s m e]; reflexivity. Qed.

(** X28. [categorizeTransaction] never returns null, so the loop of
    [processTransactionsWithAI] never skips a transaction for that reason.
    The result is an income exactly for an income row; its amount is the
    absolute value of the amount of the row and is never below zero; its
    date is built from the text when that holds no slash, and a date
    written day/month/year in ASCII is read as day, month and year.  An expense carries one of the
    nine category names and a name of at most 50 characters and no income
    source; an income carries one of the six income sources and no
    category. *)
Theorem X28_categorized_transaction (rawTx : Statement.RawTransaction) :
  exists processedTx,
    Statement.categorizeTransaction rawTx = Some processedTx
    /\ Statement.processedAmount processedTx
       = F64.abs (Statement.amount rawTx)
    /\ F64.ltb (Statement.processedAmount processedTx) F64.zero = false
    /\ (JS.includes (Statement.date rawTx) "/" = false ->
        Statement.processedDate processedTx
        = Statement.DateOfText (Statement.date rawTx))
    /\ (forall day month year,
          Statement.date rawTx = day +:+ "/" +:+ month +:+ "/" +:+ year ->
          Statement.unbroken day = true ->
          Statement.unbroken month = true ->
          Statement.unbroken year = true ->
          month <> "" ->
          year <> "" ->
          Statement.processedDate processedTx
          = Statement.DateOfParts (Some day) (Some month) (Some year))
    /\ if Statement.isIncome rawTx
       then Statement.type processedTx = Statement.income
            /\ Statement.category processedTx = None
            /\ (exists source,
                  Statement.sourceType processedTx = Some source
                  /\ In source ["salary"; "freelance"; "business";
                                "investment"; "rental"; "other"])
       else Statement.type processedTx = Statement.expense
            /\ Statement.sourceType processedTx = None
            /\ (String.length (Statement.processedName processedTx) <= 50)%nat
            /\ (exists category,
                  Statement.category processedTx = Some category
                  /\ In category ["food"; "transport"; "entertainment";
                                  "shopping"; "bills"; "healthcare";
                                  "utilities"; "education"; "other"]).
Proof.
  unfold Statement.categorizeTransaction. cbv zeta.
  destruct (Statement.isIncome rawTx); eexists; (split; [reflexivity|]);
    cbn [Statement.type Statement.processedName Statement.processedAmount
         Statement.processedDate Statement.category Statement.sourceType];
    (split; [reflexivity|]); (split; [apply abs_not_negative|]);
    (split; [intros Hslash; unfold Statement.transactionDate;
             rewrite Hslash; reflexivity|]);
    (split; [intros day month year -> Hd Hm Hy Hmonth Hyear;
             apply transactionDate_of_parts; assumption|]).
  - split; [reflexivity|]. split; [reflexivity|].
    eexists. split; [reflexivity | apply detectIncomeSource_names].
  - split; [reflexivity|]. split; [reflexivity|].
    split; [unfold Statement.cleanMerchantName; apply take_length|].
    eexists. split; [reflexivity | apply intelligentCategorization_names].
Qed.

(** The first row of the sample: a payment to Zepto on 1 August. *)
Example zepto_categorized :
  option_map
    (fun t => (Statement.type t, Statement.category t,
               Statement.processedDate t, Statement.processedAmount t))
    (Statement.categorizeTransaction
       {| Statement.name := "Zepto"; Statement.bank := "HDFC";
          Statement.amount := F64.parseFloat "250.50";
          Statement.date := "01/08/2025"; Statement.status := "SUCCESS";
          Statement.isIncome := false |})
  = Some (Statement.expense, Some "food",
          Statement.DateOfParts (Some "01") (Some "08") (Some "2025"),
          F64.parseFloat "250.5").
Proof. reflexivity. Qed.

Lemma includesAny_cons (text keyword : string) (keywords : list string) :
  Statement.includesAny text (keyword :: keywords)
  = JS.includes text keyword || Statement.includesAny text keywords.
Proof. reflexivity. Qed.

(** X29. The rule for [utilities] is shadowed: every keyword of it except
    [mobile] also belongs to [bills] or [transport], which are tried first.
    A merchant is filed under [utilities] only if its name holds [mobile],
    and a name that holds [electricity], [water], [internet] or [gas] never
    is. *)
Theorem X29_utilities_only_by_mobile (merchant : string) :
  Statement.intelligentCategorization merchant = "utilities" ->
  JS.includes (JS.toLowerCase merchant) "mobile" = true
  /\ Statement.includesAny (JS.toLowerCase merchant)
       ["electricity"; "water"; "internet"; "gas"] = false.
Proof.
  unfold Statement.intelligentCategorization. cbv zeta.
  unfold Statement.rules. cbn [List.find fst snd].
  set (m := JS.toLowerCase merchant).
  destruct (Statement.includesAny m
              ["zepto"; "swiggy"; "zomato"; "dominos"; "mcdonalds"; "kfc";
               "meesho"; "grocery"]); [discriminate|].
  destruct (Statement.includesAny m
              ["uber"; "ola"; "metro"; "petrol"; "fuel"; "gas"])
    eqn:Etransport; [discriminate|].
  destruct (Statement.includesAny m
              ["netflix"; "amazon prime"; "spotify"; "bookmyshow"; "cinema"]);
    [discriminate|].
  destruct (Statement.includesAny m
              ["amazon"; "flipkart"; "myntra"; "ajio"; "meesho"; "fashion"]);
    [discriminate|].
  destruct (Statement.includesAny m
              ["jio"; "airtel"; "electricity"; "gas"; "water"; "internet";
               "recharge"]) eqn:Ebills; [discriminate|].
  destruct (Statement.includesAny m
              ["pharma"; "medicose"; "hospital"; "clinic"; "doctor"]);
    [discriminate|].
  destruct (Statement.includesAny m
              ["electricity"; "water"; "gas"; "internet"; "mobile"])
    eqn:Eutilities;
    [|destruct (Statement.includesAny m
                  ["education"; "course"; "training"; "school"; "college"]);
      discriminate].
  intros _.
  unfold Statement.includesAny in *. cbn [existsb] in *.
  repeat rewrite orb_false_r in *.
  repeat match goal with
         | H : _ || _ = false |- _ =>
             apply orb_false_iff in H; destruct H
         end.
  repeat match goal with
         | H : JS.includes m _ = false |- _ => rewrite H in *; clear H
         end.
  cbn [orb] in *. split; [assumption | reflexivity].
Qed.

Lemma X29_witness :
  JS.includes (JS.toLowerCase "Mobile Store") "mobile" = true
  /\ Statement.includesAny (JS.toLowerCase "Mobile Store")
       ["electricity"; "water"; "internet"; "gas"] = false.
Proof.
  apply (X29_utilities_only_by_mobile "Mobile Store"). reflexivity.
Defined.

Section ImportAccounting.

Variable saveTransactionToDatabase :
  nat -> Statement.ProcessedTransaction -> outcome unit.

Abbreviation importOne := (Statement.processOne saveTransactionToDatabase).

Lemma processOne_bounds (p : Statement.progress)
    (rawTx : Statement.RawTransaction) :
  (List.length (Statement.p_errors p) <= Statement.p_skipped p)%nat ->
  (List.length (Statement.p_errors (importOne p rawTx))
   <= Statement.p_skipped (importOne p rawTx))%nat
  /\ (Statement.p_skipped p
      + (if Statement.failedStatus rawTx then 1 else 0)
      <= Statement.p_skipped (importOne p rawTx))%nat.
Proof.
  intros Herrors. unfold Statement.processOne.
  destruct (Statement.failedStatus rawTx).
  - cbn. rewrite List.length_app. cbn. lia.
  - unfold Statement.categorizeTransaction. cbv zeta.
    destruct (Statement.isIncome rawTx);
      cbn [Statement.type Statement.processedAmount Statement.category
           Statement.processedName];
      destruct (saveTransactionToDatabase _ _);
      cbn [Statement.p_errors Statement.p_skipped Statement.skip_one];
      rewrite ?List.length_app; cbn [List.length]; lia.
Qed.

Lemma fold_bounds (transactions : list Statement.RawTransaction)
    (p : Statement.progress) :
  (List.length (Statement.p_errors p) <= Statement.p_skipped p)%nat ->
  let p' := fold_left importOne transactions p in
  (List.length (Statement.p_errors p') <= Statement.p_skipped p')%nat
  /\ (Statement.p_skipped p
      + List.length (List.filter Statement.failedStatus transactions)
      <= Statement.p_skipped p')%nat.
Proof.
  revert p. induction transactions as [|t ts IH]; intros p He.
  - cbn. split; [assumption | lia].
  - destruct (processOne_bounds p t He) as (He' & Hs').
    specialize (IH (importOne p t) He').
    cbv zeta in IH. destruct IH as (IH1 & IH2).
    cbn [fold_left List.filter].
    split; [assumption|].
    destruct (Statement.failedStatus t); cbn [List.length] in *; lia.
Qed.

(** X30. The counters of an import balance, whatever the database does with
    each save.  Every transaction is counted once, as imported or as skipped;
    a transaction whose status says it failed is always among the skipped;
    there are at most as many error messages as skipped transactions; and
    the import succeeds exactly when something was imported. *)
Theorem X30_import_accounting (transactions : list Statement.RawTransaction) :
  let r :=
    Statement.processTransactionsWithAI saveTransactionToDatabase
      transactions in
  Statement.processed r = List.length transactions
  /\ (Statement.imported r + Statement.skipped r = Statement.processed r)%nat
  /\ (List.length (List.filter Statement.failedStatus transactions)
      <= Statement.skipped r)%nat
  /\ (List.length (Statement.errors r) <= Statement.skipped r)%nat
  /\ (Statement.success r = true <-> (0 < Statement.imported r)%nat).
Proof.
  destruct (import_counts saveTransactionToDatabase transactions)
    as (Hp & Hsum).
  cbv zeta in *. unfold Statement.processTransactionsWithAI in *.
  cbn [Statement.processed Statement.imported Statement.skipped
       Statement.errors Statement.success] in *.
  destruct (fold_bounds transactions Statement.start)
    as (He & Hs); [cbn; lia|].
  cbv zeta in *.
  set (p := fold_left _ transactions Statement.start) in *.
  cbn [Statement.start Statement.p_skipped] in Hs.
  split; [exact Hp|]. split; [exact Hsum|]. split; [lia|].
  split; [exact He|]. apply Nat.ltb_lt.
Qed.

End ImportAccounting.
